(** * JerryScript core: object model, general object operations,
      conversions and the interpreter loop

    A shallow embedding of the parts of the engine that the properties below
    are about:

    - [ecma-conversion] (SameValue, ToPrimitive, ToBoolean,
      FromPropertyDescriptor, ToPropertyDescriptor) and Array.isArray,
    - [ecma-objects-general.c] ([[Get]], [[GetOwnProperty]], [[GetProperty]],
      [[Put]], [[CanPut]], [[Delete]], [[DefaultValue]],
      [[DefineOwnProperty]]),
    - [ecma-lex-env] (HasBinding, CreateMutableBinding, SetMutableBinding,
      GetBindingValue, DeleteBinding, ImplicitThisValue, the immutable
      bindings),
    - the relational opcode handlers, [opfunc_nop], [opfunc_exitval],
      [opfunc_ret], [opfunc_retval], [opfunc_meta], [opfunc_typeof],
      [opfunc_var_decl], [opfunc_throw_value], [opfunc_this_binding],
      [opfunc_logical_not] and the interpreter driver ([run_int],
      [run_int_loop], [run_int_from_pos]).

    The heap is an explicit store: objects and property nodes live in two
    finite maps indexed by (non-null) compressed pointers, a null pointer is
    [None].  Every routine takes the heap and returns the new heap next to its
    result.  Fatal outcomes (a violated [JERRY_ASSERT], [JERRY_UNREACHABLE],
    [jerry_exit], a dereference of a pointer that designates no live node) are
    the [Fatal] case of [result].  Reference counting and the collector are
    not modelled. *)

From Stdlib Require Import ZArith String Floats Lia.
From stdpp Require Import base option list gmap strings.

Local Open Scope string_scope.

(** ** Fatal outcomes and the [result] monad *)

Inductive jerry_status_t :=
  | ERR_UNHANDLED_EXCEPTION.

Inductive fatal_t :=
  | assertion_failed (label : string)   (* JERRY_ASSERT (...) does not hold *)
  | unreachable                         (* JERRY_UNREACHABLE () *)
  | jerry_exit (code : jerry_status_t)  (* jerry_exit (code) *)
  | invalid_pointer                     (* the pointer designates no live node *)
  | out_of_fuel.                        (* recursion budget of the model exhausted *)

Inductive result (A : Type) :=
  | Ok (a : A)
  | Fatal (f : fatal_t).
Arguments Ok {A} a.
Arguments Fatal {A} f.

#[global] Instance result_ret : MRet result := @Ok.
#[global] Instance result_bind : MBind result :=
  λ A B f m, match m with Ok a => f a | Fatal e => Fatal e end.

Definition JERRY_ASSERT (label : string) (cond : bool) : result unit :=
  if cond then Ok () else Fatal (assertion_failed label).

Definition is_Ok {A} (r : result A) : bool :=
  match r with Ok _ => true | Fatal _ => false end.

(** ** Values *)

Inductive ecma_simple_value_t :=
  | ECMA_SIMPLE_VALUE_EMPTY
  | ECMA_SIMPLE_VALUE_UNDEFINED
  | ECMA_SIMPLE_VALUE_NULL
  | ECMA_SIMPLE_VALUE_FALSE
  | ECMA_SIMPLE_VALUE_TRUE
  | ECMA_SIMPLE_VALUE_ARRAY_HOLE.

(** Numbers are IEEE-754 doubles; a string value is modelled by its
    characters, an object value by the pointer of the object. *)
Abbreviation ecma_number_t := float (only parsing).
Abbreviation ecma_object_ptr_t := positive (only parsing).
Abbreviation ecma_property_ptr_t := positive (only parsing).

Inductive ecma_value_t :=
  | ecma_value_simple (s : ecma_simple_value_t)
  | ecma_value_number (n : ecma_number_t)
  | ecma_value_string (s : string)
  | ecma_value_object (o : ecma_object_ptr_t).

Definition simple_eqb (a b : ecma_simple_value_t) : bool :=
  match a, b with
  | ECMA_SIMPLE_VALUE_EMPTY, ECMA_SIMPLE_VALUE_EMPTY
  | ECMA_SIMPLE_VALUE_UNDEFINED, ECMA_SIMPLE_VALUE_UNDEFINED
  | ECMA_SIMPLE_VALUE_NULL, ECMA_SIMPLE_VALUE_NULL
  | ECMA_SIMPLE_VALUE_FALSE, ECMA_SIMPLE_VALUE_FALSE
  | ECMA_SIMPLE_VALUE_TRUE, ECMA_SIMPLE_VALUE_TRUE
  | ECMA_SIMPLE_VALUE_ARRAY_HOLE, ECMA_SIMPLE_VALUE_ARRAY_HOLE => true
  | _, _ => false
  end.

Definition ecma_is_value_simple (v : ecma_value_t) (s : ecma_simple_value_t) : bool :=
  match v with ecma_value_simple s' => simple_eqb s' s | _ => false end.

Definition ecma_is_value_empty v := ecma_is_value_simple v ECMA_SIMPLE_VALUE_EMPTY.
Definition ecma_is_value_undefined v := ecma_is_value_simple v ECMA_SIMPLE_VALUE_UNDEFINED.
Definition ecma_is_value_null v := ecma_is_value_simple v ECMA_SIMPLE_VALUE_NULL.
Definition ecma_is_value_true v := ecma_is_value_simple v ECMA_SIMPLE_VALUE_TRUE.
Definition ecma_is_value_boolean v :=
  ecma_is_value_simple v ECMA_SIMPLE_VALUE_FALSE || ecma_is_value_simple v ECMA_SIMPLE_VALUE_TRUE.
Definition ecma_is_value_number v :=
  match v with ecma_value_number _ => true | _ => false end.
Definition ecma_is_value_string v :=
  match v with ecma_value_string _ => true | _ => false end.
Definition ecma_is_value_object v :=
  match v with ecma_value_object _ => true | _ => false end.

Definition ecma_get_object_from_value (v : ecma_value_t) : result ecma_object_ptr_t :=
  match v with
  | ecma_value_object o => Ok o
  | _ => Fatal (assertion_failed "ecma_is_value_object (value)")
  end.

Definition ecma_value_of_bool (b : bool) : ecma_value_t :=
  ecma_value_simple (if b then ECMA_SIMPLE_VALUE_TRUE else ECMA_SIMPLE_VALUE_FALSE).

(** ** Completion values *)

Inductive ecma_completion_type_t :=
  | ECMA_COMPLETION_TYPE_NORMAL
  | ECMA_COMPLETION_TYPE_RETURN
  | ECMA_COMPLETION_TYPE_THROW
  | ECMA_COMPLETION_TYPE_EXIT
  | ECMA_COMPLETION_TYPE_META.

Record ecma_completion_value_t := ecma_completion_value {
  completion_type : ecma_completion_type_t;
  completion_value : ecma_value_t
}.

Definition ecma_make_normal_completion_value (v : ecma_value_t) :=
  ecma_completion_value ECMA_COMPLETION_TYPE_NORMAL v.
Definition ecma_make_simple_completion_value (s : ecma_simple_value_t) :=
  ecma_make_normal_completion_value (ecma_value_simple s).
Definition ecma_make_empty_completion_value :=
  ecma_make_simple_completion_value ECMA_SIMPLE_VALUE_EMPTY.
Definition ecma_make_throw_completion_value (v : ecma_value_t) :=
  ecma_completion_value ECMA_COMPLETION_TYPE_THROW v.
Definition ecma_make_throw_obj_completion_value (o : ecma_object_ptr_t) :=
  ecma_make_throw_completion_value (ecma_value_object o).
Definition ecma_make_return_completion_value (v : ecma_value_t) :=
  ecma_completion_value ECMA_COMPLETION_TYPE_RETURN v.
Definition ecma_make_exit_completion_value (is_successful : bool) :=
  ecma_completion_value ECMA_COMPLETION_TYPE_EXIT (ecma_value_of_bool is_successful).
Definition ecma_make_meta_completion_value :=
  ecma_completion_value ECMA_COMPLETION_TYPE_META (ecma_value_simple ECMA_SIMPLE_VALUE_EMPTY).

Definition ecma_is_completion_value_normal (c : ecma_completion_value_t) : bool :=
  match completion_type c with ECMA_COMPLETION_TYPE_NORMAL => true | _ => false end.
Definition ecma_is_completion_value_throw (c : ecma_completion_value_t) : bool :=
  match completion_type c with ECMA_COMPLETION_TYPE_THROW => true | _ => false end.
Definition ecma_is_completion_value_return (c : ecma_completion_value_t) : bool :=
  match completion_type c with ECMA_COMPLETION_TYPE_RETURN => true | _ => false end.
Definition ecma_is_completion_value_exit (c : ecma_completion_value_t) : bool :=
  match completion_type c with ECMA_COMPLETION_TYPE_EXIT => true | _ => false end.
Definition ecma_is_completion_value_meta (c : ecma_completion_value_t) : bool :=
  match completion_type c with ECMA_COMPLETION_TYPE_META => true | _ => false end.
Definition ecma_is_completion_value_normal_simple_value
    (c : ecma_completion_value_t) (s : ecma_simple_value_t) : bool :=
  ecma_is_completion_value_normal c && ecma_is_value_simple (completion_value c) s.
Definition ecma_is_completion_value_empty c :=
  ecma_is_completion_value_normal_simple_value c ECMA_SIMPLE_VALUE_EMPTY.
Definition ecma_is_completion_value_normal_true c :=
  ecma_is_completion_value_normal_simple_value c ECMA_SIMPLE_VALUE_TRUE.
Definition ecma_is_completion_value_normal_false c :=
  ecma_is_completion_value_normal_simple_value c ECMA_SIMPLE_VALUE_FALSE.

(** [ECMA_TRY_CATCH (ret_value, op, var, ...) ... ECMA_FINALIZE (var)]:
    a completion of [op] that is not normal becomes the return value and the
    guarded block is skipped; otherwise the block runs with the value. *)
Definition ECMA_TRY_CATCH {A} (c : ecma_completion_value_t)
    (block : ecma_value_t → A) (propagate : ecma_completion_value_t → A) : A :=
  if ecma_is_completion_value_normal c then block (completion_value c) else propagate c.

(** ** Magic strings, internal property identifiers, object types *)

Inductive ecma_magic_string_id_t :=
  | ECMA_MAGIC_STRING_ENUMERABLE
  | ECMA_MAGIC_STRING_CONFIGURABLE
  | ECMA_MAGIC_STRING_VALUE
  | ECMA_MAGIC_STRING_WRITABLE
  | ECMA_MAGIC_STRING_GET
  | ECMA_MAGIC_STRING_SET
  | ECMA_MAGIC_STRING_TO_STRING_UL
  | ECMA_MAGIC_STRING_VALUE_OF_UL
  | ECMA_MAGIC_STRING_OBJECT_UL
  | ECMA_MAGIC_STRING_DATE_UL
  | ECMA_MAGIC_STRING_ARRAY_UL
  | ECMA_MAGIC_STRING_UNDEFINED
  | ECMA_MAGIC_STRING_OBJECT
  | ECMA_MAGIC_STRING_BOOLEAN
  | ECMA_MAGIC_STRING_NUMBER
  | ECMA_MAGIC_STRING_STRING
  | ECMA_MAGIC_STRING_FUNCTION.

Definition ecma_get_magic_string (id : ecma_magic_string_id_t) : string :=
  match id with
  | ECMA_MAGIC_STRING_ENUMERABLE => "enumerable"
  | ECMA_MAGIC_STRING_CONFIGURABLE => "configurable"
  | ECMA_MAGIC_STRING_VALUE => "value"
  | ECMA_MAGIC_STRING_WRITABLE => "writable"
  | ECMA_MAGIC_STRING_GET => "get"
  | ECMA_MAGIC_STRING_SET => "set"
  | ECMA_MAGIC_STRING_TO_STRING_UL => "toString"
  | ECMA_MAGIC_STRING_VALUE_OF_UL => "valueOf"
  | ECMA_MAGIC_STRING_OBJECT_UL => "Object"
  | ECMA_MAGIC_STRING_DATE_UL => "Date"
  | ECMA_MAGIC_STRING_ARRAY_UL => "Array"
  | ECMA_MAGIC_STRING_UNDEFINED => "undefined"
  | ECMA_MAGIC_STRING_OBJECT => "object"
  | ECMA_MAGIC_STRING_BOOLEAN => "boolean"
  | ECMA_MAGIC_STRING_NUMBER => "number"
  | ECMA_MAGIC_STRING_STRING => "string"
  | ECMA_MAGIC_STRING_FUNCTION => "function"
  end.

Definition magic_string_is_date (id : ecma_magic_string_id_t) : bool :=
  match id with ECMA_MAGIC_STRING_DATE_UL => true | _ => false end.

Inductive ecma_internal_property_id_t :=
  | ECMA_INTERNAL_PROPERTY_CLASS
  | ECMA_INTERNAL_PROPERTY_SCOPE
  | ECMA_INTERNAL_PROPERTY_FORMAL_PARAMETERS
  | ECMA_INTERNAL_PROPERTY_PRIMITIVE_VALUE
  | ECMA_INTERNAL_PROPERTY_CODE.

Definition internal_property_id_eqb (a b : ecma_internal_property_id_t) : bool :=
  match a, b with
  | ECMA_INTERNAL_PROPERTY_CLASS, ECMA_INTERNAL_PROPERTY_CLASS
  | ECMA_INTERNAL_PROPERTY_SCOPE, ECMA_INTERNAL_PROPERTY_SCOPE
  | ECMA_INTERNAL_PROPERTY_FORMAL_PARAMETERS, ECMA_INTERNAL_PROPERTY_FORMAL_PARAMETERS
  | ECMA_INTERNAL_PROPERTY_PRIMITIVE_VALUE, ECMA_INTERNAL_PROPERTY_PRIMITIVE_VALUE
  | ECMA_INTERNAL_PROPERTY_CODE, ECMA_INTERNAL_PROPERTY_CODE => true
  | _, _ => false
  end.

(** Payload of an internal property: a magic string identifier (class tag)
    or a raw 32-bit word. *)
Inductive ecma_internal_property_value_t :=
  | internal_magic_string (id : ecma_magic_string_id_t)
  | internal_word (w : N).

Inductive ecma_object_type_t :=
  | ECMA_OBJECT_TYPE_GENERAL
  | ECMA_OBJECT_TYPE_FUNCTION
  | ECMA_OBJECT_TYPE_ARRAY
  | ECMA_OBJECT_TYPE_ARGUMENTS
  | ECMA_OBJECT_TYPE_STRING.

Inductive ecma_builtin_id_t :=
  | ECMA_BUILTIN_ID_GLOBAL
  | ECMA_BUILTIN_ID_OBJECT_PROTOTYPE.

Inductive ecma_standard_error_t :=
  | ECMA_ERROR_TYPE
  | ECMA_ERROR_REFERENCE.

Inductive ecma_preferred_type_hint_t :=
  | ECMA_PREFERRED_TYPE_NO
  | ECMA_PREFERRED_TYPE_NUMBER
  | ECMA_PREFERRED_TYPE_STRING.

(** ** Properties, objects and the heap *)

Inductive ecma_property_t :=
  | ECMA_PROPERTY_NAMEDDATA (name : string) (value : ecma_value_t)
      (writable enumerable configurable : bool)
  | ECMA_PROPERTY_NAMEDACCESSOR (name : string) (get_p set_p : option ecma_object_ptr_t)
      (enumerable configurable : bool)
  | ECMA_PROPERTY_INTERNAL (id : ecma_internal_property_id_t)
      (value : ecma_internal_property_value_t).

(** The object header: a generic object or a lexical environment (declarative
    or object-bound). *)
Inductive ecma_object_header_t :=
  | header_object (prototype_object_p : option ecma_object_ptr_t) (extensible : bool)
      (type : ecma_object_type_t) (is_builtin : bool)
  | header_decl_lex_env (outer_reference_p : option ecma_object_ptr_t)
  | header_object_lex_env (outer_reference_p : option ecma_object_ptr_t)
      (binding_obj_p : ecma_object_ptr_t) (provide_this : bool).

Record ecma_object_t := ecma_object {
  object_header : ecma_object_header_t;
  object_properties : list ecma_property_ptr_t   (* the linked property list, head first *)
}.

Record ecma_heap := mk_heap {
  heap_objects : gmap positive ecma_object_t;
  heap_properties : gmap positive ecma_property_t
}.

(** Property descriptor (ECMA-262 v5, 8.10). *)
Record ecma_property_descriptor_t := mk_prop_desc {
  is_value_defined : bool;
  is_get_defined : bool;
  is_set_defined : bool;
  is_writable_defined : bool;
  is_writable : bool;
  is_enumerable_defined : bool;
  is_enumerable : bool;
  is_configurable_defined : bool;
  is_configurable : bool;
  value : ecma_value_t;
  get_p : option ecma_object_ptr_t;
  set_p : option ecma_object_ptr_t
}.

(** Modelled from the spec: [ecma_make_empty_property_descriptor] is declared
    in ecma-helpers.h only; an empty descriptor has all [*_defined] flags
    false. *)
Definition ecma_make_empty_property_descriptor : ecma_property_descriptor_t :=
  {| is_value_defined := false; is_get_defined := false; is_set_defined := false;
     is_writable_defined := false; is_writable := false;
     is_enumerable_defined := false; is_enumerable := false;
     is_configurable_defined := false; is_configurable := false;
     value := ecma_value_simple ECMA_SIMPLE_VALUE_UNDEFINED;
     get_p := None; set_p := None |}.

(** [with_*] is one assignment to a field; [set_x d b] is the pair of
    assignments [d.is_x_defined = true; d.x = b]. *)
Definition with_value (d : ecma_property_descriptor_t) (v : ecma_value_t) :=
  mk_prop_desc (is_value_defined d) (is_get_defined d) (is_set_defined d)
    (is_writable_defined d) (is_writable d) (is_enumerable_defined d) (is_enumerable d)
    (is_configurable_defined d) (is_configurable d) v (get_p d) (set_p d).
Definition with_is_value_defined (d : ecma_property_descriptor_t) (b : bool) :=
  mk_prop_desc b (is_get_defined d) (is_set_defined d)
    (is_writable_defined d) (is_writable d) (is_enumerable_defined d) (is_enumerable d)
    (is_configurable_defined d) (is_configurable d) (value d) (get_p d) (set_p d).
Definition set_get (d : ecma_property_descriptor_t) (g : option ecma_object_ptr_t) :=
  mk_prop_desc (is_value_defined d) true (is_set_defined d)
    (is_writable_defined d) (is_writable d) (is_enumerable_defined d) (is_enumerable d)
    (is_configurable_defined d) (is_configurable d) (value d) g (set_p d).
Definition set_set (d : ecma_property_descriptor_t) (s : option ecma_object_ptr_t) :=
  mk_prop_desc (is_value_defined d) (is_get_defined d) true
    (is_writable_defined d) (is_writable d) (is_enumerable_defined d) (is_enumerable d)
    (is_configurable_defined d) (is_configurable d) (value d) (get_p d) s.
Definition set_writable (d : ecma_property_descriptor_t) (b : bool) :=
  mk_prop_desc (is_value_defined d) (is_get_defined d) (is_set_defined d)
    true b (is_enumerable_defined d) (is_enumerable d)
    (is_configurable_defined d) (is_configurable d) (value d) (get_p d) (set_p d).
Definition set_enumerable (d : ecma_property_descriptor_t) (b : bool) :=
  mk_prop_desc (is_value_defined d) (is_get_defined d) (is_set_defined d)
    (is_writable_defined d) (is_writable d) true b
    (is_configurable_defined d) (is_configurable d) (value d) (get_p d) (set_p d).
Definition set_configurable (d : ecma_property_descriptor_t) (b : bool) :=
  mk_prop_desc (is_value_defined d) (is_get_defined d) (is_set_defined d)
    (is_writable_defined d) (is_writable d) (is_enumerable_defined d) (is_enumerable d)
    true b (value d) (get_p d) (set_p d).

(** ** Heap access helpers (ecma-helpers.h)

    Modelled from the spec: the helpers below are declared in ecma-helpers.h
    and their bodies are not part of the sources.  An object owns a singly
    linked list of property nodes; [[GetOwnProperty]] returns the node with
    the given name or nothing; a deleted node is unlinked and released. *)

Definition heap_get_object (h : ecma_heap) (o : ecma_object_ptr_t) : result ecma_object_t :=
  match heap_objects h !! o with
  | Some obj => Ok obj
  | None => Fatal invalid_pointer
  end.

Definition heap_get_property (h : ecma_heap) (p : ecma_property_ptr_t) : result ecma_property_t :=
  match heap_properties h !! p with
  | Some node => Ok node
  | None => Fatal invalid_pointer
  end.

Definition heap_set_object (h : ecma_heap) (o : ecma_object_ptr_t) (obj : ecma_object_t) : ecma_heap :=
  mk_heap (<[o := obj]> (heap_objects h)) (heap_properties h).

Definition heap_set_property (h : ecma_heap) (p : ecma_property_ptr_t) (node : ecma_property_t) : ecma_heap :=
  mk_heap (heap_objects h) (<[p := node]> (heap_properties h)).

Definition heap_free_property (h : ecma_heap) (p : ecma_property_ptr_t) : ecma_heap :=
  mk_heap (heap_objects h) (delete p (heap_properties h)).

Definition ecma_is_lexical_environment (h : ecma_heap) (o : ecma_object_ptr_t) : result bool :=
  obj ← heap_get_object h o;
  Ok (match object_header obj with header_object _ _ _ _ => false | _ => true end).

Definition ecma_get_object_extensible (h : ecma_heap) (o : ecma_object_ptr_t) : result bool :=
  obj ← heap_get_object h o;
  match object_header obj with
  | header_object _ extensible _ _ => Ok extensible
  | _ => Fatal (assertion_failed "!ecma_is_lexical_environment (object_p)")
  end.

Definition ecma_get_object_prototype (h : ecma_heap) (o : ecma_object_ptr_t)
    : result (option ecma_object_ptr_t) :=
  obj ← heap_get_object h o;
  match object_header obj with
  | header_object prototype_object_p _ _ _ => Ok prototype_object_p
  | _ => Fatal (assertion_failed "!ecma_is_lexical_environment (object_p)")
  end.

Definition ecma_get_property_list (h : ecma_heap) (o : ecma_object_ptr_t)
    : result (list ecma_property_ptr_t) :=
  obj ← heap_get_object h o;
  Ok (object_properties obj).

Definition ecma_create_object (h : ecma_heap) (prototype_object_p : option ecma_object_ptr_t)
    (is_extensible : bool) (type : ecma_object_type_t) : ecma_object_ptr_t * ecma_heap :=
  let o := fresh (dom (heap_objects h)) in
  (o, heap_set_object h o
        (ecma_object (header_object prototype_object_p is_extensible type false) [])).

Fixpoint find_named_property_in (h : ecma_heap) (l : list ecma_property_ptr_t) (name_p : string)
    : result (option ecma_property_ptr_t) :=
  match l with
  | [] => Ok None
  | p :: l' =>
      node ← heap_get_property h p;
      match node with
      | ECMA_PROPERTY_NAMEDDATA n _ _ _ _
      | ECMA_PROPERTY_NAMEDACCESSOR n _ _ _ _ =>
          if String.eqb n name_p then Ok (Some p) else find_named_property_in h l' name_p
      | ECMA_PROPERTY_INTERNAL _ _ => find_named_property_in h l' name_p
      end
  end.

Definition ecma_find_named_property (h : ecma_heap) (obj_p : ecma_object_ptr_t) (name_p : string)
    : result (option ecma_property_ptr_t) :=
  l ← ecma_get_property_list h obj_p;
  find_named_property_in h l name_p.

Fixpoint find_internal_property_in (h : ecma_heap) (l : list ecma_property_ptr_t)
    (property_id : ecma_internal_property_id_t) : result (option ecma_property_ptr_t) :=
  match l with
  | [] => Ok None
  | p :: l' =>
      node ← heap_get_property h p;
      match node with
      | ECMA_PROPERTY_INTERNAL id _ =>
          if internal_property_id_eqb id property_id then Ok (Some p)
          else find_internal_property_in h l' property_id
      | _ => find_internal_property_in h l' property_id
      end
  end.

Definition ecma_find_internal_property (h : ecma_heap) (object_p : ecma_object_ptr_t)
    (property_id : ecma_internal_property_id_t) : result (option ecma_property_ptr_t) :=
  l ← ecma_get_property_list h object_p;
  find_internal_property_in h l property_id.

Definition ecma_get_internal_property (h : ecma_heap) (object_p : ecma_object_ptr_t)
    (property_id : ecma_internal_property_id_t) : result ecma_property_ptr_t :=
  r ← ecma_find_internal_property h object_p property_id;
  match r with
  | Some p => Ok p
  | None => Fatal (assertion_failed "property_p != NULL")
  end.

Definition internal_property_value (h : ecma_heap) (p : ecma_property_ptr_t)
    : result ecma_internal_property_value_t :=
  node ← heap_get_property h p;
  match node with
  | ECMA_PROPERTY_INTERNAL _ v => Ok v
  | _ => Fatal (assertion_failed "prop_p->type == ECMA_PROPERTY_INTERNAL")
  end.

(** A new node is allocated at an unused address and linked at the head of the
    property list of the object. *)
Definition link_new_property (h : ecma_heap) (obj_p : ecma_object_ptr_t) (node : ecma_property_t)
    : result (ecma_property_ptr_t * ecma_heap) :=
  obj ← heap_get_object h obj_p;
  let p := fresh (dom (heap_properties h)) in
  Ok (p, heap_set_object (heap_set_property h p node) obj_p
           (ecma_object (object_header obj) (p :: object_properties obj))).

Definition ecma_create_internal_property (h : ecma_heap) (object_p : ecma_object_ptr_t)
    (property_id : ecma_internal_property_id_t) : result (ecma_property_ptr_t * ecma_heap) :=
  r ← ecma_find_internal_property h object_p property_id;
  _ ← JERRY_ASSERT "ecma_find_internal_property (object_p, property_id) == NULL"
        (bool_decide (r = None));
  link_new_property h object_p (ECMA_PROPERTY_INTERNAL property_id (internal_word 0)).

Definition ecma_set_internal_property_value (h : ecma_heap) (p : ecma_property_ptr_t)
    (v : ecma_internal_property_value_t) : result ecma_heap :=
  node ← heap_get_property h p;
  match node with
  | ECMA_PROPERTY_INTERNAL id _ => Ok (heap_set_property h p (ECMA_PROPERTY_INTERNAL id v))
  | _ => Fatal (assertion_failed "prop_p->type == ECMA_PROPERTY_INTERNAL")
  end.

Definition ecma_create_named_data_property (h : ecma_heap) (obj_p : ecma_object_ptr_t)
    (name_p : string) (is_writable is_enumerable is_configurable : bool)
    : result (ecma_property_ptr_t * ecma_heap) :=
  r ← ecma_find_named_property h obj_p name_p;
  _ ← JERRY_ASSERT "ecma_find_named_property (obj_p, name_p) == NULL" (bool_decide (r = None));
  link_new_property h obj_p
    (ECMA_PROPERTY_NAMEDDATA name_p (ecma_value_simple ECMA_SIMPLE_VALUE_UNDEFINED)
       is_writable is_enumerable is_configurable).

Definition ecma_create_named_accessor_property (h : ecma_heap) (obj_p : ecma_object_ptr_t)
    (name_p : string) (get_p set_p : option ecma_object_ptr_t)
    (is_enumerable is_configurable : bool) : result (ecma_property_ptr_t * ecma_heap) :=
  r ← ecma_find_named_property h obj_p name_p;
  _ ← JERRY_ASSERT "ecma_find_named_property (obj_p, name_p) == NULL" (bool_decide (r = None));
  link_new_property h obj_p
    (ECMA_PROPERTY_NAMEDACCESSOR name_p get_p set_p is_enumerable is_configurable).

Fixpoint unlink_property (l : list ecma_property_ptr_t) (p : ecma_property_ptr_t)
    : option (list ecma_property_ptr_t) :=
  match l with
  | [] => None
  | q :: l' =>
      if Pos.eqb q p then Some l'
      else match unlink_property l' p with
           | Some r => Some (q :: r)
           | None => None
           end
  end.

(** The node is searched in the list of the object, released and unlinked;
    a node that is not in the list is [JERRY_UNREACHABLE]. *)
Definition ecma_delete_property (h : ecma_heap) (obj_p : ecma_object_ptr_t)
    (prop_p : ecma_property_ptr_t) : result ecma_heap :=
  obj ← heap_get_object h obj_p;
  match unlink_property (object_properties obj) prop_p with
  | Some l' =>
      _ ← heap_get_property h prop_p;
      Ok (heap_set_object (heap_free_property h prop_p) obj_p
            (ecma_object (object_header obj) l'))
  | None => Fatal unreachable
  end.

Definition ecma_get_named_data_property_value (h : ecma_heap) (prop_p : ecma_property_ptr_t)
    : result ecma_value_t :=
  node ← heap_get_property h prop_p;
  match node with
  | ECMA_PROPERTY_NAMEDDATA _ v _ _ _ => Ok v
  | _ => Fatal (assertion_failed "prop_p->type == ECMA_PROPERTY_NAMEDDATA")
  end.

Definition ecma_named_data_property_assign_value (h : ecma_heap) (obj_p : ecma_object_ptr_t)
    (prop_p : ecma_property_ptr_t) (v : ecma_value_t) : result ecma_heap :=
  node ← heap_get_property h prop_p;
  match node with
  | ECMA_PROPERTY_NAMEDDATA n _ w e c =>
      Ok (heap_set_property h prop_p (ECMA_PROPERTY_NAMEDDATA n v w e c))
  | _ => Fatal (assertion_failed "prop_p->type == ECMA_PROPERTY_NAMEDDATA")
  end.

Definition ecma_is_property_writable (h : ecma_heap) (prop_p : ecma_property_ptr_t) : result bool :=
  node ← heap_get_property h prop_p;
  match node with
  | ECMA_PROPERTY_NAMEDDATA _ _ w _ _ => Ok w
  | _ => Fatal (assertion_failed "prop_p->type == ECMA_PROPERTY_NAMEDDATA")
  end.

Definition ecma_set_property_writable_attr (h : ecma_heap) (prop_p : ecma_property_ptr_t)
    (is_writable : bool) : result ecma_heap :=
  node ← heap_get_property h prop_p;
  match node with
  | ECMA_PROPERTY_NAMEDDATA n v _ e c =>
      Ok (heap_set_property h prop_p (ECMA_PROPERTY_NAMEDDATA n v is_writable e c))
  | _ => Fatal (assertion_failed "prop_p->type == ECMA_PROPERTY_NAMEDDATA")
  end.

Definition ecma_is_property_enumerable (h : ecma_heap) (prop_p : ecma_property_ptr_t) : result bool :=
  node ← heap_get_property h prop_p;
  match node with
  | ECMA_PROPERTY_NAMEDDATA _ _ _ e _ => Ok e
  | ECMA_PROPERTY_NAMEDACCESSOR _ _ _ e _ => Ok e
  | _ => Fatal (assertion_failed "prop_p->type == ECMA_PROPERTY_NAMEDACCESSOR")
  end.

Definition ecma_set_property_enumerable_attr (h : ecma_heap) (prop_p : ecma_property_ptr_t)
    (is_enumerable : bool) : result ecma_heap :=
  node ← heap_get_property h prop_p;
  match node with
  | ECMA_PROPERTY_NAMEDDATA n v w _ c =>
      Ok (heap_set_property h prop_p (ECMA_PROPERTY_NAMEDDATA n v w is_enumerable c))
  | ECMA_PROPERTY_NAMEDACCESSOR n g s _ c =>
      Ok (heap_set_property h prop_p (ECMA_PROPERTY_NAMEDACCESSOR n g s is_enumerable c))
  | _ => Fatal (assertion_failed "prop_p->type == ECMA_PROPERTY_NAMEDACCESSOR")
  end.

Definition ecma_is_property_configurable (h : ecma_heap) (prop_p : ecma_property_ptr_t) : result bool :=
  node ← heap_get_property h prop_p;
  match node with
  | ECMA_PROPERTY_NAMEDDATA _ _ _ _ c => Ok c
  | ECMA_PROPERTY_NAMEDACCESSOR _ _ _ _ c => Ok c
  | _ => Fatal (assertion_failed "prop_p->type == ECMA_PROPERTY_NAMEDACCESSOR")
  end.

Definition ecma_set_property_configurable_attr (h : ecma_heap) (prop_p : ecma_property_ptr_t)
    (is_configurable : bool) : result ecma_heap :=
  node ← heap_get_property h prop_p;
  match node with
  | ECMA_PROPERTY_NAMEDDATA n v w e _ =>
      Ok (heap_set_property h prop_p (ECMA_PROPERTY_NAMEDDATA n v w e is_configurable))
  | ECMA_PROPERTY_NAMEDACCESSOR n g s e _ =>
      Ok (heap_set_property h prop_p (ECMA_PROPERTY_NAMEDACCESSOR n g s e is_configurable))
  | _ => Fatal (assertion_failed "prop_p->type == ECMA_PROPERTY_NAMEDACCESSOR")
  end.

(** [prop_p->u.named_accessor_property.get_p] and [.set_p]. *)
Definition named_accessor_property_get_p (h : ecma_heap) (prop_p : ecma_property_ptr_t)
    : result (option ecma_object_ptr_t) :=
  node ← heap_get_property h prop_p;
  match node with
  | ECMA_PROPERTY_NAMEDACCESSOR _ g _ _ _ => Ok g
  | _ => Fatal (assertion_failed "prop_p->type == ECMA_PROPERTY_NAMEDACCESSOR")
  end.

Definition named_accessor_property_set_p (h : ecma_heap) (prop_p : ecma_property_ptr_t)
    : result (option ecma_object_ptr_t) :=
  node ← heap_get_property h prop_p;
  match node with
  | ECMA_PROPERTY_NAMEDACCESSOR _ _ s _ _ => Ok s
  | _ => Fatal (assertion_failed "prop_p->type == ECMA_PROPERTY_NAMEDACCESSOR")
  end.

Definition set_named_accessor_property_get_p (h : ecma_heap) (prop_p : ecma_property_ptr_t)
    (get_p : option ecma_object_ptr_t) : result ecma_heap :=
  node ← heap_get_property h prop_p;
  match node with
  | ECMA_PROPERTY_NAMEDACCESSOR n _ s e c =>
      Ok (heap_set_property h prop_p (ECMA_PROPERTY_NAMEDACCESSOR n get_p s e c))
  | _ => Fatal (assertion_failed "prop_p->type == ECMA_PROPERTY_NAMEDACCESSOR")
  end.

Definition set_named_accessor_property_set_p (h : ecma_heap) (prop_p : ecma_property_ptr_t)
    (set_p : option ecma_object_ptr_t) : result ecma_heap :=
  node ← heap_get_property h prop_p;
  match node with
  | ECMA_PROPERTY_NAMEDACCESSOR n g _ e c =>
      Ok (heap_set_property h prop_p (ECMA_PROPERTY_NAMEDACCESSOR n g set_p e c))
  | _ => Fatal (assertion_failed "prop_p->type == ECMA_PROPERTY_NAMEDACCESSOR")
  end.

(** [prop_p->type] *)
Inductive ecma_property_type_t :=
  | ECMA_PROPERTY_TYPE_NAMEDDATA
  | ECMA_PROPERTY_TYPE_NAMEDACCESSOR
  | ECMA_PROPERTY_TYPE_INTERNAL.

Definition property_type (h : ecma_heap) (prop_p : ecma_property_ptr_t)
    : result ecma_property_type_t :=
  node ← heap_get_property h prop_p;
  Ok (match node with
      | ECMA_PROPERTY_NAMEDDATA _ _ _ _ _ => ECMA_PROPERTY_TYPE_NAMEDDATA
      | ECMA_PROPERTY_NAMEDACCESSOR _ _ _ _ _ => ECMA_PROPERTY_TYPE_NAMEDACCESSOR
      | ECMA_PROPERTY_INTERNAL _ _ => ECMA_PROPERTY_TYPE_INTERNAL
      end).

Definition is_named_data (t : ecma_property_type_t) : bool :=
  match t with ECMA_PROPERTY_TYPE_NAMEDDATA => true | _ => false end.
Definition is_named_accessor (t : ecma_property_type_t) : bool :=
  match t with ECMA_PROPERTY_TYPE_NAMEDACCESSOR => true | _ => false end.

(** ** Predicates on heaps, used to state the properties *)

(** Every node of the list is a live node. *)
Definition live (h : ecma_heap) (l : list ecma_property_ptr_t) : Prop :=
  Forall (λ p, is_Some (heap_properties h !! p)) l.

(** The object owns the property list [l] (and the header [hdr]), all of
    whose nodes are live. *)
Definition owns (h : ecma_heap) (obj_p : ecma_object_ptr_t) (hdr : ecma_object_header_t)
    (l : list ecma_property_ptr_t) : Prop :=
  heap_objects h !! obj_p = Some (ecma_object hdr l) ∧ live h l.

(** The object owns the named data property [name] with the given value
    and attributes. *)
Definition own_data_property (h : ecma_heap) (obj_p : ecma_object_ptr_t) (name : string)
    (v : ecma_value_t) (w e c : bool) : Prop :=
  ∃ p, ecma_find_named_property h obj_p name = Ok (Some p)
       ∧ heap_properties h !! p = Some (ECMA_PROPERTY_NAMEDDATA name v w e c).

(** ** Collaborators of the object model

    Function objects, the built-in registry and the error constructors are
    outside the modelled sources (they are only declared in
    ecma-function-object.h and used through their interfaces), so they are
    operations of an interface. *)
Class EcmaHost := {
  (** [[Call]] of a function object: this value, argument list *)
  ecma_op_function_call :
    ecma_heap → ecma_object_ptr_t → ecma_value_t → list ecma_value_t →
    result (ecma_completion_value_t * ecma_heap);
  (** IsCallable *)
  ecma_op_is_callable : ecma_heap → ecma_value_t → bool;
  (** allocation of a standard error object *)
  ecma_new_standard_error :
    ecma_heap → ecma_standard_error_t → ecma_object_ptr_t * ecma_heap;
  (** access to (and instantiation of) a built-in object *)
  ecma_builtin_get : ecma_heap → ecma_builtin_id_t → ecma_object_ptr_t * ecma_heap
}.

(** ** ECMA conversion routines (ecma-conversion) *)

(** SameValue operation, ECMA-262 v5, 9.12 *)
Definition ecma_op_same_value (x y : ecma_value_t) : result bool :=
  let is_x_undefined := ecma_is_value_undefined x in
  let is_x_null := ecma_is_value_null x in
  let is_x_boolean := ecma_is_value_boolean x in
  let is_x_number := ecma_is_value_number x in
  let is_x_string := ecma_is_value_string x in
  let is_x_object := ecma_is_value_object x in
  let is_y_undefined := ecma_is_value_undefined y in
  let is_y_null := ecma_is_value_null y in
  let is_y_boolean := ecma_is_value_boolean y in
  let is_y_number := ecma_is_value_number y in
  let is_y_string := ecma_is_value_string y in
  let is_y_object := ecma_is_value_object y in
  let is_types_equal :=
    (is_x_undefined && is_y_undefined) || (is_x_null && is_y_null)
    || (is_x_boolean && is_y_boolean) || (is_x_number && is_y_number)
    || (is_x_string && is_y_string) || (is_x_object && is_y_object) in
  if negb is_types_equal then Ok false
  else if is_x_undefined || is_x_null then Ok true
  else
    match x, y with
    | ecma_value_number x_num, ecma_value_number y_num =>
        if PrimFloat.is_nan x_num && PrimFloat.is_nan y_num then Ok true
        else if PrimFloat.is_zero x_num && PrimFloat.is_zero y_num
                && negb (Bool.eqb (PrimFloat.get_sign x_num) (PrimFloat.get_sign y_num))
        then Ok false
        else Ok (PrimFloat.eqb x_num y_num)
    | ecma_value_string x_str, ecma_value_string y_str => Ok (String.eqb x_str y_str)
    | ecma_value_simple _, ecma_value_simple _ =>
        if is_x_boolean then Ok (Bool.eqb (ecma_is_value_true x) (ecma_is_value_true y))
        else Fatal (assertion_failed "is_x_object")
    | ecma_value_object x_obj_p, ecma_value_object y_obj_p => Ok (Pos.eqb x_obj_p y_obj_p)
    | _, _ => Fatal (assertion_failed "is_x_object")
    end.

(** Modelled from the spec: [ecma_check_value_type_is_spec_defined] is not
    part of the sources; it asserts that the value is of one of the types of
    the language (undefined, null, boolean, number, string, object), that is,
    that it is neither the empty marker nor an array hole. *)

Definition ecma_value_type_is_spec_defined (v : ecma_value_t) : bool :=
  ecma_is_value_undefined v || ecma_is_value_null v || ecma_is_value_boolean v
  || ecma_is_value_number v || ecma_is_value_string v || ecma_is_value_object v.

Definition ecma_check_value_type_is_spec_defined (v : ecma_value_t) : result unit :=
  JERRY_ASSERT
    "ecma_is_value_undefined (value) || ecma_is_value_null (value) || ecma_is_value_boolean (value) || ecma_is_value_number (value) || ecma_is_value_string (value) || ecma_is_value_object (value)"
    (ecma_value_type_is_spec_defined v).

(** ToBoolean operation, ECMA-262 v5, 9.2 *)
Definition ecma_op_to_boolean (v : ecma_value_t) : result ecma_completion_value_t :=
  _ ← ecma_check_value_type_is_spec_defined v;
  boolean ←
    (if ecma_is_value_boolean v then
       Ok (if ecma_is_value_true v then ECMA_SIMPLE_VALUE_TRUE else ECMA_SIMPLE_VALUE_FALSE)
     else if ecma_is_value_undefined v || ecma_is_value_null v then Ok ECMA_SIMPLE_VALUE_FALSE
     else
       match v with
       | ecma_value_number num =>
           if PrimFloat.is_nan num || PrimFloat.is_zero num then Ok ECMA_SIMPLE_VALUE_FALSE
           else Ok ECMA_SIMPLE_VALUE_TRUE
       | ecma_value_string str =>
           if Nat.eqb (String.length str) 0 then Ok ECMA_SIMPLE_VALUE_FALSE
           else Ok ECMA_SIMPLE_VALUE_TRUE
       | _ =>
           _ ← JERRY_ASSERT "ecma_is_value_object (value)" (ecma_is_value_object v);
           Ok ECMA_SIMPLE_VALUE_TRUE
       end);
  Ok (ecma_make_simple_completion_value boolean).

Section GeneralObject.
Context `{EcmaHost}.

(** ** General object operations (ecma-objects-general.c)

    The routines call each other through the [ecma_op_object_*] dispatchers of
    ecma-objects.c, which select the routine by the type of the object; the
    objects of this model are general objects, for which the dispatchers select
    the general routines. *)

Definition assert_general_object (h : ecma_heap) (obj_p : ecma_object_ptr_t) : result unit :=
  is_lex_env ← ecma_is_lexical_environment h obj_p;
  JERRY_ASSERT "obj_p.is_not_null () && !ecma_is_lexical_environment (obj_p)" (negb is_lex_env).

(** Reject sequence *)
Definition ecma_reject (h : ecma_heap) (is_throw : bool) : ecma_completion_value_t * ecma_heap :=
  if is_throw then
    let '(exception_obj_p, h') := ecma_new_standard_error h ECMA_ERROR_TYPE in
    (ecma_make_throw_obj_completion_value exception_obj_p, h')
  else (ecma_make_simple_completion_value ECMA_SIMPLE_VALUE_FALSE, h).

(** 'Object' object creation operation with no arguments, ECMA-262 v5, 15.2.2.1 *)
Definition ecma_op_create_object_object_noarg (h : ecma_heap)
    : result (ecma_object_ptr_t * ecma_heap) :=
  let '(object_prototype_p, h) := ecma_builtin_get h ECMA_BUILTIN_ID_OBJECT_PROTOTYPE in
  let '(obj_p, h) := ecma_create_object h (Some object_prototype_p) true ECMA_OBJECT_TYPE_GENERAL in
  '(class_prop_p, h) ← ecma_create_internal_property h obj_p ECMA_INTERNAL_PROPERTY_CLASS;
  h ← ecma_set_internal_property_value h class_prop_p
         (internal_magic_string ECMA_MAGIC_STRING_OBJECT_UL);
  Ok (obj_p, h).

(** [[GetOwnProperty]], ECMA-262 v5, 8.12.2 *)
Definition ecma_op_general_object_get_own_property (h : ecma_heap) (obj_p : ecma_object_ptr_t)
    (property_name_p : string) : result (option ecma_property_ptr_t) :=
  _ ← assert_general_object h obj_p;
  ecma_find_named_property h obj_p property_name_p.

Definition ecma_op_object_get_own_property := ecma_op_general_object_get_own_property.

(** [[GetProperty]], ECMA-262 v5, 8.12.2.  The recursion along the prototype
    chain is bounded by [fuel]. *)
Fixpoint ecma_op_general_object_get_property (fuel : nat) (h : ecma_heap)
    (obj_p : ecma_object_ptr_t) (property_name_p : string)
    : result (option ecma_property_ptr_t) :=
  match fuel with
  | O => Fatal out_of_fuel
  | S fuel =>
      _ ← assert_general_object h obj_p;
      (* 1. *)
      prop_p ← ecma_op_object_get_own_property h obj_p property_name_p;
      match prop_p with
      | Some _ => (* 2. *) Ok prop_p
      | None =>
          (* 3. *)
          prototype_p ← ecma_get_object_prototype h obj_p;
          (* 4., 5. *)
          match prototype_p with
          | Some prototype_p =>
              ecma_op_general_object_get_property fuel h prototype_p property_name_p
          | None => Ok None
          end
      end
  end.

Definition ecma_op_object_get_property := ecma_op_general_object_get_property.

(** [[Get]], ECMA-262 v5, 8.12.3 *)
Definition ecma_op_general_object_get (fuel : nat) (h : ecma_heap) (obj_p : ecma_object_ptr_t)
    (property_name_p : string) : result (ecma_completion_value_t * ecma_heap) :=
  _ ← assert_general_object h obj_p;
  (* 1. *)
  prop_p ← ecma_op_object_get_property fuel h obj_p property_name_p;
  match prop_p with
  | None => (* 2. *) Ok (ecma_make_simple_completion_value ECMA_SIMPLE_VALUE_UNDEFINED, h)
  | Some prop_p =>
      type ← property_type h prop_p;
      if is_named_data type then
        (* 3. *)
        prop_value ← ecma_get_named_data_property_value h prop_p;
        Ok (ecma_make_normal_completion_value prop_value, h)
      else
        (* 4. *)
        getter_p ← named_accessor_property_get_p h prop_p;
        match getter_p with
        | None => (* 5. *) Ok (ecma_make_simple_completion_value ECMA_SIMPLE_VALUE_UNDEFINED, h)
        | Some getter_p => ecma_op_function_call h getter_p (ecma_value_object obj_p) []
        end
  end.

Definition ecma_op_object_get := ecma_op_general_object_get.

(** [[CanPut]], ECMA-262 v5, 8.12.4 *)
Definition ecma_op_general_object_can_put (fuel : nat) (h : ecma_heap) (obj_p : ecma_object_ptr_t)
    (property_name_p : string) : result bool :=
  _ ← assert_general_object h obj_p;
  (* 1. *)
  prop_p ← ecma_op_object_get_own_property h obj_p property_name_p;
  match prop_p with
  | Some prop_p =>
      (* 2. *)
      type ← property_type h prop_p;
      if is_named_accessor type then
        (* a. *)
        setter_p ← named_accessor_property_set_p h prop_p;
        match setter_p with
        | None => Ok false (* i. *)
        | Some _ => Ok true (* ii. *)
        end
      else
        (* b. *)
        _ ← JERRY_ASSERT "prop_p->type == ECMA_PROPERTY_NAMEDDATA" (is_named_data type);
        ecma_is_property_writable h prop_p
  | None =>
      (* 3. *)
      proto_p ← ecma_get_object_prototype h obj_p;
      match proto_p with
      | None => (* 4. *) ecma_get_object_extensible h obj_p
      | Some proto_p =>
          (* 5. *)
          inherited_p ← ecma_op_object_get_property fuel h proto_p property_name_p;
          match inherited_p with
          | None => (* 6. *) ecma_get_object_extensible h obj_p
          | Some inherited_p =>
              type ← property_type h inherited_p;
              if is_named_accessor type then
                (* 7. *)
                setter_p ← named_accessor_property_set_p h inherited_p;
                match setter_p with
                | None => Ok false (* a. *)
                | Some _ => Ok true (* b. *)
                end
              else
                (* 8. *)
                _ ← JERRY_ASSERT "inherited_p->type == ECMA_PROPERTY_NAMEDDATA"
                      (is_named_data type);
                extensible ← ecma_get_object_extensible h obj_p;
                if negb extensible then Ok false (* a. *)
                else ecma_is_property_writable h inherited_p (* b. *)
          end
      end
  end.

Definition ecma_op_object_can_put := ecma_op_general_object_can_put.

(** [[DefineOwnProperty]], ECMA-262 v5, 8.12.9: step 12, the update of the
    node [current_p]; [is_current_data_descriptor] and
    [is_current_accessor_descriptor] are the constants computed in step 6. *)
Definition define_own_property_step_12 (h : ecma_heap) (obj_p : ecma_object_ptr_t)
    (property_desc_p : ecma_property_descriptor_t)
    (is_current_data_descriptor is_current_accessor_descriptor : bool)
    (current_p : ecma_property_ptr_t) : result (ecma_completion_value_t * ecma_heap) :=
  h ← (if is_value_defined property_desc_p then
         _ ← JERRY_ASSERT "is_current_data_descriptor" is_current_data_descriptor;
         ecma_named_data_property_assign_value h obj_p current_p (value property_desc_p)
       else Ok h);
  h ← (if is_writable_defined property_desc_p then
         _ ← JERRY_ASSERT "is_current_data_descriptor" is_current_data_descriptor;
         ecma_set_property_writable_attr h current_p (is_writable property_desc_p)
       else Ok h);
  h ← (if is_get_defined property_desc_p then
         _ ← JERRY_ASSERT "is_current_accessor_descriptor" is_current_accessor_descriptor;
         set_named_accessor_property_get_p h current_p (get_p property_desc_p)
       else Ok h);
  h ← (if is_set_defined property_desc_p then
         _ ← JERRY_ASSERT "is_current_accessor_descriptor" is_current_accessor_descriptor;
         set_named_accessor_property_set_p h current_p (set_p property_desc_p)
       else Ok h);
  h ← (if is_enumerable_defined property_desc_p then
         ecma_set_property_enumerable_attr h current_p (is_enumerable property_desc_p)
       else Ok h);
  h ← (if is_configurable_defined property_desc_p then
         ecma_set_property_configurable_attr h current_p (is_configurable property_desc_p)
       else Ok h);
  Ok (ecma_make_simple_completion_value ECMA_SIMPLE_VALUE_TRUE, h).

(** [[DefineOwnProperty]], ECMA-262 v5, 8.12.9: steps 5 to 11, for a property
    that exists ([current_p] is not NULL), followed by step 12. *)
Definition define_own_property_on_current (h : ecma_heap) (obj_p : ecma_object_ptr_t)
    (property_name_p : string) (property_desc_p : ecma_property_descriptor_t) (is_throw : bool)
    (current_p : ecma_property_ptr_t) : result (ecma_completion_value_t * ecma_heap) :=
  let is_property_desc_generic_descriptor :=
    negb (is_value_defined property_desc_p) && negb (is_writable_defined property_desc_p)
    && negb (is_get_defined property_desc_p) && negb (is_set_defined property_desc_p) in
  let is_property_desc_data_descriptor :=
    is_value_defined property_desc_p || is_writable_defined property_desc_p in
  let is_property_desc_accessor_descriptor :=
    is_get_defined property_desc_p || is_set_defined property_desc_p in
  (* 5. *)
  if is_property_desc_generic_descriptor
     && negb (is_enumerable_defined property_desc_p)
     && negb (is_configurable_defined property_desc_p)
  then Ok (ecma_make_simple_completion_value ECMA_SIMPLE_VALUE_TRUE, h)
  else
  (* 6. *)
  type ← property_type h current_p;
  let is_current_data_descriptor := is_named_data type in
  let is_current_accessor_descriptor := is_named_accessor type in
  _ ← JERRY_ASSERT "is_current_data_descriptor || is_current_accessor_descriptor"
        (is_current_data_descriptor || is_current_accessor_descriptor);
  let same0 := true in
  same1 ← (if is_value_defined property_desc_p then
             prop_value ← ecma_get_named_data_property_value h current_p;
             if negb is_current_data_descriptor then Ok false
             else same ← ecma_op_same_value (value property_desc_p) prop_value;
                  Ok (if negb same then false else same0)
           else Ok same0);
  same2 ← (if is_writable_defined property_desc_p then
             if negb is_current_data_descriptor then Ok false
             else w ← ecma_is_property_writable h current_p;
                  Ok (if negb (Bool.eqb (is_writable property_desc_p) w) then false else same1)
           else Ok same1);
  same3 ← (if is_get_defined property_desc_p then
             if negb is_current_accessor_descriptor then Ok false
             else g ← named_accessor_property_get_p h current_p;
                  Ok (if negb (bool_decide (get_p property_desc_p = g)) then false else same2)
           else Ok same2);
  same4 ← (if is_set_defined property_desc_p then
             if negb is_current_accessor_descriptor then Ok false
             else s ← named_accessor_property_set_p h current_p;
                  Ok (if negb (bool_decide (set_p property_desc_p = s)) then false else same3)
           else Ok same3);
  same5 ← (if is_enumerable_defined property_desc_p then
             e ← ecma_is_property_enumerable h current_p;
             Ok (if negb (Bool.eqb (is_enumerable property_desc_p) e) then false else same4)
           else Ok same4);
  is_every_field_in_desc_also_occurs_in_current_desc_with_same_value ←
          (if is_configurable_defined property_desc_p then
             c ← ecma_is_property_configurable h current_p;
             Ok (if negb (Bool.eqb (is_configurable property_desc_p) c) then false else same5)
           else Ok same5);
  if (is_every_field_in_desc_also_occurs_in_current_desc_with_same_value : bool)
  then Ok (ecma_make_simple_completion_value ECMA_SIMPLE_VALUE_TRUE, h)
  else
  (* 7. *)
  configurable ← ecma_is_property_configurable h current_p;
  reject7 ← (if negb configurable then
               if is_configurable property_desc_p then Ok true
               else if is_enumerable_defined property_desc_p then
                 e ← ecma_is_property_enumerable h current_p;
                 Ok (negb (Bool.eqb (is_enumerable property_desc_p) e))
               else Ok false
             else Ok false);
  if (reject7 : bool) then (* a., b. *) Ok (ecma_reject h is_throw)
  else
  (* 8. - 11.: [Some] is the heap and the node to update in step 12,
     [None] is a rejection *)
  after ← (if is_property_desc_generic_descriptor then
             (* 8. no action required *)
             Ok (Some (h, current_p))
           else if negb (Bool.eqb is_property_desc_data_descriptor is_current_data_descriptor)
           then
             (* 9. *)
             configurable ← ecma_is_property_configurable h current_p;
             if negb configurable then (* a. *) Ok None
             else
               h ← ecma_delete_property h obj_p current_p;
               if is_current_data_descriptor then
                 (* b. *)
                 e ← ecma_is_property_enumerable h current_p;
                 c ← ecma_is_property_configurable h current_p;
                 '(current_p, h) ←
                    ecma_create_named_accessor_property h obj_p property_name_p None None e c;
                 Ok (Some (h, current_p))
               else
                 (* c. *)
                 e ← ecma_is_property_enumerable h current_p;
                 c ← ecma_is_property_configurable h current_p;
                 '(current_p, h) ←
                    ecma_create_named_data_property h obj_p property_name_p false e c;
                 Ok (Some (h, current_p))
           else if is_property_desc_data_descriptor && is_current_data_descriptor then
             (* 10. *)
             configurable ← ecma_is_property_configurable h current_p;
             if negb configurable then
               (* a. *)
               writable ← ecma_is_property_writable h current_p;
               if negb writable then
                 (* i. *)
                 if is_writable property_desc_p then Ok None
                 else
                   (* ii. *)
                   prop_value ← ecma_get_named_data_property_value h current_p;
                   if is_value_defined property_desc_p then
                     same ← ecma_op_same_value (value property_desc_p) prop_value;
                     if negb same then Ok None else Ok (Some (h, current_p))
                   else Ok (Some (h, current_p))
               else Ok (Some (h, current_p))
             else Ok (Some (h, current_p))
           else
             _ ← JERRY_ASSERT
                   "is_property_desc_accessor_descriptor && is_current_accessor_descriptor"
                   (is_property_desc_accessor_descriptor && is_current_accessor_descriptor);
             (* 11. *)
             configurable ← ecma_is_property_configurable h current_p;
             if negb configurable then
               (* a. *)
               get_differs ← (if is_get_defined property_desc_p then
                                g ← named_accessor_property_get_p h current_p;
                                Ok (negb (bool_decide (get_p property_desc_p = g)))
                              else Ok false);
               differs ← (if (get_differs : bool) then Ok true
                          else if is_set_defined property_desc_p then
                            s ← named_accessor_property_set_p h current_p;
                            Ok (negb (bool_decide (set_p property_desc_p = s)))
                          else Ok false);
               if (differs : bool) then (* i., ii. *) Ok None else Ok (Some (h, current_p))
             else Ok (Some (h, current_p)));
  match after with
  | None => Ok (ecma_reject h is_throw)
  | Some (h, current_p) =>
      (* 12. *)
      define_own_property_step_12 h obj_p property_desc_p
        is_current_data_descriptor is_current_accessor_descriptor current_p
  end.

(** [[DefineOwnProperty]], ECMA-262 v5, 8.12.9 *)
Definition ecma_op_general_object_define_own_property (h : ecma_heap) (obj_p : ecma_object_ptr_t)
    (property_name_p : string) (property_desc_p : ecma_property_descriptor_t) (is_throw : bool)
    : result (ecma_completion_value_t * ecma_heap) :=
  _ ← assert_general_object h obj_p;
  let is_property_desc_generic_descriptor :=
    negb (is_value_defined property_desc_p) && negb (is_writable_defined property_desc_p)
    && negb (is_get_defined property_desc_p) && negb (is_set_defined property_desc_p) in
  let is_property_desc_data_descriptor :=
    is_value_defined property_desc_p || is_writable_defined property_desc_p in
  let is_property_desc_accessor_descriptor :=
    is_get_defined property_desc_p || is_set_defined property_desc_p in
  (* 1. *)
  current_p ← ecma_op_object_get_own_property h obj_p property_name_p;
  (* 2. *)
  extensible ← ecma_get_object_extensible h obj_p;
  match current_p with
  | None =>
      (* 3. *)
      if negb extensible then Ok (ecma_reject h is_throw)
      else
        (* 4. *)
        if is_property_desc_generic_descriptor || is_property_desc_data_descriptor then
          (* a. *)
          '(new_prop_p, h) ←
             ecma_create_named_data_property h obj_p property_name_p
               (is_writable property_desc_p) (is_enumerable property_desc_p)
               (is_configurable property_desc_p);
          h ← ecma_named_data_property_assign_value h obj_p new_prop_p (value property_desc_p);
          Ok (ecma_make_simple_completion_value ECMA_SIMPLE_VALUE_TRUE, h)
        else
          (* b. *)
          _ ← JERRY_ASSERT "is_property_desc_accessor_descriptor"
                is_property_desc_accessor_descriptor;
          '(_, h) ←
             ecma_create_named_accessor_property h obj_p property_name_p
               (get_p property_desc_p) (set_p property_desc_p)
               (is_enumerable property_desc_p) (is_configurable property_desc_p);
          Ok (ecma_make_simple_completion_value ECMA_SIMPLE_VALUE_TRUE, h)
  | Some current_p =>
      define_own_property_on_current h obj_p property_name_p property_desc_p is_throw current_p
  end.

Definition ecma_op_object_define_own_property := ecma_op_general_object_define_own_property.

(** [[Put]], ECMA-262 v5, 8.12.5 *)
Definition ecma_op_general_object_put (fuel : nat) (h : ecma_heap) (obj_p : ecma_object_ptr_t)
    (property_name_p : string) (v : ecma_value_t) (is_throw : bool)
    : result (ecma_completion_value_t * ecma_heap) :=
  _ ← assert_general_object h obj_p;
  (* 1. *)
  can_put ← ecma_op_object_can_put fuel h obj_p property_name_p;
  if negb can_put then
    if is_throw then
      (* a. *)
      let '(exception_obj_p, h) := ecma_new_standard_error h ECMA_ERROR_TYPE in
      Ok (ecma_make_throw_obj_completion_value exception_obj_p, h)
    else
      (* b. *)
      Ok (ecma_make_simple_completion_value ECMA_SIMPLE_VALUE_FALSE, h)
  else
  (* 2. *)
  own_desc_p ← ecma_op_object_get_own_property h obj_p property_name_p;
  (* 3. *)
  own_is_data ← match own_desc_p with
                | Some own_desc_p => type ← property_type h own_desc_p; Ok (is_named_data type)
                | None => Ok false
                end;
  if (own_is_data : bool) then
    (* a. *)
    let value_desc := with_value (with_is_value_defined ecma_make_empty_property_descriptor true) v in
    (* b., c. *)
    ecma_op_object_define_own_property h obj_p property_name_p value_desc is_throw
  else
  (* 4. *)
  desc_p ← ecma_op_object_get_property fuel h obj_p property_name_p;
  (* 5. *)
  desc_is_accessor ← match desc_p with
                     | Some desc_p => type ← property_type h desc_p; Ok (is_named_accessor type)
                     | None => Ok false
                     end;
  match desc_p, (desc_is_accessor : bool) with
  | Some desc_p, true =>
      (* a. *)
      setter_p ← named_accessor_property_set_p h desc_p;
      match setter_p with
      | None => Fatal (assertion_failed "setter_p.is_not_null ()")
      | Some setter_p =>
          '(call_ret_completion, h) ←
             ecma_op_function_call h setter_p (ecma_value_object obj_p) [v];
          Ok (ECMA_TRY_CATCH call_ret_completion
                (λ call_ret, ecma_make_simple_completion_value ECMA_SIMPLE_VALUE_TRUE)
                (λ c, c), h)
      end
  | _, _ =>
      (* 6. *)
      (* a. *)
      let new_desc :=
        set_configurable
          (set_enumerable
             (set_writable
                (with_value (with_is_value_defined ecma_make_empty_property_descriptor true) v)
                true)
             true)
          true in
      (* b. *)
      ecma_op_object_define_own_property h obj_p property_name_p new_desc is_throw
  end.

Definition ecma_op_object_put := ecma_op_general_object_put.

(** [[Delete]], ECMA-262 v5, 8.12.7 *)
Definition ecma_op_general_object_delete (h : ecma_heap) (obj_p : ecma_object_ptr_t)
    (property_name_p : string) (is_throw : bool)
    : result (ecma_completion_value_t * ecma_heap) :=
  _ ← assert_general_object h obj_p;
  (* 1. *)
  desc_p ← ecma_op_object_get_own_property h obj_p property_name_p;
  match desc_p with
  | None => (* 2. *) Ok (ecma_make_simple_completion_value ECMA_SIMPLE_VALUE_TRUE, h)
  | Some desc_p =>
      (* 3. *)
      configurable ← ecma_is_property_configurable h desc_p;
      if (configurable : bool) then
        (* a. *)
        h ← ecma_delete_property h obj_p desc_p;
        (* b. *)
        Ok (ecma_make_simple_completion_value ECMA_SIMPLE_VALUE_TRUE, h)
      else if is_throw then
        (* 4. *)
        let '(exception_obj_p, h) := ecma_new_standard_error h ECMA_ERROR_TYPE in
        Ok (ecma_make_throw_obj_completion_value exception_obj_p, h)
      else
        (* 5. *)
        Ok (ecma_make_simple_completion_value ECMA_SIMPLE_VALUE_FALSE, h)
  end.

Definition ecma_op_object_delete := ecma_op_general_object_delete.

(** The name looked up in iteration [i] (1 or 2) of [[DefaultValue]]. *)
Definition default_value_function_name (i : nat) (hint : ecma_preferred_type_hint_t)
    : ecma_magic_string_id_t :=
  match i, hint with
  | 1, ECMA_PREFERRED_TYPE_STRING
  | 2, ECMA_PREFERRED_TYPE_NUMBER => ECMA_MAGIC_STRING_TO_STRING_UL
  | _, _ => ECMA_MAGIC_STRING_VALUE_OF_UL
  end.

(** One iteration of the loop of [[DefaultValue]]: [inl] is a [return] out of
    the routine, [inr] lets the loop go on. *)
Definition default_value_iteration (fuel : nat) (h : ecma_heap) (obj_p : ecma_object_ptr_t)
    (hint : ecma_preferred_type_hint_t) (i : nat)
    : result ((ecma_completion_value_t + unit) * ecma_heap) :=
  let function_name_magic_string_id := default_value_function_name i hint in
  let function_name_p := ecma_get_magic_string function_name_magic_string_id in
  '(function_value_get_completion, h) ← ecma_op_object_get fuel h obj_p function_name_p;
  if negb (ecma_is_completion_value_normal function_value_get_completion) then
    Ok (inl function_value_get_completion, h)
  else
    (* a default-constructed completion value is the empty completion *)
    let call_completion := ecma_make_empty_completion_value in
    let function_value_get := completion_value function_value_get_completion in
    '(call_completion, h) ←
       (if ecma_op_is_callable h function_value_get then
          func_obj_p ← ecma_get_object_from_value function_value_get;
          ecma_op_function_call h func_obj_p (ecma_value_object obj_p) []
        else Ok (call_completion, h));
    if negb (ecma_is_completion_value_normal call_completion) then
      Ok (inl call_completion, h)
    else if negb (ecma_is_completion_value_empty call_completion)
            && negb (ecma_is_value_object (completion_value call_completion)) then
      Ok (inl call_completion, h)
    else Ok (inr (), h).

(** The loop [for (i = i0; i <= 2; i++)] of [[DefaultValue]], with [count]
    iterations left, and the TypeError thrown after it. *)
Fixpoint default_value_loop (fuel : nat) (h : ecma_heap) (obj_p : ecma_object_ptr_t)
    (hint : ecma_preferred_type_hint_t) (i count : nat)
    : result (ecma_completion_value_t * ecma_heap) :=
  match count with
  | O =>
      let '(exception_obj_p, h) := ecma_new_standard_error h ECMA_ERROR_TYPE in
      Ok (ecma_make_throw_obj_completion_value exception_obj_p, h)
  | S count =>
      '(r, h) ← default_value_iteration fuel h obj_p hint i;
      match r with
      | inl ret_value => Ok (ret_value, h)
      | inr _ => default_value_loop fuel h obj_p hint (S i) count
      end
  end.

(** [[DefaultValue]], ECMA-262 v5, 8.12.8 *)
Definition ecma_op_general_object_default_value (fuel : nat) (h : ecma_heap)
    (obj_p : ecma_object_ptr_t) (hint : ecma_preferred_type_hint_t)
    : result (ecma_completion_value_t * ecma_heap) :=
  _ ← assert_general_object h obj_p;
  hint ← (match hint with
          | ECMA_PREFERRED_TYPE_NO =>
              class_prop_p ← ecma_get_internal_property h obj_p ECMA_INTERNAL_PROPERTY_CLASS;
              obj_class ← internal_property_value h class_prop_p;
              match obj_class with
              | internal_magic_string obj_class =>
                  if magic_string_is_date obj_class then Ok ECMA_PREFERRED_TYPE_STRING
                  else Ok ECMA_PREFERRED_TYPE_NUMBER
              | internal_word _ => Ok ECMA_PREFERRED_TYPE_NUMBER
              end
          | _ => Ok hint
          end);
  default_value_loop fuel h obj_p hint 1 2.

Definition ecma_op_object_default_value := ecma_op_general_object_default_value.

End GeneralObject.

Section Conversion.
Context `{EcmaHost}.

(** ** Property descriptors and objects (ecma-conversion) *)

(** The descriptor that FromPropertyDescriptor builds locally before it looks
    at its argument. *)
Definition from_property_descriptor_prop_desc : ecma_property_descriptor_t :=
  let prop_desc := ecma_make_empty_property_descriptor in
  let prop_desc := with_is_value_defined prop_desc true in
  let prop_desc := set_writable prop_desc true in
  let prop_desc := set_enumerable prop_desc true in
  let prop_desc := set_configurable prop_desc true in
  prop_desc.

(** [ecma_op_object_define_own_property (completion, obj_p, name, &prop_desc, false);
     JERRY_ASSERT (ecma_is_completion_value_normal_true (completion));] *)
Definition define_own_property_normal_true (h : ecma_heap) (obj_p : ecma_object_ptr_t)
    (magic_string_id : ecma_magic_string_id_t) (prop_desc : ecma_property_descriptor_t)
    : result ecma_heap :=
  '(completion, h) ←
     ecma_op_object_define_own_property h obj_p (ecma_get_magic_string magic_string_id)
       prop_desc false;
  _ ← JERRY_ASSERT "ecma_is_completion_value_normal_true (completion)"
        (ecma_is_completion_value_normal_true completion);
  Ok h.

Definition object_value_or_undefined (p : option ecma_object_ptr_t) : ecma_value_t :=
  match p with
  | None => ecma_value_simple ECMA_SIMPLE_VALUE_UNDEFINED
  | Some o => ecma_value_object o
  end.

(** FromPropertyDescriptor operation, ECMA-262 v5, 8.10.4 *)
Definition ecma_op_from_property_descriptor (h : ecma_heap)
    (src_prop_desc_p : ecma_property_descriptor_t) : result (ecma_object_ptr_t * ecma_heap) :=
  (* 2. *)
  '(obj_p, h) ← ecma_op_create_object_object_noarg h;
  let prop_desc := from_property_descriptor_prop_desc in
  (* 3. *)
  '(prop_desc, h) ←
     (if is_value_defined prop_desc || is_writable_defined prop_desc then
        _ ← JERRY_ASSERT "prop_desc.is_value_defined && prop_desc.is_writable_defined"
              (is_value_defined prop_desc && is_writable_defined prop_desc);
        (* a. *)
        let prop_desc := with_value prop_desc (value src_prop_desc_p) in
        h ← define_own_property_normal_true h obj_p ECMA_MAGIC_STRING_VALUE prop_desc;
        (* b. *)
        let is_writable := is_writable src_prop_desc_p in
        let prop_desc := with_value prop_desc (ecma_value_of_bool is_writable) in
        h ← define_own_property_normal_true h obj_p ECMA_MAGIC_STRING_WRITABLE prop_desc;
        Ok (prop_desc, h)
      else
        (* 4. *)
        _ ← JERRY_ASSERT "prop_desc.is_get_defined && prop_desc.is_set_defined"
              (is_get_defined prop_desc && is_set_defined prop_desc);
        (* a. *)
        let prop_desc := with_value prop_desc (object_value_or_undefined (get_p src_prop_desc_p)) in
        h ← define_own_property_normal_true h obj_p ECMA_MAGIC_STRING_GET prop_desc;
        (* b. *)
        let prop_desc := with_value prop_desc (object_value_or_undefined (set_p src_prop_desc_p)) in
        h ← define_own_property_normal_true h obj_p ECMA_MAGIC_STRING_SET prop_desc;
        Ok (prop_desc, h));
  let is_enumerable := is_enumerable src_prop_desc_p in
  let prop_desc := with_value prop_desc (ecma_value_of_bool is_enumerable) in
  h ← define_own_property_normal_true h obj_p ECMA_MAGIC_STRING_ENUMERABLE prop_desc;
  let is_configurable := is_configurable src_prop_desc_p in
  let prop_desc := with_value prop_desc (ecma_value_of_bool is_configurable) in
  h ← define_own_property_normal_true h obj_p ECMA_MAGIC_STRING_CONFIGURABLE prop_desc;
  Ok (obj_p, h).

(** State of ToPropertyDescriptor between its steps: [ret_value], the local
    [prop_desc] and the heap. *)
Definition to_property_descriptor_state : Type :=
  ecma_completion_value_t * ecma_property_descriptor_t * ecma_heap.

(** Steps 3, 4 and 6 of ToPropertyDescriptor: a boolean attribute. *)
Definition to_property_descriptor_boolean (fuel : nat) (obj_p : ecma_object_ptr_t)
    (magic_string_id : ecma_magic_string_id_t)
    (set_attr : ecma_property_descriptor_t → bool → ecma_property_descriptor_t)
    (st : to_property_descriptor_state) : result to_property_descriptor_state :=
  let '(ret_value, prop_desc, h) := st in
  if ecma_is_completion_value_throw ret_value then Ok st
  else
    _ ← JERRY_ASSERT "ecma_is_completion_value_empty (ret_value)"
          (ecma_is_completion_value_empty ret_value);
    let magic_string_p := ecma_get_magic_string magic_string_id in
    prop_p ← ecma_op_object_get_property fuel h obj_p magic_string_p;
    match prop_p with
    | Some _ =>
        '(prop_value_completion, h) ← ecma_op_object_get fuel h obj_p magic_string_p;
        ECMA_TRY_CATCH prop_value_completion
          (λ prop_value,
             boolean_prop_value_completion ← ecma_op_to_boolean prop_value;
             ECMA_TRY_CATCH boolean_prop_value_completion
               (λ boolean_prop_value,
                  if ecma_is_value_true boolean_prop_value then
                    Ok (ret_value, set_attr prop_desc true, h)
                  else
                    _ ← JERRY_ASSERT "ecma_is_value_boolean (boolean_prop_value)"
                          (ecma_is_value_boolean boolean_prop_value);
                    Ok (ret_value, set_attr prop_desc false, h))
               (λ c, Ok (c, prop_desc, h)))
          (λ c, Ok (c, prop_desc, h))
    | None => Ok (ret_value, prop_desc, h)
    end.

(** Step 5 of ToPropertyDescriptor: the value. *)
Definition to_property_descriptor_value (fuel : nat) (obj_p : ecma_object_ptr_t)
    (st : to_property_descriptor_state) : result to_property_descriptor_state :=
  let '(ret_value, prop_desc, h) := st in
  if ecma_is_completion_value_throw ret_value then Ok st
  else
    _ ← JERRY_ASSERT "ecma_is_completion_value_empty (ret_value)"
          (ecma_is_completion_value_empty ret_value);
    let value_magic_string_p := ecma_get_magic_string ECMA_MAGIC_STRING_VALUE in
    prop_p ← ecma_op_object_get_property fuel h obj_p value_magic_string_p;
    match prop_p with
    | Some _ =>
        '(value_prop_value_completion, h) ← ecma_op_object_get fuel h obj_p value_magic_string_p;
        ECMA_TRY_CATCH value_prop_value_completion
          (λ value_prop_value,
             Ok (ret_value, with_value (with_is_value_defined prop_desc true) value_prop_value, h))
          (λ c, Ok (c, prop_desc, h))
    | None => Ok (ret_value, prop_desc, h)
    end.

(** Steps 7 and 8 of ToPropertyDescriptor: the getter and the setter. *)
Definition to_property_descriptor_accessor (fuel : nat) (obj_p : ecma_object_ptr_t)
    (magic_string_id : ecma_magic_string_id_t)
    (set_attr : ecma_property_descriptor_t → option ecma_object_ptr_t → ecma_property_descriptor_t)
    (st : to_property_descriptor_state) : result to_property_descriptor_state :=
  let '(ret_value, prop_desc, h) := st in
  if ecma_is_completion_value_throw ret_value then Ok st
  else
    _ ← JERRY_ASSERT "ecma_is_completion_value_empty (ret_value)"
          (ecma_is_completion_value_empty ret_value);
    let magic_string_p := ecma_get_magic_string magic_string_id in
    prop_p ← ecma_op_object_get_property fuel h obj_p magic_string_p;
    match prop_p with
    | Some _ =>
        '(prop_value_completion, h) ← ecma_op_object_get fuel h obj_p magic_string_p;
        ECMA_TRY_CATCH prop_value_completion
          (λ prop_value,
             if negb (ecma_op_is_callable h prop_value)
                && negb (ecma_is_value_undefined prop_value) then
               let '(exception_obj_p, h) := ecma_new_standard_error h ECMA_ERROR_TYPE in
               Ok (ecma_make_throw_obj_completion_value exception_obj_p, prop_desc, h)
             else if ecma_is_value_undefined prop_value then
               Ok (ret_value, set_attr prop_desc None, h)
             else
               accessor_p ← ecma_get_object_from_value prop_value;
               Ok (ret_value, set_attr prop_desc (Some accessor_p), h))
          (λ c, Ok (c, prop_desc, h))
    | None => Ok (ret_value, prop_desc, h)
    end.

(** ToPropertyDescriptor operation, ECMA-262 v5, 8.10.5.  The second component
    is the descriptor filled in [out_prop_desc_p] when the completion is the
    normal empty completion ([None] otherwise: the local descriptor has been
    released). *)
Definition ecma_op_to_property_descriptor (fuel : nat) (h : ecma_heap) (obj_value : ecma_value_t)
    : result (ecma_completion_value_t * option ecma_property_descriptor_t * ecma_heap) :=
  let ret_value := ecma_make_empty_completion_value in
  (* 1. *)
  match obj_value with
  | ecma_value_object obj_p =>
      (* 2. *)
      let prop_desc := ecma_make_empty_property_descriptor in
      (* 3. *)
      st ← to_property_descriptor_boolean fuel obj_p ECMA_MAGIC_STRING_ENUMERABLE
              set_enumerable (ret_value, prop_desc, h);
      (* 4. *)
      st ← to_property_descriptor_boolean fuel obj_p ECMA_MAGIC_STRING_CONFIGURABLE
              set_configurable st;
      (* 5. *)
      st ← to_property_descriptor_value fuel obj_p st;
      (* 6. *)
      st ← to_property_descriptor_boolean fuel obj_p ECMA_MAGIC_STRING_WRITABLE
              set_writable st;
      (* 7. *)
      st ← to_property_descriptor_accessor fuel obj_p ECMA_MAGIC_STRING_GET set_get st;
      (* 8. *)
      st ← to_property_descriptor_accessor fuel obj_p ECMA_MAGIC_STRING_SET set_set st;
      let '(ret_value, prop_desc, h) := st in
      (* 9. *)
      '(ret_value, h) ←
         (if ecma_is_completion_value_throw ret_value then Ok (ret_value, h)
          else
            _ ← JERRY_ASSERT "ecma_is_completion_value_empty (ret_value)"
                  (ecma_is_completion_value_empty ret_value);
            if (is_get_defined prop_desc || is_set_defined prop_desc)
               && (is_value_defined prop_desc || is_writable_defined prop_desc) then
              let '(exception_obj_p, h) := ecma_new_standard_error h ECMA_ERROR_TYPE in
              Ok (ecma_make_throw_obj_completion_value exception_obj_p, h)
            else Ok (ret_value, h));
      if ecma_is_completion_value_throw ret_value then
        (* ecma_free_property_descriptor (&prop_desc) *)
        Ok (ret_value, None, h)
      else
        _ ← JERRY_ASSERT "ecma_is_completion_value_empty (ret_value)"
              (ecma_is_completion_value_empty ret_value);
        Ok (ret_value, Some prop_desc, h)
  | _ =>
      let '(exception_obj_p, h) := ecma_new_standard_error h ECMA_ERROR_TYPE in
      Ok (ecma_make_throw_obj_completion_value exception_obj_p, None, h)
  end.

End Conversion.

(** ** Lexical environments (ecma-lex-env) *)

Inductive ecma_lexical_environment_type_t :=
  | ECMA_LEXICAL_ENVIRONMENT_DECLARATIVE
  | ECMA_LEXICAL_ENVIRONMENT_OBJECTBOUND.

Definition ecma_get_lex_env_type (h : ecma_heap) (lex_env_p : ecma_object_ptr_t)
    : result ecma_lexical_environment_type_t :=
  obj ← heap_get_object h lex_env_p;
  match object_header obj with
  | header_decl_lex_env _ => Ok ECMA_LEXICAL_ENVIRONMENT_DECLARATIVE
  | header_object_lex_env _ _ _ => Ok ECMA_LEXICAL_ENVIRONMENT_OBJECTBOUND
  | header_object _ _ _ _ => Fatal (assertion_failed "ecma_is_lexical_environment (object_p)")
  end.

Definition ecma_get_lex_env_outer_reference (h : ecma_heap) (lex_env_p : ecma_object_ptr_t)
    : result (option ecma_object_ptr_t) :=
  obj ← heap_get_object h lex_env_p;
  match object_header obj with
  | header_decl_lex_env outer_p => Ok outer_p
  | header_object_lex_env outer_p _ _ => Ok outer_p
  | header_object _ _ _ _ => Fatal (assertion_failed "ecma_is_lexical_environment (object_p)")
  end.

Definition ecma_get_lex_env_binding_object (h : ecma_heap) (lex_env_p : ecma_object_ptr_t)
    : result ecma_object_ptr_t :=
  obj ← heap_get_object h lex_env_p;
  match object_header obj with
  | header_object_lex_env _ binding_obj_p _ => Ok binding_obj_p
  | _ => Fatal (assertion_failed
                  "ecma_get_lex_env_type (object_p) == ECMA_LEXICAL_ENVIRONMENT_OBJECTBOUND")
  end.

Definition ecma_create_object_lex_env (h : ecma_heap)
    (outer_lexical_environment_p : option ecma_object_ptr_t) (binding_obj_p : ecma_object_ptr_t)
    (provide_this : bool) : ecma_object_ptr_t * ecma_heap :=
  let o := fresh (dom (heap_objects h)) in
  (o, heap_set_object h o
        (ecma_object (header_object_lex_env outer_lexical_environment_p binding_obj_p provide_this)
           [])).

Section LexicalEnvironment.
Context `{EcmaHost}.

(** HasBinding operation, ECMA-262 v5, 10.2.1 *)
Definition ecma_op_has_binding (fuel : nat) (h : ecma_heap) (lex_env_p : ecma_object_ptr_t)
    (name_p : string) : result bool :=
  is_lex_env ← ecma_is_lexical_environment h lex_env_p;
  _ ← JERRY_ASSERT "lex_env_p.is_not_null () && ecma_is_lexical_environment (lex_env_p)"
        is_lex_env;
  type ← ecma_get_lex_env_type h lex_env_p;
  match type with
  | ECMA_LEXICAL_ENVIRONMENT_DECLARATIVE =>
      property_p ← ecma_find_named_property h lex_env_p name_p;
      Ok (bool_decide (property_p ≠ None))
  | ECMA_LEXICAL_ENVIRONMENT_OBJECTBOUND =>
      binding_obj_p ← ecma_get_lex_env_binding_object h lex_env_p;
      property_p ← ecma_op_object_get_property fuel h binding_obj_p name_p;
      Ok (bool_decide (property_p ≠ None))
  end.

(** The Global Environment constructor, ECMA-262 v5, 10.2.3 (object-bound
    global environment). *)
Definition ecma_op_create_global_environment (h : ecma_heap) (glob_obj_p : ecma_object_ptr_t)
    : ecma_object_ptr_t * ecma_heap :=
  ecma_create_object_lex_env h None glob_obj_p false.

(** Modelled from the spec: [ecma_op_resolve_reference_base] is not part of the
    sources.  Identifier resolution walks the chain of lexical environments
    from the given one outwards and returns the first environment that has
    the binding (HasBinding), or NULL when the chain ends.  The walk is
    bounded by [fuel]. *)
Fixpoint ecma_op_resolve_reference_base (fuel : nat) (h : ecma_heap)
    (lex_env_p : option ecma_object_ptr_t) (name_p : string)
    : result (option ecma_object_ptr_t) :=
  match lex_env_p with
  | None => Ok None
  | Some lex_env_iter_p =>
      match fuel with
      | O => Fatal out_of_fuel
      | S fuel' =>
          has_binding ← ecma_op_has_binding fuel h lex_env_iter_p name_p;
          if (has_binding : bool) then Ok (Some lex_env_iter_p)
          else
            outer_p ← ecma_get_lex_env_outer_reference h lex_env_iter_p;
            ecma_op_resolve_reference_base fuel' h outer_p name_p
      end
  end.

End LexicalEnvironment.

(** ** Lexical environment operations (ecma-lex-env.c)

    Modelled from the spec: [ecma_create_decl_lex_env],
    [ecma_get_lex_env_provide_this], [ecma_get_named_data_property] and
    [ecma_set_named_data_property_value] are declared in ecma-helpers.h and
    their bodies are not part of the sources.  A declarative environment keeps
    its bindings as named data properties of the environment object itself;
    [ecma_get_named_data_property] is the search that asserts that the
    property exists and is a named data property. *)

Definition ecma_create_decl_lex_env (h : ecma_heap)
    (outer_lexical_environment_p : option ecma_object_ptr_t) : ecma_object_ptr_t * ecma_heap :=
  let o := fresh (dom (heap_objects h)) in
  (o, heap_set_object h o (ecma_object (header_decl_lex_env outer_lexical_environment_p) [])).

Definition ecma_get_lex_env_provide_this (h : ecma_heap) (lex_env_p : ecma_object_ptr_t)
    : result bool :=
  obj ← heap_get_object h lex_env_p;
  match object_header obj with
  | header_object_lex_env _ _ provide_this => Ok provide_this
  | _ => Fatal (assertion_failed
                  "ecma_get_lex_env_type (object_p) == ECMA_LEXICAL_ENVIRONMENT_OBJECTBOUND")
  end.

Definition ecma_get_named_data_property (h : ecma_heap) (obj_p : ecma_object_ptr_t)
    (name_p : string) : result ecma_property_ptr_t :=
  property_p ← ecma_find_named_property h obj_p name_p;
  match property_p with
  | Some property_p =>
      type ← property_type h property_p;
      _ ← JERRY_ASSERT "property_p != NULL && property_p->type == ECMA_PROPERTY_NAMEDDATA"
            (is_named_data type);
      Ok property_p
  | None =>
      Fatal (assertion_failed "property_p != NULL && property_p->type == ECMA_PROPERTY_NAMEDDATA")
  end.

Definition ecma_set_named_data_property_value (h : ecma_heap) (prop_p : ecma_property_ptr_t)
    (v : ecma_value_t) : result ecma_heap :=
  node ← heap_get_property h prop_p;
  match node with
  | ECMA_PROPERTY_NAMEDDATA n _ w e c =>
      Ok (heap_set_property h prop_p (ECMA_PROPERTY_NAMEDDATA n v w e c))
  | _ => Fatal (assertion_failed "prop_p->type == ECMA_PROPERTY_NAMEDDATA")
  end.

Definition lex_env_type_eqb (a b : ecma_lexical_environment_type_t) : bool :=
  match a, b with
  | ECMA_LEXICAL_ENVIRONMENT_DECLARATIVE, ECMA_LEXICAL_ENVIRONMENT_DECLARATIVE
  | ECMA_LEXICAL_ENVIRONMENT_OBJECTBOUND, ECMA_LEXICAL_ENVIRONMENT_OBJECTBOUND => true
  | _, _ => false
  end.

Section LexicalEnvironmentOperations.
Context `{EcmaHost}.

(** The operations are modelled in the configuration without
    [CONFIG_ECMA_COMPACT_PROFILE]. *)

Definition assert_lexical_environment (h : ecma_heap) (lex_env_p : ecma_object_ptr_t)
    : result unit :=
  is_lex_env ← ecma_is_lexical_environment h lex_env_p;
  JERRY_ASSERT "lex_env_p.is_not_null () && ecma_is_lexical_environment (lex_env_p)" is_lex_env.

(** CreateMutableBinding operation, ECMA-262 v5, 10.2.1 *)
Definition ecma_op_create_mutable_binding (h : ecma_heap) (lex_env_p : ecma_object_ptr_t)
    (name_p : string) (is_deletable : bool) : result (ecma_completion_value_t * ecma_heap) :=
  _ ← assert_lexical_environment h lex_env_p;
  type ← ecma_get_lex_env_type h lex_env_p;
  match type with
  | ECMA_LEXICAL_ENVIRONMENT_DECLARATIVE =>
      '(_, h) ← ecma_create_named_data_property h lex_env_p name_p true false is_deletable;
      Ok (ecma_make_empty_completion_value, h)
  | ECMA_LEXICAL_ENVIRONMENT_OBJECTBOUND =>
      binding_obj_p ← ecma_get_lex_env_binding_object h lex_env_p;
      let prop_desc :=
        set_configurable
          (set_enumerable
             (set_writable
                (with_value (with_is_value_defined ecma_make_empty_property_descriptor true)
                   (ecma_value_simple ECMA_SIMPLE_VALUE_UNDEFINED))
                true)
             true)
          is_deletable in
      '(completion, h) ←
         ecma_op_object_define_own_property h binding_obj_p name_p prop_desc true;
      if ecma_is_completion_value_throw completion then Ok (completion, h)
      else
        _ ← JERRY_ASSERT
              "ecma_is_completion_value_normal_true (completion) || ecma_is_completion_value_normal_false (completion)"
              (ecma_is_completion_value_normal_true completion
               || ecma_is_completion_value_normal_false completion);
        Ok (ecma_make_empty_completion_value, h)
  end.

(** SetMutableBinding operation, ECMA-262 v5, 10.2.1 *)
Definition ecma_op_set_mutable_binding (fuel : nat) (h : ecma_heap) (lex_env_p : ecma_object_ptr_t)
    (name_p : string) (v : ecma_value_t) (is_strict : bool)
    : result (ecma_completion_value_t * ecma_heap) :=
  _ ← assert_lexical_environment h lex_env_p;
  type ← ecma_get_lex_env_type h lex_env_p;
  match type with
  | ECMA_LEXICAL_ENVIRONMENT_DECLARATIVE =>
      property_p ← ecma_get_named_data_property h lex_env_p name_p;
      writable ← ecma_is_property_writable h property_p;
      if (writable : bool) then
        h ← ecma_named_data_property_assign_value h lex_env_p property_p v;
        Ok (ecma_make_empty_completion_value, h)
      else if is_strict then
        let '(exception_obj_p, h) := ecma_new_standard_error h ECMA_ERROR_TYPE in
        Ok (ecma_make_throw_obj_completion_value exception_obj_p, h)
      else Ok (ecma_make_empty_completion_value, h)
  | ECMA_LEXICAL_ENVIRONMENT_OBJECTBOUND =>
      binding_obj_p ← ecma_get_lex_env_binding_object h lex_env_p;
      '(completion, h) ← ecma_op_object_put fuel h binding_obj_p name_p v is_strict;
      if ecma_is_completion_value_throw completion then Ok (completion, h)
      else
        _ ← JERRY_ASSERT
              "ecma_is_completion_value_normal_true (completion) || ecma_is_completion_value_normal_false (completion)"
              (ecma_is_completion_value_normal_true completion
               || ecma_is_completion_value_normal_false completion);
        Ok (ecma_make_empty_completion_value, h)
  end.

(** GetBindingValue operation, ECMA-262 v5, 10.2.1 *)
Definition ecma_op_get_binding_value (fuel : nat) (h : ecma_heap) (lex_env_p : ecma_object_ptr_t)
    (name_p : string) (is_strict : bool) : result (ecma_completion_value_t * ecma_heap) :=
  _ ← assert_lexical_environment h lex_env_p;
  type ← ecma_get_lex_env_type h lex_env_p;
  match type with
  | ECMA_LEXICAL_ENVIRONMENT_DECLARATIVE =>
      property_p ← ecma_get_named_data_property h lex_env_p name_p;
      prop_value ← ecma_get_named_data_property_value h property_p;
      (* is the binding mutable? *)
      writable ← ecma_is_property_writable h property_p;
      if negb writable && ecma_is_value_empty prop_value then
        (* uninitialized immutable binding *)
        if is_strict then
          let '(exception_obj_p, h) := ecma_new_standard_error h ECMA_ERROR_REFERENCE in
          Ok (ecma_make_throw_obj_completion_value exception_obj_p, h)
        else Ok (ecma_make_simple_completion_value ECMA_SIMPLE_VALUE_UNDEFINED, h)
      else Ok (ecma_make_normal_completion_value prop_value, h)
  | ECMA_LEXICAL_ENVIRONMENT_OBJECTBOUND =>
      binding_obj_p ← ecma_get_lex_env_binding_object h lex_env_p;
      property_p ← ecma_op_object_get_property fuel h binding_obj_p name_p;
      match property_p with
      | None =>
          if is_strict then
            let '(exception_obj_p, h) := ecma_new_standard_error h ECMA_ERROR_REFERENCE in
            Ok (ecma_make_throw_obj_completion_value exception_obj_p, h)
          else Ok (ecma_make_simple_completion_value ECMA_SIMPLE_VALUE_UNDEFINED, h)
      | Some _ => ecma_op_object_get fuel h binding_obj_p name_p
      end
  end.

(** DeleteBinding operation, ECMA-262 v5, 10.2.1 *)
Definition ecma_op_delete_binding (h : ecma_heap) (lex_env_p : ecma_object_ptr_t)
    (name_p : string) : result (ecma_completion_value_t * ecma_heap) :=
  _ ← assert_lexical_environment h lex_env_p;
  type ← ecma_get_lex_env_type h lex_env_p;
  match type with
  | ECMA_LEXICAL_ENVIRONMENT_DECLARATIVE =>
      prop_p ← ecma_find_named_property h lex_env_p name_p;
      match prop_p with
      | None => Ok (ecma_make_simple_completion_value ECMA_SIMPLE_VALUE_TRUE, h)
      | Some prop_p =>
          type ← property_type h prop_p;
          _ ← JERRY_ASSERT "prop_p->type == ECMA_PROPERTY_NAMEDDATA" (is_named_data type);
          configurable ← ecma_is_property_configurable h prop_p;
          if negb configurable then
            Ok (ecma_make_simple_completion_value ECMA_SIMPLE_VALUE_FALSE, h)
          else
            h ← ecma_delete_property h lex_env_p prop_p;
            Ok (ecma_make_simple_completion_value ECMA_SIMPLE_VALUE_TRUE, h)
      end
  | ECMA_LEXICAL_ENVIRONMENT_OBJECTBOUND =>
      binding_obj_p ← ecma_get_lex_env_binding_object h lex_env_p;
      ecma_op_object_delete h binding_obj_p name_p false
  end.

(** ImplicitThisValue operation, ECMA-262 v5, 10.2.1 *)
Definition ecma_op_implicit_this_value (h : ecma_heap) (lex_env_p : ecma_object_ptr_t)
    : result ecma_completion_value_t :=
  _ ← assert_lexical_environment h lex_env_p;
  type ← ecma_get_lex_env_type h lex_env_p;
  match type with
  | ECMA_LEXICAL_ENVIRONMENT_DECLARATIVE =>
      Ok (ecma_make_simple_completion_value ECMA_SIMPLE_VALUE_UNDEFINED)
  | ECMA_LEXICAL_ENVIRONMENT_OBJECTBOUND =>
      provide_this ← ecma_get_lex_env_provide_this h lex_env_p;
      if (provide_this : bool) then
        binding_obj_p ← ecma_get_lex_env_binding_object h lex_env_p;
        Ok (ecma_make_normal_completion_value (ecma_value_object binding_obj_p))
      else Ok (ecma_make_simple_completion_value ECMA_SIMPLE_VALUE_UNDEFINED)
  end.

(** CreateImmutableBinding operation, ECMA-262 v5, 10.2.1 *)
Definition ecma_op_create_immutable_binding (h : ecma_heap) (lex_env_p : ecma_object_ptr_t)
    (name_p : string) : result ecma_heap :=
  _ ← assert_lexical_environment h lex_env_p;
  type ← ecma_get_lex_env_type h lex_env_p;
  _ ← JERRY_ASSERT "ecma_get_lex_env_type (lex_env_p) == ECMA_LEXICAL_ENVIRONMENT_DECLARATIVE"
        (lex_env_type_eqb type ECMA_LEXICAL_ENVIRONMENT_DECLARATIVE);
  '(prop_p, h) ← ecma_create_named_data_property h lex_env_p name_p false false false;
  prop_value ← ecma_get_named_data_property_value h prop_p;
  _ ← JERRY_ASSERT "ecma_is_value_undefined (prop_value)" (ecma_is_value_undefined prop_value);
  ecma_set_named_data_property_value h prop_p (ecma_value_simple ECMA_SIMPLE_VALUE_EMPTY).

(** InitializeImmutableBinding operation, ECMA-262 v5, 10.2.1 *)
Definition ecma_op_initialize_immutable_binding (h : ecma_heap) (lex_env_p : ecma_object_ptr_t)
    (name_p : string) (v : ecma_value_t) : result ecma_heap :=
  _ ← assert_lexical_environment h lex_env_p;
  type ← ecma_get_lex_env_type h lex_env_p;
  _ ← JERRY_ASSERT "ecma_get_lex_env_type (lex_env_p) == ECMA_LEXICAL_ENVIRONMENT_DECLARATIVE"
        (lex_env_type_eqb type ECMA_LEXICAL_ENVIRONMENT_DECLARATIVE);
  prop_p ← ecma_get_named_data_property h lex_env_p name_p;
  prop_value ← ecma_get_named_data_property_value h prop_p;
  (* The binding must be uninitialized immutable binding *)
  writable ← ecma_is_property_writable h prop_p;
  _ ← JERRY_ASSERT "!ecma_is_property_writable (prop_p) && ecma_is_value_empty (prop_value)"
        (negb writable && ecma_is_value_empty prop_value);
  ecma_named_data_property_assign_value h lex_env_p prop_p v.

End LexicalEnvironmentOperations.

(** ** Byte-code and the interpreter context *)

(** [idx_t] is an 8-bit and [opcode_counter_t] a 16-bit unsigned integer. *)
Abbreviation idx_t := Z (only parsing).
Abbreviation opcode_counter_t := Z (only parsing).
Abbreviation literal_index_t := Z (only parsing).

Definition opcode_counter_incr (pos : opcode_counter_t) : opcode_counter_t :=
  ((pos + 1) mod 65536)%Z.

Inductive opcode_meta_type :=
  | OPCODE_META_TYPE_UNDEFINED
  | OPCODE_META_TYPE_THIS_ARG
  | OPCODE_META_TYPE_VARG
  | OPCODE_META_TYPE_VARG_PROP_DATA
  | OPCODE_META_TYPE_VARG_PROP_GETTER
  | OPCODE_META_TYPE_VARG_PROP_SETTER
  | OPCODE_META_TYPE_END_WITH
  | OPCODE_META_TYPE_FUNCTION_END
  | OPCODE_META_TYPE_CATCH
  | OPCODE_META_TYPE_CATCH_EXCEPTION_IDENTIFIER
  | OPCODE_META_TYPE_FINALLY
  | OPCODE_META_TYPE_END_TRY_CATCH_FINALLY
  | OPCODE_META_TYPE_STRICT_CODE.

(** An instruction: the opcode tag with its operands.  The opcodes whose
    handlers are not modelled here are [op_other] with the index of the
    handler in the dispatch table. *)
Inductive opcode_t :=
  | op_nop
  | op_reg_var_decl (min max : idx_t)
  | op_less_than (dst var_left var_right : idx_t)
  | op_greater_than (dst var_left var_right : idx_t)
  | op_less_or_equal_than (dst var_left var_right : idx_t)
  | op_greater_or_equal_than (dst var_left var_right : idx_t)
  | op_exitval (status_code : idx_t)
  | op_ret
  | op_typeof (lhs obj : idx_t)
  | op_meta (type : opcode_meta_type) (data_1 data_2 : idx_t)
  | op_var_decl (variable_name : idx_t)
  | op_retval (ret_value : idx_t)
  | op_throw_value (var : idx_t)
  | op_this_binding (lhs : idx_t)
  | op_logical_not (dst var_right : idx_t)
  | op_other (op_idx : N) (arg1 arg2 arg3 : idx_t).

(** The interpreter context of one frame; [regs] is the register array of the
    stack frame, holding the registers [min_reg_num .. max_reg_num]. *)
Record int_data_t := mk_int_data {
  pos : opcode_counter_t;
  this_binding_p : ecma_value_t;
  lex_env_p : ecma_object_ptr_t;
  is_strict : bool;
  is_eval_code : bool;
  min_reg_num : idx_t;
  max_reg_num : idx_t;
  regs : list ecma_value_t
}.

Definition with_pos (int_data : int_data_t) (p : opcode_counter_t) : int_data_t :=
  mk_int_data p (this_binding_p int_data) (lex_env_p int_data) (is_strict int_data)
    (is_eval_code int_data) (min_reg_num int_data) (max_reg_num int_data) (regs int_data).

Definition with_regs (int_data : int_data_t) (r : list ecma_value_t) : int_data_t :=
  mk_int_data (pos int_data) (this_binding_p int_data) (lex_env_p int_data) (is_strict int_data)
    (is_eval_code int_data) (min_reg_num int_data) (max_reg_num int_data) r.

(** [int_data->pos++] *)
Definition pos_incr (int_data : int_data_t) : int_data_t :=
  with_pos int_data (opcode_counter_incr (pos int_data)).

(** What an opcode handler leaves behind: the completion value it has written,
    the interpreter context and the heap. *)
Definition opfunc_result : Type := result (ecma_completion_value_t * int_data_t * ecma_heap).

(** Collaborators of the interpreter: the literal table of the serializer,
    the access to variables that are not registers, the relational
    comparison, GetValue on an environment, the handlers of the opcodes that
    are not modelled, and the initialisation of the engine. *)
Class InterpreterHost `{EcmaHost} := {
  deserialize_lit_id_by_uid : idx_t → opcode_counter_t → option literal_index_t;
  ecma_new_ecma_string_from_lit_index : literal_index_t → string;
  get_variable_value_by_name :
    ecma_heap → int_data_t → idx_t → bool → result (ecma_completion_value_t * ecma_heap);
  set_variable_value_by_name :
    ecma_heap → int_data_t → opcode_counter_t → idx_t → ecma_value_t →
    result (ecma_completion_value_t * ecma_heap);
  ecma_op_abstract_relational_compare :
    ecma_heap → ecma_value_t → ecma_value_t → bool →
    result (ecma_completion_value_t * ecma_heap);
  ecma_op_get_value_lex_env_base :
    ecma_heap → ecma_object_ptr_t → string → bool →
    result (ecma_completion_value_t * ecma_heap);
  opfunc_other : N → idx_t → idx_t → idx_t → int_data_t → ecma_heap → opfunc_result;
  ecma_init : ecma_heap
}.

Section Interpreter.
Context `{InterpreterHost}.

(** ** Access to variables (opcodes-helpers-variables)

    Modelled from the spec: the bodies of [is_reg_variable],
    [get_variable_value] and [set_variable_value] are not part of the sources.
    An operand addresses a register slot when its index is in
    [min_reg_num, max_reg_num] of the current frame; a register is read and
    written in the register array of the frame, a write to a register
    completes with the normal empty completion. *)

Definition is_reg_variable (int_data : int_data_t) (var_idx : idx_t) : bool :=
  (min_reg_num int_data <=? var_idx)%Z && (var_idx <=? max_reg_num int_data)%Z.

Definition reg_slot (int_data : int_data_t) (var_idx : idx_t) : nat :=
  Z.to_nat (var_idx - min_reg_num int_data).

Definition get_variable_value (h : ecma_heap) (int_data : int_data_t) (var_idx : idx_t)
    (do_eval_or_arguments_check : bool) : result (ecma_completion_value_t * ecma_heap) :=
  if is_reg_variable int_data var_idx then
    match regs int_data !! reg_slot int_data var_idx with
    | Some reg_value => Ok (ecma_make_normal_completion_value reg_value, h)
    | None => Fatal invalid_pointer
    end
  else get_variable_value_by_name h int_data var_idx do_eval_or_arguments_check.

Definition set_variable_value (h : ecma_heap) (int_data : int_data_t) (lit_oc : opcode_counter_t)
    (var_idx : idx_t) (v : ecma_value_t) : opfunc_result :=
  if is_reg_variable int_data var_idx then
    if decide (reg_slot int_data var_idx < length (regs int_data))%nat then
      Ok (ecma_make_empty_completion_value,
          with_regs int_data (<[reg_slot int_data var_idx := v]> (regs int_data)), h)
    else Fatal invalid_pointer
  else
    '(completion, h) ← set_variable_value_by_name h int_data lit_oc var_idx v;
    Ok (completion, int_data, h).

(** ** Relational opcode handlers (opcodes-ecma-relational.c) *)

(** 'Less-than' opcode handler, ECMA-262 v5, 11.8.1 *)
Definition opfunc_less_than (dst_var_idx left_var_idx right_var_idx : idx_t)
    (int_data : int_data_t) (h : ecma_heap) : opfunc_result :=
  '(left_value_completion, h) ← get_variable_value h int_data left_var_idx false;
  '(ret_value, int_data, h) ←
     ECMA_TRY_CATCH left_value_completion
       (λ left_value,
          '(right_value_completion, h) ← get_variable_value h int_data right_var_idx false;
          ECMA_TRY_CATCH right_value_completion
            (λ right_value,
               '(compare_result_completion, h) ←
                  ecma_op_abstract_relational_compare h left_value right_value true;
               ECMA_TRY_CATCH compare_result_completion
                 (λ compare_result,
                    res ← (if ecma_is_value_undefined compare_result
                           then Ok ECMA_SIMPLE_VALUE_FALSE
                           else
                             _ ← JERRY_ASSERT "ecma_is_value_boolean (compare_result)"
                                   (ecma_is_value_boolean compare_result);
                             Ok (if ecma_is_value_true compare_result
                                 then ECMA_SIMPLE_VALUE_TRUE else ECMA_SIMPLE_VALUE_FALSE));
                    set_variable_value h int_data (pos int_data) dst_var_idx
                      (ecma_value_simple res))
                 (λ c, Ok (c, int_data, h)))
            (λ c, Ok (c, int_data, h)))
       (λ c, Ok (c, int_data, h));
  Ok (ret_value, pos_incr int_data, h).

(** 'Greater-than' opcode handler, ECMA-262 v5, 11.8.2 *)
Definition opfunc_greater_than (dst_var_idx left_var_idx right_var_idx : idx_t)
    (int_data : int_data_t) (h : ecma_heap) : opfunc_result :=
  '(left_value_completion, h) ← get_variable_value h int_data left_var_idx false;
  '(ret_value, int_data, h) ←
     ECMA_TRY_CATCH left_value_completion
       (λ left_value,
          '(right_value_completion, h) ← get_variable_value h int_data right_var_idx false;
          ECMA_TRY_CATCH right_value_completion
            (λ right_value,
               '(compare_result_completion, h) ←
                  ecma_op_abstract_relational_compare h right_value left_value false;
               ECMA_TRY_CATCH compare_result_completion
                 (λ compare_result,
                    res ← (if ecma_is_value_undefined compare_result
                           then Ok ECMA_SIMPLE_VALUE_FALSE
                           else
                             _ ← JERRY_ASSERT "ecma_is_value_boolean (compare_result)"
                                   (ecma_is_value_boolean compare_result);
                             Ok (if ecma_is_value_true compare_result
                                 then ECMA_SIMPLE_VALUE_TRUE else ECMA_SIMPLE_VALUE_FALSE));
                    set_variable_value h int_data (pos int_data) dst_var_idx
                      (ecma_value_simple res))
                 (λ c, Ok (c, int_data, h)))
            (λ c, Ok (c, int_data, h)))
       (λ c, Ok (c, int_data, h));
  Ok (ret_value, pos_incr int_data, h).

(** 'Less-than-or-equal' opcode handler, ECMA-262 v5, 11.8.3 *)
Definition opfunc_less_or_equal_than (dst_var_idx left_var_idx right_var_idx : idx_t)
    (int_data : int_data_t) (h : ecma_heap) : opfunc_result :=
  '(left_value_completion, h) ← get_variable_value h int_data left_var_idx false;
  '(ret_value, int_data, h) ←
     ECMA_TRY_CATCH left_value_completion
       (λ left_value,
          '(right_value_completion, h) ← get_variable_value h int_data right_var_idx false;
          ECMA_TRY_CATCH right_value_completion
            (λ right_value,
               '(compare_result_completion, h) ←
                  ecma_op_abstract_relational_compare h right_value left_value false;
               ECMA_TRY_CATCH compare_result_completion
                 (λ compare_result,
                    res ← (if ecma_is_value_undefined compare_result
                           then Ok ECMA_SIMPLE_VALUE_FALSE
                           else
                             _ ← JERRY_ASSERT "ecma_is_value_boolean (compare_result)"
                                   (ecma_is_value_boolean compare_result);
                             Ok (if ecma_is_value_true compare_result
                                 then ECMA_SIMPLE_VALUE_FALSE else ECMA_SIMPLE_VALUE_TRUE));
                    set_variable_value h int_data (pos int_data) dst_var_idx
                      (ecma_value_simple res))
                 (λ c, Ok (c, int_data, h)))
            (λ c, Ok (c, int_data, h)))
       (λ c, Ok (c, int_data, h));
  Ok (ret_value, pos_incr int_data, h).

(** 'Greater-than-or-equal' opcode handler, ECMA-262 v5, 11.8.4 *)
Definition opfunc_greater_or_equal_than (dst_var_idx left_var_idx right_var_idx : idx_t)
    (int_data : int_data_t) (h : ecma_heap) : opfunc_result :=
  '(left_value_completion, h) ← get_variable_value h int_data left_var_idx false;
  '(ret_value, int_data, h) ←
     ECMA_TRY_CATCH left_value_completion
       (λ left_value,
          '(right_value_completion, h) ← get_variable_value h int_data right_var_idx false;
          ECMA_TRY_CATCH right_value_completion
            (λ right_value,
               '(compare_result_completion, h) ←
                  ecma_op_abstract_relational_compare h left_value right_value true;
               ECMA_TRY_CATCH compare_result_completion
                 (λ compare_result,
                    res ← (if ecma_is_value_undefined compare_result
                           then Ok ECMA_SIMPLE_VALUE_FALSE
                           else
                             _ ← JERRY_ASSERT "ecma_is_value_boolean (compare_result)"
                                   (ecma_is_value_boolean compare_result);
                             Ok (if ecma_is_value_true compare_result
                                 then ECMA_SIMPLE_VALUE_FALSE else ECMA_SIMPLE_VALUE_TRUE));
                    set_variable_value h int_data (pos int_data) dst_var_idx
                      (ecma_value_simple res))
                 (λ c, Ok (c, int_data, h)))
            (λ c, Ok (c, int_data, h)))
       (λ c, Ok (c, int_data, h));
  Ok (ret_value, pos_incr int_data, h).

(** ** Opcode handlers of opcodes.c *)

(** 'Nop' opcode handler. *)
Definition opfunc_nop (int_data : int_data_t) (h : ecma_heap) : opfunc_result :=
  Ok (ecma_make_empty_completion_value, pos_incr int_data, h).

(** 'Register variable declaration': a meta-opcode that is not supposed to be
    executed. *)
Definition opfunc_reg_var_decl (int_data : int_data_t) (h : ecma_heap) : opfunc_result :=
  Fatal unreachable.

(** 'Return with no expression' opcode handler, ECMA-262 v5, 12.9 *)
Definition opfunc_ret (int_data : int_data_t) (h : ecma_heap) : opfunc_result :=
  Ok (ecma_make_return_completion_value (ecma_value_simple ECMA_SIMPLE_VALUE_UNDEFINED),
      int_data, h).

(** Exit from script with specified status code: 0 for successful completion,
    1 to indicate failure. *)
Definition opfunc_exitval (status_code : idx_t) (int_data : int_data_t) (h : ecma_heap)
    : opfunc_result :=
  _ ← JERRY_ASSERT "opdata.data.exitval.status_code == 0 || opdata.data.exitval.status_code == 1"
        ((status_code =? 0)%Z || (status_code =? 1)%Z);
  Ok (ecma_make_exit_completion_value (status_code =? 0)%Z, int_data, h).

(** Evaluate argument of typeof, ECMA-262 v5, 11.4.3 *)
Definition evaluate_arg_for_typeof (fuel : nat) (h : ecma_heap) (int_data : int_data_t)
    (var_idx : idx_t) : result (ecma_completion_value_t * ecma_heap) :=
  if is_reg_variable int_data var_idx then
    (* 2.b *)
    '(ret_value, h) ← get_variable_value h int_data var_idx false;
    _ ← JERRY_ASSERT "ecma_is_completion_value_normal (ret_value)"
          (ecma_is_completion_value_normal ret_value);
    Ok (ret_value, h)
  else
    match deserialize_lit_id_by_uid var_idx (pos int_data) with
    | None => Fatal (assertion_failed "lit_id != INVALID_LITERAL")
    | Some lit_id =>
        let var_name_string_p := ecma_new_ecma_string_from_lit_index lit_id in
        ref_base_lex_env_p ←
          ecma_op_resolve_reference_base fuel h (Some (lex_env_p int_data)) var_name_string_p;
        match ref_base_lex_env_p with
        | None => Ok (ecma_make_simple_completion_value ECMA_SIMPLE_VALUE_UNDEFINED, h)
        | Some ref_base_lex_env_p =>
            ecma_op_get_value_lex_env_base h ref_base_lex_env_p var_name_string_p
              (is_strict int_data)
        end
    end.

(** 'typeof' opcode handler, ECMA-262 v5, 11.4.3 *)
Definition opfunc_typeof (fuel : nat) (dst_var_idx obj_var_idx : idx_t)
    (int_data : int_data_t) (h : ecma_heap) : opfunc_result :=
  '(typeof_arg_completion, h) ← evaluate_arg_for_typeof fuel h int_data obj_var_idx;
  '(ret_value, int_data, h) ←
     ECMA_TRY_CATCH typeof_arg_completion
       (λ typeof_arg,
          type_str_p ←
            (if ecma_is_value_undefined typeof_arg then
               Ok (ecma_get_magic_string ECMA_MAGIC_STRING_UNDEFINED)
             else if ecma_is_value_null typeof_arg then
               Ok (ecma_get_magic_string ECMA_MAGIC_STRING_OBJECT)
             else if ecma_is_value_boolean typeof_arg then
               Ok (ecma_get_magic_string ECMA_MAGIC_STRING_BOOLEAN)
             else if ecma_is_value_number typeof_arg then
               Ok (ecma_get_magic_string ECMA_MAGIC_STRING_NUMBER)
             else if ecma_is_value_string typeof_arg then
               Ok (ecma_get_magic_string ECMA_MAGIC_STRING_STRING)
             else
               _ ← JERRY_ASSERT "ecma_is_value_object (typeof_arg)"
                     (ecma_is_value_object typeof_arg);
               if ecma_op_is_callable h typeof_arg then
                 Ok (ecma_get_magic_string ECMA_MAGIC_STRING_FUNCTION)
               else Ok (ecma_get_magic_string ECMA_MAGIC_STRING_OBJECT));
          set_variable_value h int_data (pos int_data) dst_var_idx
            (ecma_value_string type_str_p))
       (λ c, Ok (c, int_data, h));
  Ok (ret_value, pos_incr int_data, h).

(** 'meta' opcode handler. *)
Definition opfunc_meta (type : opcode_meta_type) (int_data : int_data_t) (h : ecma_heap)
    : opfunc_result :=
  match type with
  | OPCODE_META_TYPE_VARG
  | OPCODE_META_TYPE_VARG_PROP_DATA
  | OPCODE_META_TYPE_VARG_PROP_GETTER
  | OPCODE_META_TYPE_VARG_PROP_SETTER
  | OPCODE_META_TYPE_END_WITH
  | OPCODE_META_TYPE_CATCH
  | OPCODE_META_TYPE_FINALLY
  | OPCODE_META_TYPE_END_TRY_CATCH_FINALLY => Ok (ecma_make_meta_completion_value, int_data, h)
  | OPCODE_META_TYPE_STRICT_CODE => Ok (ecma_make_meta_completion_value, int_data, h)
  | OPCODE_META_TYPE_UNDEFINED
  | OPCODE_META_TYPE_THIS_ARG
  | OPCODE_META_TYPE_FUNCTION_END
  | OPCODE_META_TYPE_CATCH_EXCEPTION_IDENTIFIER => Fatal unreachable
  end.

(** 'Variable declaration' opcode handler, ECMA-262 v5, 10.5 (block 8). *)
Definition opfunc_var_decl (fuel : nat) (variable_name : idx_t) (int_data : int_data_t)
    (h : ecma_heap) : opfunc_result :=
  match deserialize_lit_id_by_uid variable_name (pos int_data) with
  | None => Fatal (assertion_failed "lit_id != INVALID_LITERAL")
  | Some lit_id =>
      let var_name_string_p := ecma_new_ecma_string_from_lit_index lit_id in
      has_binding ← ecma_op_has_binding fuel h (lex_env_p int_data) var_name_string_p;
      h ← (if negb has_binding then
             let is_configurable_bindings := is_eval_code int_data in
             '(completion, h) ←
                ecma_op_create_mutable_binding h (lex_env_p int_data) var_name_string_p
                  is_configurable_bindings;
             _ ← JERRY_ASSERT "ecma_is_completion_value_empty (completion)"
                   (ecma_is_completion_value_empty completion);
             (* SetMutableBinding is skipped: CreateMutableBinding sets the value of the
                created binding to undefined *)
             '(completion, h) ←
                ecma_op_get_binding_value fuel h (lex_env_p int_data) var_name_string_p true;
             _ ← JERRY_ASSERT
                   "ecma_is_completion_value_normal_simple_value (completion, ECMA_SIMPLE_VALUE_UNDEFINED)"
                   (ecma_is_completion_value_normal_simple_value completion
                      ECMA_SIMPLE_VALUE_UNDEFINED);
             Ok h
           else Ok h);
      Ok (ecma_make_empty_completion_value, pos_incr int_data, h)
  end.

(** 'Return with expression' opcode handler, ECMA-262 v5, 12.9.  The copy of
    the value that the handler makes is the value itself. *)
Definition opfunc_retval (ret_value_idx : idx_t) (int_data : int_data_t) (h : ecma_heap)
    : opfunc_result :=
  '(expr_val_completion, h) ← get_variable_value h int_data ret_value_idx false;
  ECMA_TRY_CATCH expr_val_completion
    (λ expr_val, Ok (ecma_make_return_completion_value expr_val, int_data, h))
    (λ c, Ok (c, int_data, h)).

(** 'Logical NOT Operator' opcode handler, ECMA-262 v5, 11.4.9 *)
Definition opfunc_logical_not (dst_var_idx right_var_idx : idx_t) (int_data : int_data_t)
    (h : ecma_heap) : opfunc_result :=
  '(right_value_completion, h) ← get_variable_value h int_data right_var_idx false;
  '(ret_value, int_data, h) ←
     ECMA_TRY_CATCH right_value_completion
       (λ right_value,
          let old_value := ECMA_SIMPLE_VALUE_TRUE in
          to_bool_value ← ecma_op_to_boolean right_value;
          let old_value :=
            if ecma_is_completion_value_normal_true to_bool_value then ECMA_SIMPLE_VALUE_FALSE
            else old_value in
          set_variable_value h int_data (pos int_data) dst_var_idx (ecma_value_simple old_value))
       (λ c, Ok (c, int_data, h));
  Ok (ret_value, pos_incr int_data, h).

(** 'This' opcode handler, ECMA-262 v5, 11.1.1 *)
Definition opfunc_this_binding (dst_var_idx : idx_t) (int_data : int_data_t) (h : ecma_heap)
    : opfunc_result :=
  let lit_oc := pos int_data in
  let int_data := pos_incr int_data in
  set_variable_value h int_data lit_oc dst_var_idx (this_binding_p int_data).

(** 'Throw' opcode handler, ECMA-262 v5, 12.13.  The copy of the value that
    the handler makes is the value itself. *)
Definition opfunc_throw_value (var_idx : idx_t) (int_data : int_data_t) (h : ecma_heap)
    : opfunc_result :=
  '(var_value_completion, h) ← get_variable_value h int_data var_idx false;
  '(ret_value, int_data, h) ←
     ECMA_TRY_CATCH var_value_completion
       (λ var_value, Ok (ecma_make_throw_completion_value var_value, int_data, h))
       (λ c, Ok (c, int_data, h));
  Ok (ret_value, pos_incr int_data, h).

(** ** The interpreter (interpreter.c) *)

(** [__opfuncs[curr->op_idx] (completion, *curr, int_data)] *)
Definition __opfuncs (fuel : nat) (curr : opcode_t) (int_data : int_data_t) (h : ecma_heap)
    : opfunc_result :=
  match curr with
  | op_nop => opfunc_nop int_data h
  | op_reg_var_decl _ _ => opfunc_reg_var_decl int_data h
  | op_less_than dst var_left var_right => opfunc_less_than dst var_left var_right int_data h
  | op_greater_than dst var_left var_right =>
      opfunc_greater_than dst var_left var_right int_data h
  | op_less_or_equal_than dst var_left var_right =>
      opfunc_less_or_equal_than dst var_left var_right int_data h
  | op_greater_or_equal_than dst var_left var_right =>
      opfunc_greater_or_equal_than dst var_left var_right int_data h
  | op_exitval status_code => opfunc_exitval status_code int_data h
  | op_ret => opfunc_ret int_data h
  | op_typeof lhs obj => opfunc_typeof fuel lhs obj int_data h
  | op_meta type _ _ => opfunc_meta type int_data h
  | op_var_decl variable_name => opfunc_var_decl fuel variable_name int_data h
  | op_retval ret_value => opfunc_retval ret_value int_data h
  | op_throw_value var => opfunc_throw_value var int_data h
  | op_this_binding lhs => opfunc_this_binding lhs int_data h
  | op_logical_not dst var_right => opfunc_logical_not dst var_right int_data h
  | op_other op_idx arg1 arg2 arg3 => opfunc_other op_idx arg1 arg2 arg3 int_data h
  end.

(** Get specified opcode from the program. *)
Definition read_opcode (__program : list opcode_t) (counter : opcode_counter_t) : result opcode_t :=
  match __program !! Z.to_nat counter with
  | Some opcode => Ok opcode
  | None => Fatal invalid_pointer
  end.

(** [run_int_loop]: [fuel] bounds the number of handlers that are run. *)
Fixpoint run_int_loop (fuel : nat) (__program : list opcode_t) (int_data : int_data_t)
    (h : ecma_heap) : opfunc_result :=
  match fuel with
  | O => Fatal out_of_fuel
  | S fuel' =>
      curr ← read_opcode __program (pos int_data);
      '(completion, int_data, h) ← __opfuncs fuel curr int_data h;
      _ ← JERRY_ASSERT
            "!ecma_is_completion_value_normal (completion) || ecma_is_completion_value_empty (completion)"
            (negb (ecma_is_completion_value_normal completion)
             || ecma_is_completion_value_empty completion);
      if ecma_is_completion_value_normal completion then
        run_int_loop fuel' __program int_data h
      else if ecma_is_completion_value_meta completion then
        Ok (ecma_make_empty_completion_value, int_data, h)
      else Ok (completion, int_data, h)
  end.

Definition run_int_from_pos (fuel : nat) (__program : list opcode_t) (h : ecma_heap)
    (start_pos : opcode_counter_t) (this_binding_value : ecma_value_t)
    (lex_env_p : ecma_object_ptr_t) (is_strict is_eval_code : bool)
    : result (ecma_completion_value_t * ecma_heap) :=
  curr ← read_opcode __program start_pos;
  match curr with
  | op_reg_var_decl min_reg_num max_reg_num =>
      _ ← JERRY_ASSERT "max_reg_num >= min_reg_num" (min_reg_num <=? max_reg_num)%Z;
      let regs_num := (max_reg_num - min_reg_num + 1)%Z in
      let regs := replicate (Z.to_nat regs_num) (ecma_value_simple ECMA_SIMPLE_VALUE_UNDEFINED) in
      let int_data :=
        {| pos := opcode_counter_incr start_pos;
           this_binding_p := this_binding_value;
           lex_env_p := lex_env_p;
           is_strict := is_strict;
           is_eval_code := is_eval_code;
           min_reg_num := min_reg_num;
           max_reg_num := max_reg_num;
           regs := regs |} in
      '(completion, _, h) ← run_int_loop fuel __program int_data h;
      _ ← JERRY_ASSERT
            "ecma_is_completion_value_normal (completion) || ecma_is_completion_value_throw (completion) || ecma_is_completion_value_return (completion) || ecma_is_completion_value_exit (completion)"
            (ecma_is_completion_value_normal completion
             || ecma_is_completion_value_throw completion
             || ecma_is_completion_value_return completion
             || ecma_is_completion_value_exit completion);
      Ok (completion, h)
  | _ => Fatal (assertion_failed "curr->op_idx == __op__idx_reg_var_decl")
  end.

(** The state in which [run_int] starts the interpretation of the program:
    start position, strictness, global object as this binding, global
    environment. *)
Definition run_int_start (__program : list opcode_t)
    : result (opcode_counter_t * bool * ecma_object_ptr_t * ecma_object_ptr_t * ecma_heap) :=
  let is_strict := false in
  let start_pos := 0%Z in
  first_opcode ← read_opcode __program start_pos;
  let '(is_strict, start_pos) :=
    match first_opcode with
    | op_meta OPCODE_META_TYPE_STRICT_CODE _ _ => (true, opcode_counter_incr start_pos)
    | _ => (is_strict, start_pos)
    end in
  let h := ecma_init in
  let '(glob_obj_p, h) := ecma_builtin_get h ECMA_BUILTIN_ID_GLOBAL in
  let '(lex_env_p, h) := ecma_op_create_global_environment h glob_obj_p in
  Ok (start_pos, is_strict, glob_obj_p, lex_env_p, h).

(** [run_int]: the value returned to the caller, or the fatal outcome. *)
Definition run_int (fuel : nat) (__program : option (list opcode_t)) : result bool :=
  match __program with
  | None => Fatal (assertion_failed "__program != NULL")
  | Some __program =>
      '(start_pos, is_strict, glob_obj_p, lex_env_p, h) ← run_int_start __program;
      let this_binding_value := ecma_value_object glob_obj_p in
      '(run_completion, h) ←
         run_int_from_pos fuel __program h start_pos this_binding_value lex_env_p is_strict false;
      if ecma_is_completion_value_exit run_completion then
        let value_ret := completion_value run_completion in
        Ok (ecma_is_value_true value_ret)
      else if ecma_is_completion_value_throw run_completion then
        Fatal (jerry_exit ERR_UNHANDLED_EXCEPTION)
      else Fatal unreachable
  end.

End Interpreter.

(** ** A concrete host and concrete heaps, used to run the model

    Function objects are the objects of type [ECMA_OBJECT_TYPE_FUNCTION]; a
    call returns the string "called".  A standard error is a fresh general
    object.  The global object is at address 1 and the Object prototype at
    address 2. *)

Definition example_function_call (h : ecma_heap) (func_obj_p : ecma_object_ptr_t)
    (this_arg_value : ecma_value_t) (arguments_list : list ecma_value_t)
    : result (ecma_completion_value_t * ecma_heap) :=
  Ok (ecma_make_normal_completion_value (ecma_value_string "called"), h).

Definition example_is_callable (h : ecma_heap) (v : ecma_value_t) : bool :=
  match v with
  | ecma_value_object o =>
      match heap_objects h !! o with
      | Some (ecma_object (header_object _ _ ECMA_OBJECT_TYPE_FUNCTION _) _) => true
      | _ => false
      end
  | _ => false
  end.

Definition example_new_standard_error (h : ecma_heap) (error_type : ecma_standard_error_t)
    : ecma_object_ptr_t * ecma_heap :=
  ecma_create_object h None true ECMA_OBJECT_TYPE_GENERAL.

Definition example_builtin_get (h : ecma_heap) (id : ecma_builtin_id_t)
    : ecma_object_ptr_t * ecma_heap :=
  (match id with
   | ECMA_BUILTIN_ID_GLOBAL => 1%positive
   | ECMA_BUILTIN_ID_OBJECT_PROTOTYPE => 2%positive
   end, h).

Definition example_host : EcmaHost :=
  {| ecma_op_function_call := example_function_call;
     ecma_op_is_callable := example_is_callable;
     ecma_new_standard_error := example_new_standard_error;
     ecma_builtin_get := example_builtin_get |}.

Definition general_object (prototype_p : option ecma_object_ptr_t) (extensible : bool)
    (l : list ecma_property_ptr_t) : ecma_object_t :=
  ecma_object (header_object prototype_p extensible ECMA_OBJECT_TYPE_GENERAL false) l.

(** The object at address 1 owns the configurable data property "p". *)
Definition heap_with_data_property : ecma_heap :=
  mk_heap {[ 1%positive := general_object None true [1%positive] ]}
          {[ 1%positive :=
               ECMA_PROPERTY_NAMEDDATA "p" (ecma_value_simple ECMA_SIMPLE_VALUE_TRUE)
                 true true true ]}.

(** The accessor descriptor [{ get: undefined }]. *)
Definition accessor_descriptor : ecma_property_descriptor_t :=
  set_get ecma_make_empty_property_descriptor None.

(** The object at address 1 has no property and no prototype. *)
Definition heap_with_bare_object : ecma_heap :=
  mk_heap {[ 1%positive := general_object None true [] ]} ∅.

(** The names of the six attributes that ToPropertyDescriptor looks up. *)
Definition descriptor_attribute_names : list ecma_magic_string_id_t :=
  [ ECMA_MAGIC_STRING_ENUMERABLE; ECMA_MAGIC_STRING_CONFIGURABLE; ECMA_MAGIC_STRING_VALUE;
    ECMA_MAGIC_STRING_WRITABLE; ECMA_MAGIC_STRING_GET; ECMA_MAGIC_STRING_SET ].

(** The six [*_defined] flags of a descriptor. *)
Definition defined_flags (d : ecma_property_descriptor_t) : list bool :=
  [ is_enumerable_defined d; is_configurable_defined d; is_value_defined d;
    is_writable_defined d; is_get_defined d; is_set_defined d ].

(** The object at address 1 has the prototype at address 2, which owns the
    data property "y" and the accessor property "z" with the setter at
    address 3 (a function object). *)
Definition heap_with_prototype : ecma_heap :=
  mk_heap {[ 1%positive := general_object (Some 2%positive) true [];
             2%positive := general_object None true [1%positive; 2%positive];
             3%positive := ecma_object (header_object None true ECMA_OBJECT_TYPE_FUNCTION false) [] ]}
          {[ 1%positive :=
               ECMA_PROPERTY_NAMEDDATA "y" (ecma_value_string "inherited") true true true;
             2%positive :=
               ECMA_PROPERTY_NAMEDACCESSOR "z" None (Some 3%positive) true true ]}.

Section DefaultValueSpecification.
Context `{EcmaHost}.

(** ** [[DefaultValue]] as the specification words it

    The methods are tried in the order given by the hint; a method that is
    absent or not callable is skipped; the first call whose result is not an
    object is returned; a throw of [[Get]] or of the call is propagated; when
    no attempt yields a primitive, a TypeError is thrown. *)

Definition default_value_methods (hint : ecma_preferred_type_hint_t) : list string :=
  match hint with
  | ECMA_PREFERRED_TYPE_STRING => ["toString"; "valueOf"]
  | _ => ["valueOf"; "toString"]
  end.

Fixpoint default_value_try_methods (fuel : nat) (h : ecma_heap) (obj_p : ecma_object_ptr_t)
    (methods : list string) : result (ecma_completion_value_t * ecma_heap) :=
  match methods with
  | [] =>
      let '(exception_obj_p, h) := ecma_new_standard_error h ECMA_ERROR_TYPE in
      Ok (ecma_make_throw_obj_completion_value exception_obj_p, h)
  | method :: methods =>
      '(method_completion, h) ← ecma_op_general_object_get fuel h obj_p method;
      if negb (ecma_is_completion_value_normal method_completion) then
        Ok (method_completion, h)
      else if ecma_op_is_callable h (completion_value method_completion) then
        func_obj_p ← ecma_get_object_from_value (completion_value method_completion);
        '(call_completion, h) ← ecma_op_function_call h func_obj_p (ecma_value_object obj_p) [];
        if negb (ecma_is_completion_value_normal call_completion) then Ok (call_completion, h)
        else if negb (ecma_is_value_object (completion_value call_completion)) then
          Ok (call_completion, h)
        else default_value_try_methods fuel h obj_p methods
      else default_value_try_methods fuel h obj_p methods
  end.

(** The class tag of the object is 'Date'. *)
Definition class_is_date (h : ecma_heap) (obj_p : ecma_object_ptr_t) : result bool :=
  class_prop_p ← ecma_get_internal_property h obj_p ECMA_INTERNAL_PROPERTY_CLASS;
  obj_class ← internal_property_value h class_prop_p;
  Ok (match obj_class with
      | internal_magic_string ECMA_MAGIC_STRING_DATE_UL => true
      | _ => false
      end).

Definition default_value_specification (fuel : nat) (h : ecma_heap) (obj_p : ecma_object_ptr_t)
    (hint : ecma_preferred_type_hint_t) : result (ecma_completion_value_t * ecma_heap) :=
  _ ← assert_general_object h obj_p;
  hint ← match hint with
         | ECMA_PREFERRED_TYPE_NO =>
             is_date ← class_is_date h obj_p;
             Ok (if (is_date : bool) then ECMA_PREFERRED_TYPE_STRING
                 else ECMA_PREFERRED_TYPE_NUMBER)
         | _ => Ok hint
         end;
  default_value_try_methods fuel h obj_p (default_value_methods hint).

(** A call that completes normally yields a value, never the empty marker. *)
Definition call_results_not_empty : Prop :=
  ∀ h func_obj_p this_arg_value arguments_list c h',
    ecma_op_function_call h func_obj_p this_arg_value arguments_list = Ok (c, h') →
    ecma_is_completion_value_normal c = true →
    ecma_is_completion_value_empty c = false.

End DefaultValueSpecification.

(** The object at address 1 has the class tag 'Object' and owns the method
    "toString", the function object at address 3. *)
Definition heap_with_method : ecma_heap :=
  mk_heap {[ 1%positive := general_object None true [1%positive; 2%positive];
             3%positive := ecma_object (header_object None true ECMA_OBJECT_TYPE_FUNCTION false) [] ]}
          {[ 1%positive :=
               ECMA_PROPERTY_INTERNAL ECMA_INTERNAL_PROPERTY_CLASS
                 (internal_magic_string ECMA_MAGIC_STRING_OBJECT_UL);
             2%positive :=
               ECMA_PROPERTY_NAMEDDATA "toString" (ecma_value_object 3%positive)
                 true false true ]}.

Section InterpreterSpecification.
Context `{InterpreterHost}.

(** ** The relational opcodes as the specification words them

    The handler reads its two operands, calls the abstract relational
    comparison on them ([swap]: with the operands exchanged) with the given
    [left_first] flag, and stores in the destination: false when the result
    is undefined; otherwise the boolean result, negated when [negate]. *)

Definition relational_result (negate : bool) (compare_result : ecma_value_t)
    : ecma_simple_value_t :=
  if ecma_is_value_undefined compare_result then ECMA_SIMPLE_VALUE_FALSE
  else if Bool.eqb (ecma_is_value_true compare_result) negate then ECMA_SIMPLE_VALUE_FALSE
  else ECMA_SIMPLE_VALUE_TRUE.

Definition relational_opcode_contract
    (handler : idx_t → idx_t → idx_t → int_data_t → ecma_heap → opfunc_result)
    (swap left_first negate : bool) : Prop :=
  ∀ dst_var_idx left_var_idx right_var_idx int_data h left_value h1 right_value h2
    compare_result h3,
    get_variable_value h int_data left_var_idx false
    = Ok (ecma_make_normal_completion_value left_value, h1) →
    get_variable_value h1 int_data right_var_idx false
    = Ok (ecma_make_normal_completion_value right_value, h2) →
    ecma_op_abstract_relational_compare h2
      (if swap then right_value else left_value)
      (if swap then left_value else right_value) left_first
    = Ok (ecma_make_normal_completion_value compare_result, h3) →
    ecma_is_value_undefined compare_result || ecma_is_value_boolean compare_result = true →
    handler dst_var_idx left_var_idx right_var_idx int_data h
    = set_variable_value h3 int_data (pos int_data) dst_var_idx
        (ecma_value_simple (relational_result negate compare_result))
      ≫= (λ '(ret_value, int_data, h4), Ok (ret_value, pos_incr int_data, h4)).

(** The interpretation of the installed program, as [run_int] starts it,
    terminates with the completion [c]. *)
Definition interpretation_terminates_with (fuel : nat) (__program : list opcode_t)
    (c : ecma_completion_value_t) : Prop :=
  ∃ start_pos is_strict glob_obj_p lex_env_p h h',
    run_int_start __program = Ok (start_pos, is_strict, glob_obj_p, lex_env_p, h)
    ∧ run_int_from_pos fuel __program h start_pos (ecma_value_object glob_obj_p) lex_env_p
        is_strict false
      = Ok (c, h').

(** ** The completions of the opcode handlers as the specification words them

    A completion that an opcode handler returns is normal-empty or of one of
    the propagating kinds: throw, return, exit, meta. *)

Definition handler_completion (c : ecma_completion_value_t) : bool :=
  ecma_is_completion_value_empty c
  || ecma_is_completion_value_throw c
  || ecma_is_completion_value_return c
  || ecma_is_completion_value_exit c
  || ecma_is_completion_value_meta c.

(** Modelled from the spec: the body of [set_variable_value] is not part of
    the sources.  The write of a variable that is not a register is PutValue
    on an environment (SetMutableBinding, or [[Put]] on the binding object or
    on the global object), which completes with the empty completion or
    throws. *)
Definition set_variable_value_by_name_completes : Prop :=
  ∀ h int_data lit_oc var_idx v c h',
    set_variable_value_by_name h int_data lit_oc var_idx v = Ok (c, h') →
    ecma_is_completion_value_empty c || ecma_is_completion_value_throw c = true.

(** The handlers that are dispatched as [op_other] (their bodies are not
    embedded) return the completions that the specification allows. *)
Definition opfunc_other_completes : Prop :=
  ∀ op_idx arg1 arg2 arg3 int_data h c int_data' h',
    opfunc_other op_idx arg1 arg2 arg3 int_data h = Ok (c, int_data', h') →
    handler_completion c = true.

End InterpreterSpecification.

(** ** A concrete interpreter host

    Literal identifiers are the operands themselves and every literal is the
    string "x"; a variable that is not a register reads as undefined and is
    written without effect; the relational comparison compares numbers (the
    result is undefined when an operand is NaN or not a number); opcode 0 of
    the remaining opcodes throws undefined. *)

Definition example_relational_compare (h : ecma_heap) (x y : ecma_value_t) (left_first : bool)
    : result (ecma_completion_value_t * ecma_heap) :=
  match x, y with
  | ecma_value_number nx, ecma_value_number ny =>
      if PrimFloat.is_nan nx || PrimFloat.is_nan ny then
        Ok (ecma_make_simple_completion_value ECMA_SIMPLE_VALUE_UNDEFINED, h)
      else Ok (ecma_make_normal_completion_value (ecma_value_of_bool (PrimFloat.ltb nx ny)), h)
  | _, _ => Ok (ecma_make_simple_completion_value ECMA_SIMPLE_VALUE_UNDEFINED, h)
  end.

Definition example_opfunc_other (op_idx : N) (arg1 arg2 arg3 : idx_t) (int_data : int_data_t)
    (h : ecma_heap) : opfunc_result :=
  match op_idx with
  | 0%N => Ok (ecma_make_throw_completion_value (ecma_value_simple ECMA_SIMPLE_VALUE_UNDEFINED),
               int_data, h)
  | _ => Fatal unreachable
  end.

(** The heap after the initialisation of the engine: the global object at
    address 1 and the Object prototype at address 2. *)
Definition example_initial_heap : ecma_heap :=
  mk_heap {[ 1%positive := general_object (Some 2%positive) true [];
             2%positive := general_object None true [] ]} ∅.

Definition example_interpreter_host : @InterpreterHost example_host :=
  {| deserialize_lit_id_by_uid := λ uid oc, Some uid;
     ecma_new_ecma_string_from_lit_index := λ lit_id, "x";
     get_variable_value_by_name := λ h int_data var_idx check,
       Ok (ecma_make_simple_completion_value ECMA_SIMPLE_VALUE_UNDEFINED, h);
     set_variable_value_by_name := λ h int_data lit_oc var_idx v,
       Ok (ecma_make_empty_completion_value, h);
     ecma_op_abstract_relational_compare := example_relational_compare;
     ecma_op_get_value_lex_env_base := λ h lex_env_p name_p is_strict,
       Ok (ecma_make_simple_completion_value ECMA_SIMPLE_VALUE_UNDEFINED, h);
     opfunc_other := example_opfunc_other;
     ecma_init := example_initial_heap |}.

(** A frame with the registers 128, 129 and 130 in the global environment
    (address 3) of the heap [example_frame_heap]. *)
Definition example_frame_heap : ecma_heap :=
  mk_heap {[ 1%positive := general_object (Some 2%positive) true [];
             2%positive := general_object None true [];
             3%positive := ecma_object (header_object_lex_env None 1%positive false) [] ]} ∅.

Definition example_frame : int_data_t :=
  {| pos := 1%Z;
     this_binding_p := ecma_value_object 1%positive;
     lex_env_p := 3%positive;
     is_strict := false;
     is_eval_code := false;
     min_reg_num := 128%Z;
     max_reg_num := 130%Z;
     regs := [ecma_value_number 1%float; ecma_value_number 2%float;
              ecma_value_simple ECMA_SIMPLE_VALUE_UNDEFINED] |}.

(** Programs for the concrete interpreter host. *)
Definition program_nop_meta : list opcode_t :=
  [op_reg_var_decl 128 130; op_nop; op_meta OPCODE_META_TYPE_VARG 0 0].
Definition program_exit_success : list opcode_t :=
  [op_reg_var_decl 128 130; op_less_than 130 128 129; op_exitval 0].
Definition program_exit_failure : list opcode_t :=
  [op_meta OPCODE_META_TYPE_STRICT_CODE 0 0; op_reg_var_decl 128 130; op_nop; op_exitval 1].
Definition program_throw : list opcode_t :=
  [op_reg_var_decl 128 130; op_other 0 0 0 0; op_exitval 0].

(** ** Predicates on environments, used to state the properties *)

(** The declarative environment [lex_env_p] holds the binding [name_p] as a
    named data property with value [v], writable flag [w] and configurable
    flag [c]. *)
Definition declarative_binding (h : ecma_heap) (lex_env_p : ecma_object_ptr_t) (name_p : string)
    (v : ecma_value_t) (w c : bool) : Prop :=
  ∃ outer l p e,
    heap_objects h !! lex_env_p = Some (ecma_object (header_decl_lex_env outer) l)
    ∧ find_named_property_in h l name_p = Ok (Some p)
    ∧ heap_properties h !! p = Some (ECMA_PROPERTY_NAMEDDATA name_p v w e c).

(** The object is a declarative lexical environment. *)
Definition is_declarative_environment (h : ecma_heap) (lex_env_p : ecma_object_ptr_t) : Prop :=
  ∃ outer l, heap_objects h !! lex_env_p = Some (ecma_object (header_decl_lex_env outer) l).

(** The name under which a node is found by [ecma_find_named_property]. *)
Definition property_name (node : ecma_property_t) : option string :=
  match node with
  | ECMA_PROPERTY_NAMEDDATA n _ _ _ _ => Some n
  | ECMA_PROPERTY_NAMEDACCESSOR n _ _ _ _ => Some n
  | ECMA_PROPERTY_INTERNAL _ _ => None
  end.

(** The declarative environment at address 1 holds the mutable binding "x"
    (node 1, value 1, not deletable) and the immutable binding "f" that is
    not initialised yet (node 2); the object-bound environment at address 3 is
    bound to the extensible object at address 4, which has no property; the
    declarative environment at address 5 has no binding. *)
Definition heap_with_environments : ecma_heap :=
  mk_heap {[ 1%positive := ecma_object (header_decl_lex_env None) [1%positive; 2%positive];
             3%positive := ecma_object (header_object_lex_env None 4%positive true) [];
             4%positive := general_object None true [];
             5%positive := ecma_object (header_decl_lex_env (Some 1%positive)) [] ]}
          {[ 1%positive :=
               ECMA_PROPERTY_NAMEDDATA "x" (ecma_value_number 1%float) true false false;
             2%positive :=
               ECMA_PROPERTY_NAMEDDATA "f" (ecma_value_simple ECMA_SIMPLE_VALUE_EMPTY)
                 false false false ]}.

(** A frame of eval code in the declarative environment at address 5 of
    [heap_with_environments]. *)
Definition example_declarative_frame : int_data_t :=
  {| pos := 1%Z;
     this_binding_p := ecma_value_simple ECMA_SIMPLE_VALUE_UNDEFINED;
     lex_env_p := 5%positive;
     is_strict := false;
     is_eval_code := true;
     min_reg_num := 128%Z;
     max_reg_num := 130%Z;
     regs := [ecma_value_number 1%float; ecma_value_number 2%float;
              ecma_value_simple ECMA_SIMPLE_VALUE_UNDEFINED] |}.

(** Calculate opcode counter from 'meta' opcode's data arguments.  The
    operands are 8-bit and the counter is 16-bit: the shift and the
    bitwise-or are done on the promoted integers and truncated to 16 bits by
    the casts to [opcode_counter_t]. *)
Definition calc_opcode_counter_from_idx_idx (oc_idx_1 oc_idx_2 : idx_t) : opcode_counter_t :=
  let counter := oc_idx_1 in
  let counter := (Z.shiftl counter 8 mod 65536)%Z in
  let counter := (Z.lor counter oc_idx_2 mod 65536)%Z in
  counter.

(** The object at address 1 is not extensible and owns the data property "k"
    that is neither writable nor configurable. *)
Definition heap_with_frozen_property : ecma_heap :=
  mk_heap {[ 1%positive := general_object None false [1%positive] ]}
          {[ 1%positive :=
               ECMA_PROPERTY_NAMEDDATA "k" (ecma_value_simple ECMA_SIMPLE_VALUE_TRUE)
                 false true false ]}.

(** The data descriptor [{ value: true, writable: true, enumerable: true,
    configurable: true }]. *)
Definition data_descriptor_all_true : ecma_property_descriptor_t :=
  set_configurable
    (set_enumerable
       (set_writable
          (with_value (with_is_value_defined ecma_make_empty_property_descriptor true)
             (ecma_value_simple ECMA_SIMPLE_VALUE_TRUE))
          true)
       true)
    true.

(** ** More conversion routines (ecma-conversion) and Array.isArray *)

Section ConversionMore.
Context `{EcmaHost}.

(** ToPrimitive operation, ECMA-262 v5, 9.1 *)
Definition ecma_op_to_primitive (fuel : nat) (h : ecma_heap) (v : ecma_value_t)
    (preferred_type : ecma_preferred_type_hint_t)
    : result (ecma_completion_value_t * ecma_heap) :=
  _ ← ecma_check_value_type_is_spec_defined v;
  if ecma_is_value_object v then
    obj_p ← ecma_get_object_from_value v;
    ecma_op_object_default_value fuel h obj_p preferred_type
  else Ok (ecma_make_normal_completion_value v, h).

(** The Array object's 'isArray' routine, ECMA-262 v5, 15.4.3.2 *)
Definition ecma_builtin_array_object_is_array (h : ecma_heap) (this_arg arg : ecma_value_t)
    : result ecma_completion_value_t :=
  let is_array := ECMA_SIMPLE_VALUE_FALSE in
  is_array ← (if ecma_is_value_object arg then
                obj_p ← ecma_get_object_from_value arg;
                class_prop_p ← ecma_get_internal_property h obj_p ECMA_INTERNAL_PROPERTY_CLASS;
                class ← internal_property_value h class_prop_p;
                match class with
                | internal_magic_string ECMA_MAGIC_STRING_ARRAY_UL => Ok ECMA_SIMPLE_VALUE_TRUE
                | _ => Ok is_array
                end
              else Ok is_array);
  Ok (ecma_make_simple_completion_value is_array).

End ConversionMore.

(** The object at address 1 is an array object: its class is "Array". *)
Definition heap_with_array : ecma_heap :=
  mk_heap {[ 1%positive :=
               ecma_object (header_object None true ECMA_OBJECT_TYPE_ARRAY false) [1%positive] ]}
          {[ 1%positive :=
               ECMA_PROPERTY_INTERNAL ECMA_INTERNAL_PROPERTY_CLASS
                 (internal_magic_string ECMA_MAGIC_STRING_ARRAY_UL) ]}.

(** The data descriptor with the value and the three attributes of [d], all
    four of them defined, and neither getter nor setter. *)
Definition data_descriptor_of (d : ecma_property_descriptor_t) : ecma_property_descriptor_t :=
  {| is_value_defined := true; is_get_defined := false; is_set_defined := false;
     is_writable_defined := true; is_writable := is_writable d;
     is_enumerable_defined := true; is_enumerable := is_enumerable d;
     is_configurable_defined := true; is_configurable := is_configurable d;
     value := value d;
     get_p := None; set_p := None |}.

(** The object at address 1 owns the accessor property "g" with the getter at
    address 3 (a function object) and without a setter. *)
Definition heap_with_getter : ecma_heap :=
  mk_heap {[ 1%positive := general_object None true [1%positive];
             3%positive := ecma_object (header_object None true ECMA_OBJECT_TYPE_FUNCTION false) [] ]}
          {[ 1%positive := ECMA_PROPERTY_NAMEDACCESSOR "g" (Some 3%positive) None true true ]}.

(** The accessor descriptor [{ get: f, set: f }] for the function object [f]
    at address 3. *)
Definition accessor_descriptor_with_functions : ecma_property_descriptor_t :=
  set_set (set_get ecma_make_empty_property_descriptor (Some 3%positive)) (Some 3%positive).

(** A frame of global code in the object-bound environment at address 3 of
    [heap_with_environments] and of [heap_with_not_extensible_global]. *)
Definition example_object_bound_frame : int_data_t :=
  {| pos := 1%Z;
     this_binding_p := ecma_value_simple ECMA_SIMPLE_VALUE_UNDEFINED;
     lex_env_p := 3%positive;
     is_strict := false;
     is_eval_code := false;
     min_reg_num := 128%Z;
     max_reg_num := 130%Z;
     regs := [ecma_value_number 1%float; ecma_value_number 2%float;
              ecma_value_simple ECMA_SIMPLE_VALUE_UNDEFINED] |}.

(** The object-bound environment at address 3 is bound to the object at
    address 4, which has no property and is not extensible. *)
Definition heap_with_not_extensible_global : ecma_heap :=
  mk_heap {[ 3%positive := ecma_object (header_object_lex_env None 4%positive true) [];
             4%positive := general_object None false [] ]}
          ∅.

(** Three 'nop' opcodes at the positions 1, 2 and 3 and an 'exitval' with the
    status code 0 at the position 4. *)
Definition example_nop_program : list opcode_t :=
  [op_reg_var_decl 128%Z 130%Z; op_nop; op_nop; op_nop; op_exitval 0%Z].

(** * Properties *)

(** ** The heap helpers *)

Lemma fresh_property_unused (h : ecma_heap) :
  heap_properties h !! fresh (dom (heap_properties h)) = None.
Proof. apply not_elem_of_dom, is_fresh. Qed.

Lemma fresh_object_unused (h : ecma_heap) :
  heap_objects h !! fresh (dom (heap_objects h)) = None.
Proof. apply not_elem_of_dom, is_fresh. Qed.

Lemma find_named_property_in_frame (h h' : ecma_heap) l name :
  live h l →
  (∀ q n, heap_properties h !! q = Some n → heap_properties h' !! q = Some n) →
  find_named_property_in h' l name = find_named_property_in h l name.
Proof.
  intros Hl Hsub. induction Hl as [|p l [n Hn] _ IH]; [reflexivity|].
  cbn. unfold heap_get_property. rewrite Hn, (Hsub _ _ Hn). cbn.
  destruct n; rewrite ?IH; reflexivity.
Qed.

Lemma find_internal_property_in_frame (h h' : ecma_heap) l id :
  live h l →
  (∀ q n, heap_properties h !! q = Some n → heap_properties h' !! q = Some n) →
  find_internal_property_in h' l id = find_internal_property_in h l id.
Proof.
  intros Hl Hsub. induction Hl as [|p l [n Hn] _ IH]; [reflexivity|].
  cbn. unfold heap_get_property. rewrite Hn, (Hsub _ _ Hn). cbn.
  destruct n; rewrite ?IH; reflexivity.
Qed.

Lemma live_frame (h h' : ecma_heap) l :
  live h l →
  (∀ q n, heap_properties h !! q = Some n → heap_properties h' !! q = Some n) →
  live h' l.
Proof.
  intros Hl Hsub. eapply Forall_impl; [exact Hl|].
  intros p [n Hn]. exists n. auto.
Qed.

(** A search that returns visits live nodes only, up to the node it returns. *)
Lemma find_named_property_in_none_live (h : ecma_heap) l name :
  find_named_property_in h l name = Ok None → live h l.
Proof.
  induction l as [|p l IH]; intros Hf; [constructor|].
  cbn in Hf. unfold heap_get_property in Hf.
  destruct (heap_properties h !! p) as [n|] eqn:Hp; [|discriminate].
  cbn in Hf. constructor; [eauto|].
  apply IH. destruct n; try destruct (String.eqb _ _); congruence.
Qed.

Section GeneralObjectFacts.
Context `{EcmaHost}.

(** [[DefineOwnProperty]] on a name that the object does not own, with a data
    (or generic) descriptor: a named data property with the attributes of the
    descriptor is linked at the head of the property list. *)
Lemma define_own_property_creates_data (h : ecma_heap) obj_p pr ty b l name d is_throw :
  heap_objects h !! obj_p = Some (ecma_object (header_object pr true ty b) l) →
  find_named_property_in h l name = Ok None →
  (negb (is_value_defined d) && negb (is_writable_defined d)
   && negb (is_get_defined d) && negb (is_set_defined d))
  || (is_value_defined d || is_writable_defined d) = true →
  let p := fresh (dom (heap_properties h)) in
  ecma_op_general_object_define_own_property h obj_p name d is_throw
  = Ok (ecma_make_simple_completion_value ECMA_SIMPLE_VALUE_TRUE,
        mk_heap (<[obj_p := ecma_object (header_object pr true ty b) (p :: l)]> (heap_objects h))
                (<[p := ECMA_PROPERTY_NAMEDDATA name (value d) (is_writable d)
                          (is_enumerable d) (is_configurable d)]> (heap_properties h))).
Proof.
  intros Ho Hf Hd p.
  unfold ecma_op_general_object_define_own_property, assert_general_object,
    ecma_is_lexical_environment, ecma_op_object_get_own_property,
    ecma_op_general_object_get_own_property, assert_general_object,
    ecma_is_lexical_environment, ecma_find_named_property, ecma_get_property_list,
    ecma_get_object_extensible, heap_get_object.
  rewrite Ho. cbn. rewrite Hf. cbn. rewrite Hd.
  unfold ecma_create_named_data_property, ecma_find_named_property, ecma_get_property_list,
    link_new_property, heap_get_object.
  rewrite Ho. cbn. rewrite Hf. cbn.
  unfold ecma_named_data_property_assign_value, heap_get_property, heap_set_object,
    heap_set_property. cbn.
  rewrite lookup_insert_eq. cbn.
  unfold heap_set_property. cbn. rewrite insert_insert_eq. reflexivity.
Qed.

Lemma owns_find (h : ecma_heap) obj_p hdr l name :
  owns h obj_p hdr l →
  ecma_find_named_property h obj_p name = find_named_property_in h l name.
Proof.
  intros [Ho _]. unfold ecma_find_named_property, ecma_get_property_list, heap_get_object.
  rewrite Ho. reflexivity.
Qed.

Lemma define_own_property_data_step (h : ecma_heap) obj_p pr ty b l name d is_throw :
  owns h obj_p (header_object pr true ty b) l →
  find_named_property_in h l name = Ok None →
  is_value_defined d || is_writable_defined d = true →
  ∃ p h',
    ecma_op_general_object_define_own_property h obj_p name d is_throw
    = Ok (ecma_make_simple_completion_value ECMA_SIMPLE_VALUE_TRUE, h')
    ∧ owns h' obj_p (header_object pr true ty b) (p :: l)
    ∧ heap_properties h' !! p
      = Some (ECMA_PROPERTY_NAMEDDATA name (value d) (is_writable d)
                (is_enumerable d) (is_configurable d))
    ∧ (∀ q n, heap_properties h !! q = Some n → heap_properties h' !! q = Some n)
    ∧ (∀ name', find_named_property_in h' (p :: l) name'
                = if String.eqb name name' then Ok (Some p)
                  else find_named_property_in h l name').
Proof.
  intros [Ho Hl] Hf Hd.
  pose proof (fresh_property_unused h) as Hfresh.
  pose proof (define_own_property_creates_data h obj_p pr ty b l name d is_throw Ho Hf) as Hdef.
  cbn zeta in Hdef. rewrite Hd, orb_true_r in Hdef. specialize (Hdef eq_refl).
  set (p := fresh (dom (heap_properties h))) in *.
  eexists p, _. split; [exact Hdef|]. clear Hdef.
  assert (Hsub : ∀ q n, heap_properties h !! q = Some n →
            <[p := ECMA_PROPERTY_NAMEDDATA name (value d) (is_writable d)
                     (is_enumerable d) (is_configurable d)]> (heap_properties h) !! q = Some n).
  { intros q n Hq. rewrite lookup_insert_ne; [done|]. intros ->. congruence. }
  cbn. repeat split.
  - apply lookup_insert_eq.
  - constructor; [cbn; rewrite lookup_insert_eq; eauto|].
    eapply live_frame; [exact Hl|exact Hsub].
  - apply lookup_insert_eq.
  - exact Hsub.
  - intros name'. cbn. unfold heap_get_property. cbn. rewrite lookup_insert_eq. cbn.
    destruct (String.eqb name name'); [reflexivity|].
    apply find_named_property_in_frame; [exact Hl|exact Hsub].
Qed.

Lemma create_object_object_noarg_owns (h : ecma_heap) :
  ∃ obj_p h' pr class_prop_p,
    ecma_op_create_object_object_noarg h = Ok (obj_p, h')
    ∧ owns h' obj_p (header_object (Some pr) true ECMA_OBJECT_TYPE_GENERAL false) [class_prop_p]
    ∧ heap_properties h' !! class_prop_p
      = Some (ECMA_PROPERTY_INTERNAL ECMA_INTERNAL_PROPERTY_CLASS
                (internal_magic_string ECMA_MAGIC_STRING_OBJECT_UL)).
Proof.
  unfold ecma_op_create_object_object_noarg.
  destruct (ecma_builtin_get h ECMA_BUILTIN_ID_OBJECT_PROTOTYPE) as [pr h0].
  unfold ecma_create_object, ecma_create_internal_property, ecma_find_internal_property,
    ecma_get_property_list, link_new_property, heap_get_object, heap_set_object. cbn.
  rewrite lookup_insert_eq. cbn.
  unfold ecma_set_internal_property_value, heap_get_property, heap_set_property. cbn.
  rewrite lookup_insert_eq. cbn.
  eexists _, _, pr, (fresh (dom (heap_properties h0))). split; [reflexivity|].
  repeat split; cbn.
  - apply lookup_insert_eq.
  - constructor; [|constructor]. cbn. rewrite lookup_insert_eq. eauto.
  - apply lookup_insert_eq.
Qed.

End GeneralObjectFacts.

(** ** FromPropertyDescriptor *)

Section FromPropertyDescriptor.
Context `{EcmaHost}.

Lemma define_own_property_normal_true_step (h : ecma_heap) obj_p pr ty b l id d :
  owns h obj_p (header_object pr true ty b) l →
  find_named_property_in h l (ecma_get_magic_string id) = Ok None →
  is_value_defined d || is_writable_defined d = true →
  ∃ p h',
    define_own_property_normal_true h obj_p id d = Ok h'
    ∧ owns h' obj_p (header_object pr true ty b) (p :: l)
    ∧ heap_properties h' !! p
      = Some (ECMA_PROPERTY_NAMEDDATA (ecma_get_magic_string id) (value d) (is_writable d)
                (is_enumerable d) (is_configurable d))
    ∧ (∀ q n, heap_properties h !! q = Some n → heap_properties h' !! q = Some n)
    ∧ (∀ name', find_named_property_in h' (p :: l) name'
                = if String.eqb (ecma_get_magic_string id) name' then Ok (Some p)
                  else find_named_property_in h l name').
Proof.
  intros Ho Hf Hd.
  destruct (define_own_property_data_step h obj_p pr ty b l _ d false Ho Hf Hd)
    as (p & h' & Hdef & Hrest).
  exists p, h'. split; [|exact Hrest].
  unfold define_own_property_normal_true, ecma_op_object_define_own_property.
  rewrite Hdef. reflexivity.
Qed.

(** C1: FromPropertyDescriptor chooses between its data branch and its
    accessor branch by the flags of the descriptor it has initialised itself,
    whose value and writable flags are true; so for every source descriptor,
    accessor descriptors included, the routine returns an object that owns the
    data properties "value" and "writable" (and "enumerable", "configurable")
    and owns neither "get" nor "set": the accessor branch is never run. *)
Theorem from_property_descriptor_takes_data_branch
    (h : ecma_heap) (src_prop_desc_p : ecma_property_descriptor_t) :
  is_value_defined from_property_descriptor_prop_desc
  || is_writable_defined from_property_descriptor_prop_desc = true
  ∧ ∃ obj_p h',
      ecma_op_from_property_descriptor h src_prop_desc_p = Ok (obj_p, h')
      ∧ own_data_property h' obj_p "value" (value src_prop_desc_p) true true true
      ∧ own_data_property h' obj_p "writable"
          (ecma_value_of_bool (is_writable src_prop_desc_p)) true true true
      ∧ own_data_property h' obj_p "enumerable"
          (ecma_value_of_bool (is_enumerable src_prop_desc_p)) true true true
      ∧ own_data_property h' obj_p "configurable"
          (ecma_value_of_bool (is_configurable src_prop_desc_p)) true true true
      ∧ ecma_find_named_property h' obj_p "get" = Ok None
      ∧ ecma_find_named_property h' obj_p "set" = Ok None.
Proof.
  split; [reflexivity|].
  destruct (create_object_object_noarg_owns h) as (obj_p & h0 & pr & pc & Hnew & Ho0 & Hpc).
  assert (Hf0 : ∀ name, find_named_property_in h0 [pc] name = Ok None).
  { intros name. cbn. unfold heap_get_property. rewrite Hpc. reflexivity. }
  set (d := from_property_descriptor_prop_desc).
  destruct (define_own_property_normal_true_step h0 obj_p _ _ _ _ ECMA_MAGIC_STRING_VALUE
              (with_value d (value src_prop_desc_p)) Ho0 (Hf0 _) eq_refl)
    as (p1 & h1 & Hd1 & Ho1 & Hp1 & Hs1 & Hf1).
  destruct (define_own_property_normal_true_step h1 obj_p _ _ _ _ ECMA_MAGIC_STRING_WRITABLE
              (with_value (with_value d (value src_prop_desc_p))
                 (ecma_value_of_bool (is_writable src_prop_desc_p))) Ho1)
    as (p2 & h2 & Hd2 & Ho2 & Hp2 & Hs2 & Hf2);
    [rewrite Hf1; cbn; apply Hf0|reflexivity|].
  destruct (define_own_property_normal_true_step h2 obj_p _ _ _ _ ECMA_MAGIC_STRING_ENUMERABLE
              (with_value (with_value (with_value d (value src_prop_desc_p))
                 (ecma_value_of_bool (is_writable src_prop_desc_p)))
                 (ecma_value_of_bool (is_enumerable src_prop_desc_p))) Ho2)
    as (p3 & h3 & Hd3 & Ho3 & Hp3 & Hs3 & Hf3);
    [rewrite Hf2, Hf1; cbn; apply Hf0|reflexivity|].
  destruct (define_own_property_normal_true_step h3 obj_p _ _ _ _ ECMA_MAGIC_STRING_CONFIGURABLE
              (with_value (with_value (with_value (with_value d (value src_prop_desc_p))
                 (ecma_value_of_bool (is_writable src_prop_desc_p)))
                 (ecma_value_of_bool (is_enumerable src_prop_desc_p)))
                 (ecma_value_of_bool (is_configurable src_prop_desc_p))) Ho3)
    as (p4 & h4 & Hd4 & Ho4 & Hp4 & Hs4 & Hf4);
    [rewrite Hf3, Hf2, Hf1; cbn; apply Hf0|reflexivity|].
  exists obj_p, h4. split.
  { unfold ecma_op_from_property_descriptor. rewrite Hnew. cbn.
    fold d. rewrite Hd1. cbn. rewrite Hd2. cbn. rewrite Hd3. cbn. rewrite Hd4. reflexivity. }
  unfold own_data_property.
  rewrite !(owns_find _ _ _ _ _ Ho4), !Hf4, !Hf3, !Hf2, !Hf1, !Hf0. cbn.
  repeat split; eauto 10.
Qed.

End FromPropertyDescriptor.

(** ** [[DefineOwnProperty]]: switch of the kind of a property *)

Lemma find_named_property_in_unlink (h : ecma_heap) l name p :
  find_named_property_in h l name = Ok (Some p) → is_Some (unlink_property l p).
Proof.
  induction l as [|q l IH]; cbn; [discriminate|].
  unfold heap_get_property. destruct (heap_properties h !! q) as [n|]; [|discriminate]. cbn.
  intros Hf. destruct (Pos.eqb_spec q p) as [->|Hne]; [eauto|].
  assert (Hl : find_named_property_in h l name = Ok (Some p)).
  { destruct n; try destruct (String.eqb _ _); congruence. }
  destruct (IH Hl) as [r ->]. eauto.
Qed.

Section KindSwitch.
Context `{EcmaHost}.

(** An accessor descriptor applied to an own configurable data property:
    step 9 deletes the node and then reads its enumerable and configurable
    flags, that is, it reads a node that is no longer there. *)
Lemma define_own_property_data_to_accessor_reads_deleted_node
    (h : ecma_heap) obj_p pr ext ty b l name_p p v w e d is_throw :
  heap_objects h !! obj_p = Some (ecma_object (header_object pr ext ty b) l) →
  find_named_property_in h l name_p = Ok (Some p) →
  heap_properties h !! p = Some (ECMA_PROPERTY_NAMEDDATA name_p v w e true) →
  is_value_defined d = false →
  is_writable_defined d = false →
  is_get_defined d || is_set_defined d = true →
  ecma_op_general_object_define_own_property h obj_p name_p d is_throw = Fatal invalid_pointer.
Proof.
  intros Ho Hf Hp Hv Hw Hgs.
  destruct (find_named_property_in_unlink _ _ _ _ Hf) as [l' Hl'].
  unfold ecma_op_general_object_define_own_property, assert_general_object,
    ecma_is_lexical_environment, ecma_op_object_get_own_property,
    ecma_op_general_object_get_own_property, assert_general_object,
    ecma_is_lexical_environment, ecma_find_named_property, ecma_get_property_list,
    ecma_get_object_extensible, heap_get_object.
  rewrite Ho. cbn. rewrite Hf. cbn.
  unfold define_own_property_on_current.
  rewrite Hv, Hw. cbn.
  unfold property_type, ecma_is_property_enumerable, ecma_is_property_configurable,
    ecma_delete_property, heap_get_object, heap_get_property.
  rewrite ?Ho, ?Hp.
  destruct (is_get_defined d), (is_set_defined d), (is_enumerable_defined d),
    (is_configurable_defined d); try discriminate; cbn;
    repeat (destruct (Bool.eqb _ _); cbn);
    rewrite ?Hl'; cbn; rewrite ?lookup_delete_eq; reflexivity.
Qed.

(** Step 12 after a switch from data to accessor: the assertions of step 12
    test the kind that the property had before the switch (the constants of
    step 6), so the update of the getter or setter fails its assertion,
    whatever the heap and the new node are. *)
Lemma define_own_property_step_12_tests_old_kind
    (h : ecma_heap) obj_p d (current_p : ecma_property_ptr_t) :
  is_value_defined d = false →
  is_writable_defined d = false →
  is_get_defined d || is_set_defined d = true →
  define_own_property_step_12 h obj_p d true false current_p
  = Fatal (assertion_failed "is_current_accessor_descriptor").
Proof.
  intros Hv Hw Hgs. unfold define_own_property_step_12. rewrite Hv, Hw. cbn.
  destruct (is_get_defined d); [reflexivity|].
  destruct (is_set_defined d); [reflexivity|discriminate].
Qed.

End KindSwitch.

(** C2: at the object that owns the configurable data property "p", for the
    accessor descriptor [{ get: undefined }], [[DefineOwnProperty]] does not
    produce the accessor property with the attributes of the old property:
    it deletes the old node and then reads the attributes from it; and
    whatever step 9 leaves behind, step 12, entered with the kind constants
    of step 6 of the old data property, fails its own assertion. *)
Theorem define_own_property_kind_switch_uses_deleted_node :
  @ecma_op_general_object_define_own_property example_host
    heap_with_data_property 1%positive "p" accessor_descriptor false
  = Fatal invalid_pointer
  ∧ ∀ (h : ecma_heap) (current_p : ecma_property_ptr_t),
      define_own_property_step_12 h 1%positive accessor_descriptor
        true false current_p
      = Fatal (assertion_failed "is_current_accessor_descriptor").
Proof.
  split.
  - apply (@define_own_property_data_to_accessor_reads_deleted_node example_host
             heap_with_data_property 1%positive None true ECMA_OBJECT_TYPE_GENERAL false
             [1%positive] "p" 1%positive (ecma_value_simple ECMA_SIMPLE_VALUE_TRUE) true true);
      reflexivity.
  - intros h current_p.
    apply define_own_property_step_12_tests_old_kind; reflexivity.
Qed.

(** ** ToPropertyDescriptor *)

Section ToPropertyDescriptor.
Context `{EcmaHost}.

Lemma to_property_descriptor_boolean_absent fuel obj_p id set_attr prop_desc h :
  ecma_op_object_get_property fuel h obj_p (ecma_get_magic_string id) = Ok None →
  to_property_descriptor_boolean fuel obj_p id set_attr
    (ecma_make_empty_completion_value, prop_desc, h)
  = Ok (ecma_make_empty_completion_value, prop_desc, h).
Proof. intros Hg. unfold to_property_descriptor_boolean. cbn. rewrite Hg. reflexivity. Qed.

Lemma to_property_descriptor_accessor_absent fuel obj_p id set_attr prop_desc h :
  ecma_op_object_get_property fuel h obj_p (ecma_get_magic_string id) = Ok None →
  to_property_descriptor_accessor fuel obj_p id set_attr
    (ecma_make_empty_completion_value, prop_desc, h)
  = Ok (ecma_make_empty_completion_value, prop_desc, h).
Proof. intros Hg. unfold to_property_descriptor_accessor. cbn. rewrite Hg. reflexivity. Qed.

Lemma to_property_descriptor_value_absent fuel obj_p prop_desc h :
  ecma_op_object_get_property fuel h obj_p (ecma_get_magic_string ECMA_MAGIC_STRING_VALUE)
  = Ok None →
  to_property_descriptor_value fuel obj_p (ecma_make_empty_completion_value, prop_desc, h)
  = Ok (ecma_make_empty_completion_value, prop_desc, h).
Proof. intros Hg. unfold to_property_descriptor_value. cbn in *. rewrite Hg. reflexivity. Qed.

(** C3 (as amended): ToPropertyDescriptor starts from the empty descriptor,
    whose six [*_defined] flags are all false; for a source object on which
    none of "enumerable", "configurable", "value", "writable", "get", "set" is
    found, it completes normally and the descriptor it returns is the empty
    one: every [*_defined] flag is false. *)
Theorem to_property_descriptor_without_attributes
    (fuel : nat) (h : ecma_heap) (obj_p : ecma_object_ptr_t) :
  Forall (λ id, ecma_op_object_get_property fuel h obj_p (ecma_get_magic_string id) = Ok None)
    descriptor_attribute_names →
  defined_flags ecma_make_empty_property_descriptor = [false; false; false; false; false; false]
  ∧ ∃ d, ecma_op_to_property_descriptor fuel h (ecma_value_object obj_p)
         = Ok (ecma_make_empty_completion_value, Some d, h)
         ∧ defined_flags d = [false; false; false; false; false; false].
Proof.
  intros Hall. split; [reflexivity|].
  unfold descriptor_attribute_names in Hall.
  repeat match goal with Hf : Forall _ (_ :: _) |- _ => inversion_clear Hf end.
  exists ecma_make_empty_property_descriptor. split; [|reflexivity].
  unfold ecma_op_to_property_descriptor.
  rewrite to_property_descriptor_boolean_absent by assumption. cbn [mbind result_bind].
  rewrite to_property_descriptor_boolean_absent by assumption. cbn [mbind result_bind].
  rewrite to_property_descriptor_value_absent by assumption. cbn [mbind result_bind].
  rewrite to_property_descriptor_boolean_absent by assumption. cbn [mbind result_bind].
  rewrite to_property_descriptor_accessor_absent by assumption. cbn [mbind result_bind].
  rewrite to_property_descriptor_accessor_absent by assumption. cbn [mbind result_bind].
  reflexivity.
Qed.

End ToPropertyDescriptor.

Lemma to_property_descriptor_without_attributes_witness :
  Forall (λ id, ecma_op_object_get_property 1 heap_with_bare_object 1%positive
                  (ecma_get_magic_string id) = Ok None) descriptor_attribute_names
  ∧ ∃ d, @ecma_op_to_property_descriptor example_host 1 heap_with_bare_object
           (ecma_value_object 1%positive)
         = Ok (ecma_make_empty_completion_value, Some d, heap_with_bare_object)
         ∧ defined_flags d = [false; false; false; false; false; false].
Proof.
  assert (Hall : Forall (λ id, ecma_op_object_get_property 1
                           heap_with_bare_object 1%positive (ecma_get_magic_string id) = Ok None)
                   descriptor_attribute_names).
  { repeat constructor. }
  split; [exact Hall|].
  exact (proj2 (@to_property_descriptor_without_attributes example_host 1
                  heap_with_bare_object 1%positive Hall)).
Defined.

(** C3, the claim as stated fails: on the object without properties none of
    the six attributes is found, and the descriptor that ToPropertyDescriptor
    returns has no [*_defined] flag set to true. *)
Lemma to_property_descriptor_flags_not_all_true :
  Forall (λ id, ecma_op_object_get_property 1 heap_with_bare_object 1%positive
                  (ecma_get_magic_string id) = Ok None) descriptor_attribute_names
  ∧ ¬ (∃ d h', @ecma_op_to_property_descriptor example_host 1 heap_with_bare_object
                 (ecma_value_object 1%positive)
               = Ok (ecma_make_empty_completion_value, Some d, h')
               ∧ defined_flags d = [true; true; true; true; true; true]).
Proof.
  split; [repeat constructor|].
  intros (d & h' & Hrun & Hflags).
  vm_compute in Hrun. injection Hrun as <- _. discriminate Hflags.
Qed.

(** ** [[Put]], [[Delete]], [[Get]] *)

Lemma get_property_fuel_mono (fuel : nat) (h : ecma_heap) obj_p name r :
  ecma_op_general_object_get_property fuel h obj_p name = Ok r →
  ecma_op_general_object_get_property (S fuel) h obj_p name = Ok r.
Proof.
  revert obj_p. induction fuel as [|fuel IH]; intros obj_p; [discriminate|].
  intros Hg. cbn in Hg. cbn.
  destruct (assert_general_object h obj_p) as [[]|]; [|discriminate]. cbn in *.
  destruct (ecma_op_object_get_own_property h obj_p name) as [[q|]|]; cbn in *;
    [exact Hg| |discriminate].
  destruct (ecma_get_object_prototype h obj_p) as [[pr|]|]; cbn in *;
    [|exact Hg|discriminate].
  apply IH in Hg. exact Hg.
Qed.

Lemma heap_eq (h h' : ecma_heap) :
  heap_objects h = heap_objects h' → heap_properties h = heap_properties h' → h = h'.
Proof. destruct h, h'. cbn. intros -> ->. reflexivity. Qed.

Section PutDeleteGet.
Context `{EcmaHost}.

Lemma assert_general_object_ok (h : ecma_heap) obj_p pr ext ty b l :
  heap_objects h !! obj_p = Some (ecma_object (header_object pr ext ty b) l) →
  assert_general_object h obj_p = Ok ().
Proof.
  intros Ho. unfold assert_general_object, ecma_is_lexical_environment, heap_get_object.
  rewrite Ho. reflexivity.
Qed.

(** What [[GetProperty]] = nothing says about the object and its prototype. *)
Lemma get_property_none_inv (fuel : nat) (h : ecma_heap) obj_p pr ext ty b l n :
  heap_objects h !! obj_p = Some (ecma_object (header_object pr ext ty b) l) →
  ecma_op_general_object_get_property fuel h obj_p n = Ok None →
  find_named_property_in h l n = Ok None
  ∧ match pr with
    | Some proto_p => ecma_op_general_object_get_property fuel h proto_p n = Ok None
    | None => True
    end.
Proof.
  intros Ho Hg. destruct fuel as [|fuel]; [discriminate|].
  cbn in Hg. rewrite (assert_general_object_ok _ _ _ _ _ _ _ Ho) in Hg. cbn in Hg.
  unfold ecma_op_object_get_own_property, ecma_op_general_object_get_own_property in Hg.
  rewrite (assert_general_object_ok _ _ _ _ _ _ _ Ho) in Hg. cbn in Hg.
  unfold ecma_find_named_property, ecma_get_property_list, ecma_get_object_prototype,
    heap_get_object in Hg.
  rewrite Ho in Hg. cbn in Hg.
  destruct (find_named_property_in h l n) as [[q|]|]; [discriminate| |discriminate].
  split; [reflexivity|]. cbn in Hg.
  destruct pr as [proto_p|]; [|exact I].
  apply get_property_fuel_mono. exact Hg.
Qed.

Lemma can_put_without_property (fuel : nat) (h : ecma_heap) obj_p pr ext ty b l n :
  heap_objects h !! obj_p = Some (ecma_object (header_object pr ext ty b) l) →
  ecma_op_general_object_get_property fuel h obj_p n = Ok None →
  ecma_op_general_object_can_put fuel h obj_p n = Ok ext.
Proof.
  intros Ho Hg.
  destruct (get_property_none_inv _ _ _ _ _ _ _ _ _ Ho Hg) as [Hf Hproto].
  unfold ecma_op_general_object_can_put.
  rewrite (assert_general_object_ok _ _ _ _ _ _ _ Ho). cbn.
  unfold ecma_op_object_get_own_property, ecma_op_general_object_get_own_property.
  rewrite (assert_general_object_ok _ _ _ _ _ _ _ Ho). cbn.
  unfold ecma_find_named_property, ecma_get_property_list, ecma_get_object_prototype,
    ecma_get_object_extensible, heap_get_object.
  rewrite Ho. cbn. rewrite Hf. cbn.
  destruct pr as [proto_p|]; [|reflexivity].
  unfold ecma_op_object_get_property. rewrite Hproto. reflexivity.
Qed.

(** [[Delete]] of a configurable data property that is the head of the
    property list. *)
Lemma delete_head_property (h : ecma_heap) obj_p pr ext ty b l p n v w e is_throw :
  heap_objects h !! obj_p = Some (ecma_object (header_object pr ext ty b) (p :: l)) →
  heap_properties h !! p = Some (ECMA_PROPERTY_NAMEDDATA n v w e true) →
  ecma_op_general_object_delete h obj_p n is_throw
  = Ok (ecma_make_simple_completion_value ECMA_SIMPLE_VALUE_TRUE,
        mk_heap (<[obj_p := ecma_object (header_object pr ext ty b) l]> (heap_objects h))
                (delete p (heap_properties h))).
Proof.
  intros Ho Hp.
  unfold ecma_op_general_object_delete, ecma_op_object_get_own_property,
    ecma_op_general_object_get_own_property.
  rewrite (assert_general_object_ok _ _ _ _ _ _ _ Ho). cbn.
  unfold ecma_find_named_property, ecma_get_property_list, heap_get_object.
  rewrite Ho. cbn. unfold heap_get_property. rewrite Hp. cbn.
  rewrite String.eqb_refl. cbn.
  unfold ecma_is_property_configurable, heap_get_property. rewrite Hp. cbn.
  unfold ecma_delete_property, heap_get_object, heap_get_property. rewrite Ho. cbn.
  rewrite Pos.eqb_refl, Hp. reflexivity.
Qed.

(** C8: on an extensible object that has no own and no inherited property
    named [n], [[Put]] succeeds and creates the data property with value [v]
    and writable, enumerable and configurable all true; the following
    [[Delete]] returns true and removes the property (the heap is as before
    the [[Put]]); the following [[Get]] returns undefined. *)
Theorem put_delete_get_undefined
    (fuel : nat) (h : ecma_heap) (obj_p : ecma_object_ptr_t) pr ty b l
    (n : string) (v : ecma_value_t) (is_throw is_throw_delete : bool) :
  heap_objects h !! obj_p = Some (ecma_object (header_object pr true ty b) l) →
  ecma_op_general_object_get_property fuel h obj_p n = Ok None →
  ∃ h1 h2,
    ecma_op_general_object_put fuel h obj_p n v is_throw
    = Ok (ecma_make_simple_completion_value ECMA_SIMPLE_VALUE_TRUE, h1)
    ∧ own_data_property h1 obj_p n v true true true
    ∧ ecma_op_general_object_delete h1 obj_p n is_throw_delete
      = Ok (ecma_make_simple_completion_value ECMA_SIMPLE_VALUE_TRUE, h2)
    ∧ ecma_find_named_property h2 obj_p n = Ok None
    ∧ h2 = h
    ∧ ecma_op_general_object_get fuel h2 obj_p n
      = Ok (ecma_make_simple_completion_value ECMA_SIMPLE_VALUE_UNDEFINED, h2).
Proof.
  intros Ho Hg.
  pose proof (assert_general_object_ok _ _ _ _ _ _ _ Ho) as Hgen.
  destruct (get_property_none_inv _ _ _ _ _ _ _ _ _ Ho Hg) as [Hf _].
  set (p := fresh (dom (heap_properties h))).
  set (node := ECMA_PROPERTY_NAMEDDATA n v true true true).
  set (h1 := mk_heap (<[obj_p := ecma_object (header_object pr true ty b) (p :: l)]>
                        (heap_objects h))
                     (<[p := node]> (heap_properties h))).
  assert (Hput : ecma_op_general_object_put fuel h obj_p n v is_throw
                 = Ok (ecma_make_simple_completion_value ECMA_SIMPLE_VALUE_TRUE, h1)).
  { unfold ecma_op_general_object_put, ecma_op_object_can_put.
    rewrite Hgen, (can_put_without_property _ _ _ _ _ _ _ _ _ Ho Hg). cbn.
    unfold ecma_op_object_get_own_property, ecma_op_general_object_get_own_property.
    rewrite Hgen. cbn.
    unfold ecma_find_named_property, ecma_get_property_list, heap_get_object.
    rewrite Ho. cbn. rewrite Hf. cbn.
    unfold ecma_op_object_get_property. rewrite Hg. cbn.
    exact (define_own_property_creates_data h obj_p pr ty b l n
             (set_configurable
                (set_enumerable
                   (set_writable
                      (with_value (with_is_value_defined ecma_make_empty_property_descriptor true)
                         v) true) true) true)
             is_throw Ho Hf eq_refl). }
  assert (Hdel : ecma_op_general_object_delete h1 obj_p n is_throw_delete
                 = Ok (ecma_make_simple_completion_value ECMA_SIMPLE_VALUE_TRUE, h)).
  { rewrite (delete_head_property h1 obj_p pr true ty b l p n v true true is_throw_delete);
      [|apply lookup_insert_eq|apply lookup_insert_eq].
    do 2 f_equal. apply heap_eq; cbn.
    - rewrite insert_insert_eq. apply insert_id. exact Ho.
    - apply delete_insert_id, fresh_property_unused. }
  exists h1, h. repeat split.
  - exact Hput.
  - assert (Ho1 : heap_objects h1 !! obj_p
                  = Some (ecma_object (header_object pr true ty b) (p :: l)))
      by apply lookup_insert_eq.
    assert (Hp1 : heap_properties h1 !! p = Some node) by apply lookup_insert_eq.
    exists p. split; [|exact Hp1].
    unfold ecma_find_named_property, ecma_get_property_list, heap_get_object.
    rewrite Ho1. cbn. unfold heap_get_property. rewrite Hp1. cbn.
    rewrite String.eqb_refl. reflexivity.
  - exact Hdel.
  - unfold ecma_find_named_property, ecma_get_property_list, heap_get_object.
    rewrite Ho. exact Hf.
  - unfold ecma_op_general_object_get. rewrite Hgen. cbn.
    unfold ecma_op_object_get_property. rewrite Hg. reflexivity.
Qed.

(** C9: in [[Put]], once [[CanPut]] has returned true and the object has no
    own named data property for the name, a named accessor property found by
    [[GetProperty]] has a setter that is not NULL: the assertion on the setter
    holds and [[Put]] goes on to call the setter. *)
Theorem put_setter_is_not_null
    (fuel : nat) (h : ecma_heap) (obj_p : ecma_object_ptr_t) (n : string)
    (v : ecma_value_t) (is_throw : bool)
    (own_desc_p : option ecma_property_ptr_t) (desc_p : ecma_property_ptr_t) :
  ecma_op_general_object_can_put fuel h obj_p n = Ok true →
  ecma_op_general_object_get_own_property h obj_p n = Ok own_desc_p →
  match own_desc_p with
  | Some own_desc_p => ∃ type, property_type h own_desc_p = Ok type ∧ is_named_data type = false
  | None => True
  end →
  ecma_op_general_object_get_property fuel h obj_p n = Ok (Some desc_p) →
  property_type h desc_p = Ok ECMA_PROPERTY_TYPE_NAMEDACCESSOR →
  ∃ setter_p,
    named_accessor_property_set_p h desc_p = Ok (Some setter_p)
    ∧ ecma_op_general_object_put fuel h obj_p n v is_throw
      = ecma_op_function_call h setter_p (ecma_value_object obj_p) [v]
        ≫= (λ '(call_ret_completion, h'),
              Ok (ECMA_TRY_CATCH call_ret_completion
                    (λ _, ecma_make_simple_completion_value ECMA_SIMPLE_VALUE_TRUE)
                    (λ c, c), h')).
Proof.
  intros Hcan Hown Hnodata Hget Htype.
  assert (Hgen : assert_general_object h obj_p = Ok ()).
  { unfold ecma_op_general_object_can_put in Hcan.
    destruct (assert_general_object h obj_p) as [[]|]; [reflexivity|discriminate]. }
  assert (Hchain : match own_desc_p with
                   | Some own_p => desc_p = own_p
                   | None =>
                       ∃ proto_p, ecma_get_object_prototype h obj_p = Ok (Some proto_p)
                                  ∧ ecma_op_general_object_get_property fuel h proto_p n
                                    = Ok (Some desc_p)
                   end).
  { destruct fuel as [|fuel]; [discriminate|].
    pose proof Hget as Hget'. cbn in Hget'. unfold ecma_op_object_get_own_property in Hget'.
    rewrite Hgen, Hown in Hget'. cbn in Hget'.
    destruct own_desc_p as [own_p|]; [congruence|].
    destruct (ecma_get_object_prototype h obj_p) as [[proto_p|]|];
      cbn in Hget'; [|discriminate|discriminate].
    exists proto_p. split; [reflexivity|]. apply get_property_fuel_mono. exact Hget'. }
  assert (Hset : ∃ setter_p, named_accessor_property_set_p h desc_p = Ok (Some setter_p)).
  { pose proof Hcan as Hcan'.
    unfold ecma_op_general_object_can_put, ecma_op_object_get_own_property,
      ecma_op_object_get_property in Hcan'.
    rewrite Hgen, Hown in Hcan'. cbn in Hcan'.
    destruct own_desc_p as [own_p|].
    - subst own_p. rewrite Htype in Hcan'. cbn in Hcan'.
      destruct (named_accessor_property_set_p h desc_p) as [[setter_p|]|];
        [eauto|discriminate|discriminate].
    - destruct Hchain as (proto_p & Hproto & Hinh).
      rewrite Hproto in Hcan'. cbn in Hcan'. rewrite Hinh in Hcan'. cbn in Hcan'.
      rewrite Htype in Hcan'. cbn in Hcan'.
      destruct (named_accessor_property_set_p h desc_p) as [[setter_p|]|];
        [eauto|discriminate|discriminate]. }
  destruct Hset as [setter_p Hset]. exists setter_p. split; [exact Hset|].
  unfold ecma_op_general_object_put, ecma_op_object_can_put, ecma_op_object_get_own_property,
    ecma_op_object_get_property.
  rewrite Hgen, Hcan, Hown. cbn.
  assert (Hdata : match own_desc_p with
                  | Some own_desc_p0 =>
                      property_type h own_desc_p0 ≫= (λ type, Ok (is_named_data type))
                  | None => Ok false
                  end = Ok false).
  { destruct own_desc_p as [own_p|]; [|reflexivity].
    destruct Hnodata as (type & Ht & Hd). rewrite Ht. cbn. rewrite Hd. reflexivity. }
  rewrite Hdata. cbn. rewrite Hget. cbn. rewrite Htype. cbn. rewrite Hset. cbn.
  reflexivity.
Qed.

End PutDeleteGet.

Lemma put_delete_get_undefined_witness :
  ∃ h1 h2,
    @ecma_op_general_object_put example_host 2 heap_with_prototype 1%positive "x"
      (ecma_value_number 1%float) false
    = Ok (ecma_make_simple_completion_value ECMA_SIMPLE_VALUE_TRUE, h1)
    ∧ own_data_property h1 1%positive "x" (ecma_value_number 1%float) true true true
    ∧ @ecma_op_general_object_delete example_host h1 1%positive "x" false
      = Ok (ecma_make_simple_completion_value ECMA_SIMPLE_VALUE_TRUE, h2)
    ∧ ecma_find_named_property h2 1%positive "x" = Ok None
    ∧ h2 = heap_with_prototype
    ∧ @ecma_op_general_object_get example_host 2 h2 1%positive "x"
      = Ok (ecma_make_simple_completion_value ECMA_SIMPLE_VALUE_UNDEFINED, h2).
Proof.
  apply (@put_delete_get_undefined example_host 2 heap_with_prototype 1%positive
           (Some 2%positive) ECMA_OBJECT_TYPE_GENERAL false [] "x"
           (ecma_value_number 1%float) false false); reflexivity.
Defined.

Lemma put_setter_is_not_null_witness :
  ∃ setter_p,
    named_accessor_property_set_p heap_with_prototype 2%positive = Ok (Some setter_p)
    ∧ @ecma_op_general_object_put example_host 2 heap_with_prototype 1%positive "z"
        (ecma_value_number 1%float) false
      = @ecma_op_function_call example_host heap_with_prototype setter_p
          (ecma_value_object 1%positive) [ecma_value_number 1%float]
        ≫= (λ '(call_ret_completion, h'),
              Ok (ECMA_TRY_CATCH call_ret_completion
                    (λ _, ecma_make_simple_completion_value ECMA_SIMPLE_VALUE_TRUE)
                    (λ c, c), h')).
Proof.
  apply (@put_setter_is_not_null example_host 2 heap_with_prototype 1%positive "z"
           (ecma_value_number 1%float) false None 2%positive);
    [reflexivity|reflexivity|exact I|reflexivity|reflexivity].
Defined.

(** ** [[DefaultValue]] *)

Section DefaultValue.
Context `{EcmaHost}.

Lemma default_value_loop_tries_methods (fuel : nat) obj_p hint (count i : nat) (h : ecma_heap) :
  call_results_not_empty →
  default_value_loop fuel h obj_p hint i count
  = default_value_try_methods fuel h obj_p
      (map (λ j, ecma_get_magic_string (default_value_function_name j hint)) (seq i count)).
Proof.
  intros Hcall. revert i h. induction count as [|count IH]; intros i h; [reflexivity|].
  cbn [default_value_loop seq map default_value_try_methods].
  unfold default_value_iteration, ecma_op_object_get.
  destruct (ecma_op_general_object_get _ _ _ _) as [[c h1]|]; [|reflexivity]. cbn.
  destruct (ecma_is_completion_value_normal c); [|reflexivity]. cbn.
  destruct (ecma_op_is_callable h1 (completion_value c)); [|apply IH].
  destruct (ecma_get_object_from_value (completion_value c)) as [f|]; [|reflexivity]. cbn.
  destruct (ecma_op_function_call h1 f (ecma_value_object obj_p) []) as [[r h2]|] eqn:Hr;
    [|reflexivity]. cbn.
  destruct (ecma_is_completion_value_normal r) eqn:Hn; [|reflexivity]. cbn.
  rewrite (Hcall _ _ _ _ _ _ Hr Hn). cbn.
  destruct (ecma_is_value_object (completion_value r)); [apply IH|reflexivity].
Qed.

(** C5: [[DefaultValue]] of the code is [[DefaultValue]] as specified:
    'toString' then 'valueOf' for the hint string, 'valueOf' then 'toString'
    for the hint number, a method that is absent or not callable is skipped,
    the first call whose result is not an object is returned, a TypeError is
    thrown when neither attempt yields a primitive, and without a hint the
    hint is string exactly when the class tag is 'Date', else number. *)
Theorem default_value_meets_specification
    (fuel : nat) (h : ecma_heap) (obj_p : ecma_object_ptr_t)
    (hint : ecma_preferred_type_hint_t) :
  call_results_not_empty →
  ecma_op_general_object_default_value fuel h obj_p hint
  = default_value_specification fuel h obj_p hint.
Proof.
  intros Hcall.
  unfold ecma_op_general_object_default_value, default_value_specification.
  destruct (assert_general_object h obj_p) as [[]|]; [|reflexivity].
  cbn [mbind result_bind].
  destruct hint; cbn [mbind result_bind].
  - unfold class_is_date.
    destruct (ecma_get_internal_property _ _ _) as [cp|]; [|reflexivity].
    cbn [mbind result_bind].
    destruct (internal_property_value h cp) as [[id|wd]|]; [destruct id| |];
      cbn [magic_string_is_date mbind result_bind];
      try reflexivity;
      rewrite (default_value_loop_tries_methods _ _ _ 2 1 _ Hcall); reflexivity.
  - rewrite (default_value_loop_tries_methods _ _ _ 2 1 _ Hcall). reflexivity.
  - rewrite (default_value_loop_tries_methods _ _ _ 2 1 _ Hcall). reflexivity.
Qed.

End DefaultValue.

Lemma example_call_results_not_empty : @call_results_not_empty example_host.
Proof.
  intros h f this args c h' Hc _. cbn in Hc. unfold example_function_call in Hc.
  injection Hc as <- _. reflexivity.
Qed.

Lemma default_value_meets_specification_witness :
  @call_results_not_empty example_host
  ∧ @ecma_op_general_object_default_value example_host 1 heap_with_method 1%positive
      ECMA_PREFERRED_TYPE_STRING
    = @default_value_specification example_host 1 heap_with_method 1%positive
        ECMA_PREFERRED_TYPE_STRING.
Proof.
  split; [exact example_call_results_not_empty|].
  apply (@default_value_meets_specification example_host 1 heap_with_method 1%positive
           ECMA_PREFERRED_TYPE_STRING example_call_results_not_empty).
Defined.

(** On the object with the method "toString", the hint string gives the result
    of the call of "toString"; without a hint (class tag 'Object') the hint is
    number: "valueOf" is absent and skipped, "toString" is called. *)
Example default_value_runs :
  @ecma_op_general_object_default_value example_host 1 heap_with_method 1%positive
    ECMA_PREFERRED_TYPE_STRING
  = Ok (ecma_make_normal_completion_value (ecma_value_string "called"), heap_with_method)
  ∧ @ecma_op_general_object_default_value example_host 1 heap_with_method 1%positive
      ECMA_PREFERRED_TYPE_NO
    = Ok (ecma_make_normal_completion_value (ecma_value_string "called"), heap_with_method).
Proof. split; reflexivity. Qed.

(** ** The relational opcode handlers *)

Section Relational.
Context `{InterpreterHost}.

Ltac relational_handler :=
  intros dst l r int_data h lv h1 rv h2 c h3 Hl Hr Hc Hbool;
  cbv beta delta [opfunc_less_than opfunc_greater_than opfunc_less_or_equal_than
                  opfunc_greater_or_equal_than];
  rewrite Hl; cbn; rewrite Hr; cbn; cbn in Hc; rewrite Hc; cbn;
  destruct c as [[]| | |]; try discriminate Hbool; cbn;
  reflexivity.

(** C4: [opfunc_less_than] compares (left, right) with leftFirst = true and
    [opfunc_greater_than] compares (right, left) with leftFirst = false; both
    store false for an undefined result and the boolean result otherwise.
    [opfunc_less_or_equal_than] compares (right, left) with leftFirst = false
    and [opfunc_greater_or_equal_than] compares (left, right) with
    leftFirst = true; both store false for an undefined or true result and
    true for a false result. *)
Theorem relational_opcodes_compare_and_store :
  relational_opcode_contract opfunc_less_than false true false
  ∧ relational_opcode_contract opfunc_greater_than true false false
  ∧ relational_opcode_contract opfunc_less_or_equal_than true false true
  ∧ relational_opcode_contract opfunc_greater_or_equal_than false true true.
Proof.
  repeat split; relational_handler.
Qed.

End Relational.

Lemma relational_opcodes_compare_and_store_witness :
  @opfunc_less_than example_host example_interpreter_host 130 128 129
    example_frame example_frame_heap
  = @set_variable_value example_host example_interpreter_host example_frame_heap
      example_frame 1 130
      (ecma_value_simple (relational_result false (ecma_value_of_bool true)))
    ≫= (λ '(ret_value, int_data, h4), Ok (ret_value, pos_incr int_data, h4)).
Proof.
  apply (proj1 (@relational_opcodes_compare_and_store example_host example_interpreter_host)
           130%Z 128%Z 129%Z example_frame example_frame_heap
           (ecma_value_number 1%float) example_frame_heap
           (ecma_value_number 2%float) example_frame_heap
           (ecma_value_of_bool true) example_frame_heap);
    reflexivity.
Defined.

(** The four handlers on the registers 1 and 2: 1 < 2 is true, 1 > 2 is
    false, 1 <= 2 is true, 1 >= 2 is false. *)
Example relational_opcodes_run :
  let stored (r : opfunc_result) :=
    match r with
    | Ok (c, int_data, _) => Some (c, regs int_data !! 2%nat, pos int_data)
    | Fatal _ => None
    end in
  stored (@opfunc_less_than example_host example_interpreter_host 130 128 129
            example_frame example_frame_heap)
  = Some (ecma_make_empty_completion_value, Some (ecma_value_of_bool true), 2%Z)
  ∧ stored (@opfunc_greater_than example_host example_interpreter_host 130 128 129
              example_frame example_frame_heap)
    = Some (ecma_make_empty_completion_value, Some (ecma_value_of_bool false), 2%Z)
  ∧ stored (@opfunc_less_or_equal_than example_host example_interpreter_host 130 128 129
              example_frame example_frame_heap)
    = Some (ecma_make_empty_completion_value, Some (ecma_value_of_bool true), 2%Z)
  ∧ stored (@opfunc_greater_or_equal_than example_host example_interpreter_host 130 128 129
              example_frame example_frame_heap)
    = Some (ecma_make_empty_completion_value, Some (ecma_value_of_bool false), 2%Z).
Proof. repeat split. Qed.

(** ** The interpreter loop *)

Section InterpreterLoop.
Context `{InterpreterHost}.

Lemma run_int_loop_result (fuel : nat) (__program : list opcode_t) int_data h c int_data' h' :
  run_int_loop fuel __program int_data h = Ok (c, int_data', h') →
  ecma_is_completion_value_meta c = false
  ∧ (ecma_is_completion_value_normal c = true → ecma_is_completion_value_empty c = true).
Proof.
  revert int_data h. induction fuel as [|fuel IH]; intros int_data h; [discriminate|].
  cbn [run_int_loop].
  destruct (read_opcode __program (pos int_data)) as [curr|]; [|discriminate].
  cbn [mbind result_bind].
  destruct (__opfuncs (S fuel) curr int_data h) as [[[c1 id1] h1]|]; [|discriminate].
  cbn [mbind result_bind].
  destruct (ecma_is_completion_value_normal c1) eqn:Hn; cbn [negb orb].
  - destruct (ecma_is_completion_value_empty c1); cbn; [apply IH|discriminate].
  - cbn. destruct (ecma_is_completion_value_meta c1) eqn:Hm.
    + intros Hr. injection Hr as <- _ _. split; reflexivity.
    + intros Hr. injection Hr as <- _ _. split; [exact Hm|congruence].
Qed.

(** A sequence of two steps returns when both steps return. *)
Lemma bind_Ok {A B} (x : result A) (k : A → result B) (b : B) :
  x ≫= k = Ok b → ∃ a, x = Ok a ∧ k a = Ok b.
Proof. destruct x as [a|]; [|discriminate]. intros Hk. exists a. split; [reflexivity|exact Hk]. Qed.

(** A completion that is not normal is of a propagating kind. *)
Lemma handler_completion_propagated (c : ecma_completion_value_t) :
  ecma_is_completion_value_normal c = false → handler_completion c = true.
Proof. destruct c as [[] v]; cbn; intros Hn; try discriminate Hn; reflexivity. Qed.

Lemma handler_completion_normal (c : ecma_completion_value_t) :
  handler_completion c = true →
  ecma_is_completion_value_normal c = true → ecma_is_completion_value_empty c = true.
Proof.
  unfold handler_completion, ecma_is_completion_value_empty,
    ecma_is_completion_value_normal_simple_value.
  destruct c as [[] v]; cbn; intros Hc Hn; try discriminate Hn.
  rewrite !orb_false_r in Hc. exact Hc.
Qed.

Lemma handler_completion_empty_or_throw (c : ecma_completion_value_t) :
  ecma_is_completion_value_empty c || ecma_is_completion_value_throw c = true →
  handler_completion c = true.
Proof. unfold handler_completion. intros ->. reflexivity. Qed.

(** What a guarded block returns: the completion of the block or the
    completion that was propagated. *)
Lemma try_catch_completion (c0 : ecma_completion_value_t)
    (block : ecma_value_t → opfunc_result) int_data h c int_data' h' :
  ECMA_TRY_CATCH c0 block (λ c, Ok (c, int_data, h)) = Ok (c, int_data', h') →
  (∀ v, block v = Ok (c, int_data', h') → handler_completion c = true) →
  handler_completion c = true.
Proof.
  unfold ECMA_TRY_CATCH. destruct (ecma_is_completion_value_normal c0) eqn:Hn.
  - intros Hb Hblock. exact (Hblock _ Hb).
  - intros Hr _. injection Hr as <- _ _. exact (handler_completion_propagated _ Hn).
Qed.

Section HandlerCompletions.
Hypothesis set_completes : set_variable_value_by_name_completes.

(** The write of a variable completes with the empty completion or throws. *)
Lemma set_variable_value_completion h int_data lit_oc var_idx v c int_data' h' :
  set_variable_value h int_data lit_oc var_idx v = Ok (c, int_data', h') →
  handler_completion c = true.
Proof.
  unfold set_variable_value. destruct (is_reg_variable int_data var_idx).
  - destruct (decide _); [|discriminate]. intros Hr. injection Hr as <- _ _. reflexivity.
  - destruct (set_variable_value_by_name h int_data lit_oc var_idx v) as [[c1 h1]|] eqn:Hset;
      [|discriminate].
    cbn. intros Hr. injection Hr as <- _ _.
    exact (handler_completion_empty_or_throw _ (set_completes _ _ _ _ _ _ _ Hset)).
Qed.

(** The four relational handlers: the operands and the comparison are guarded,
    the handler ends with the write of the destination. *)
Ltac relational_completion :=
  let Hop := fresh "Hop" in
  intros Hop;
  apply bind_Ok in Hop as ([c1 h1] & _ & Hop); cbv beta iota in Hop;
  apply bind_Ok in Hop as ([[c2 id2] h2] & E2 & Hop); cbv beta iota in Hop;
  injection Hop as <- _ _;
  apply (try_catch_completion _ _ _ _ _ _ _ E2); intros lv Hb;
  apply bind_Ok in Hb as ([c3 h3] & _ & Hb); cbv beta iota in Hb;
  apply (try_catch_completion _ _ _ _ _ _ _ Hb); intros rv Hb2;
  apply bind_Ok in Hb2 as ([c4 h4] & _ & Hb2); cbv beta iota in Hb2;
  apply (try_catch_completion _ _ _ _ _ _ _ Hb2); intros cv Hb3;
  apply bind_Ok in Hb3 as (res & _ & Hb3);
  exact (set_variable_value_completion _ _ _ _ _ _ _ _ Hb3).

(** Every handler of the dispatch table returns a completion that is
    normal-empty or of a propagating kind; the premise on the handlers that
    are not embedded is used for them only. *)
Lemma opfuncs_completion (fuel : nat) (curr : opcode_t) int_data h c int_data' h' :
  (∀ op_idx arg1 arg2 arg3, curr = op_other op_idx arg1 arg2 arg3 → opfunc_other_completes) →
  __opfuncs fuel curr int_data h = Ok (c, int_data', h') → handler_completion c = true.
Proof.
  intros other_completes. destruct curr; cbn [__opfuncs].
  - (* nop *)
    unfold opfunc_nop. intros Hop. injection Hop as <- _ _. reflexivity.
  - (* reg_var_decl *)
    discriminate.
  - unfold opfunc_less_than. relational_completion.
  - unfold opfunc_greater_than. relational_completion.
  - unfold opfunc_less_or_equal_than. relational_completion.
  - unfold opfunc_greater_or_equal_than. relational_completion.
  - (* exitval *)
    unfold opfunc_exitval. intros Hop.
    apply bind_Ok in Hop as (_ & _ & Hop). injection Hop as <- _ _. reflexivity.
  - (* ret *)
    unfold opfunc_ret. intros Hop. injection Hop as <- _ _. reflexivity.
  - (* typeof *)
    unfold opfunc_typeof. intros Hop.
    apply bind_Ok in Hop as ([c1 h1] & _ & Hop). cbv beta iota in Hop.
    apply bind_Ok in Hop as ([[c2 id2] h2] & E2 & Hop). cbv beta iota in Hop.
    injection Hop as <- _ _.
    apply (try_catch_completion _ _ _ _ _ _ _ E2). intros typeof_arg Hb.
    apply bind_Ok in Hb as (type_str_p & _ & Hb).
    exact (set_variable_value_completion _ _ _ _ _ _ _ _ Hb).
  - (* meta *)
    unfold opfunc_meta. destruct type; intros Hop; try discriminate Hop;
      injection Hop as <- _ _; reflexivity.
  - (* var_decl *)
    unfold opfunc_var_decl.
    destruct (deserialize_lit_id_by_uid _ _); [|discriminate].
    cbv zeta. intros Hop.
    apply bind_Ok in Hop as (has_binding & _ & Hop).
    apply bind_Ok in Hop as (h1 & _ & Hop).
    injection Hop as <- _ _. reflexivity.
  - (* retval *)
    unfold opfunc_retval. intros Hop.
    apply bind_Ok in Hop as ([c1 h1] & _ & Hop). cbv beta iota in Hop.
    apply (try_catch_completion _ _ _ _ _ _ _ Hop). intros expr_val Hb.
    injection Hb as <- _ _. reflexivity.
  - (* throw_value *)
    unfold opfunc_throw_value. intros Hop.
    apply bind_Ok in Hop as ([c1 h1] & _ & Hop). cbv beta iota in Hop.
    apply bind_Ok in Hop as ([[c2 id2] h2] & E2 & Hop). cbv beta iota in Hop.
    injection Hop as <- _ _.
    apply (try_catch_completion _ _ _ _ _ _ _ E2). intros var_value Hb.
    injection Hb as <- _ _. reflexivity.
  - (* this_binding *)
    unfold opfunc_this_binding. cbv zeta.
    apply set_variable_value_completion.
  - (* logical_not *)
    unfold opfunc_logical_not. intros Hop.
    apply bind_Ok in Hop as ([c1 h1] & _ & Hop). cbv beta iota in Hop.
    apply bind_Ok in Hop as ([[c2 id2] h2] & E2 & Hop). cbv beta iota in Hop.
    injection Hop as <- _ _.
    apply (try_catch_completion _ _ _ _ _ _ _ E2). intros right_value Hb.
    cbv zeta in Hb.
    apply bind_Ok in Hb as (to_bool_value & _ & Hb).
    exact (set_variable_value_completion _ _ _ _ _ _ _ _ Hb).
  - (* the handlers that are not embedded *)
    apply (other_completes _ _ _ _ eq_refl).
Qed.

End HandlerCompletions.


End InterpreterLoop.

Lemma example_set_variable_value_by_name_completes :
  @set_variable_value_by_name_completes example_host example_interpreter_host.
Proof. intros h int_data lit_oc var_idx v c h' Hset. injection Hset as <- _. reflexivity. Qed.

Lemma example_opfunc_other_completes :
  @opfunc_other_completes example_host example_interpreter_host.
Proof.
  intros [|op_idx] arg1 arg2 arg3 int_data h c int_data' h' Hop; [|discriminate Hop].
  injection Hop as <- _ _. reflexivity.
Qed.


(** ** [run_int] *)

Section RunInt.
Context `{InterpreterHost}.

Lemma exit_completion_true (c : ecma_completion_value_t) :
  ecma_is_completion_value_exit c = true ∧ ecma_is_value_true (completion_value c) = true
  ↔ c = ecma_make_exit_completion_value true.
Proof.
  split.
  - destruct c as [[] [[]| | |]]; cbn; intros [Ht Hv]; try discriminate; reflexivity.
  - intros ->. split; reflexivity.
Qed.

(** C6: [run_int] returns true if and only if the interpretation of the
    installed program terminates with the exit completion that carries true;
    [opfunc_exitval] produces that completion exactly for the status code 0
    (and the exit completion that carries false for the status code 1); the
    exit completion that carries false makes [run_int] return false; a throw
    completion makes [run_int] not return: [jerry_exit
    (ERR_UNHANDLED_EXCEPTION)]. *)
Theorem run_int_outcome (fuel : nat) (__program : list opcode_t) :
  (run_int fuel (Some __program) = Ok true
   ↔ interpretation_terminates_with fuel __program (ecma_make_exit_completion_value true))
  ∧ (∀ status_code int_data h,
       (status_code = 0 ∨ status_code = 1)%Z →
       opfunc_exitval status_code int_data h
       = Ok (ecma_make_exit_completion_value (status_code =? 0)%Z, int_data, h)
       ∧ (ecma_make_exit_completion_value (status_code =? 0)%Z
          = ecma_make_exit_completion_value true ↔ status_code = 0%Z))
  ∧ (interpretation_terminates_with fuel __program (ecma_make_exit_completion_value false) →
     run_int fuel (Some __program) = Ok false)
  ∧ (∀ c, interpretation_terminates_with fuel __program c →
          ecma_is_completion_value_throw c = true →
          run_int fuel (Some __program) = Fatal (jerry_exit ERR_UNHANDLED_EXCEPTION)).
Proof.
  split; [|split; [|split]].
  - unfold run_int, interpretation_terminates_with. split.
    + destruct (run_int_start __program) as [[[[[start_pos strict] glob] env] h0]|];
        [|discriminate]. cbn [mbind result_bind].
      destruct (run_int_from_pos _ _ _ _ _ _ _ _) as [[c h1]|] eqn:Hrun; [|discriminate].
      cbn [mbind result_bind].
      destruct (ecma_is_completion_value_exit c) eqn:Hexit.
      * intros Hr. injection Hr as Hv.
        exists start_pos, strict, glob, env, h0, h1. split; [reflexivity|].
        assert (Hc : c = ecma_make_exit_completion_value true)
          by (apply exit_completion_true; split; assumption).
        rewrite Hrun, Hc. reflexivity.
      * destruct (ecma_is_completion_value_throw c); discriminate.
    + intros (start_pos & strict & glob & env & h0 & h1 & -> & Hrun).
      cbn [mbind result_bind]. rewrite Hrun. reflexivity.
  - intros status_code int_data h [-> | ->]; split; try reflexivity; split; intros E;
      try reflexivity; discriminate E.
  - unfold run_int. intros (start_pos & strict & glob & env & h0 & h1 & -> & Hrun).
    cbn [mbind result_bind]. rewrite Hrun. reflexivity.
  - unfold run_int. intros c (start_pos & strict & glob & env & h0 & h1 & -> & Hrun) Hthrow.
    cbn [mbind result_bind]. rewrite Hrun. cbn [mbind result_bind].
    destruct c as [[] v]; try discriminate Hthrow. reflexivity.
Qed.

End RunInt.

(** The three outcomes of [run_int] on concrete programs. *)
Example run_int_runs :
  @run_int example_host example_interpreter_host 3 (Some program_exit_success) = Ok true
  ∧ @run_int example_host example_interpreter_host 3 (Some program_exit_failure) = Ok false
  ∧ @run_int example_host example_interpreter_host 3 (Some program_throw)
    = Fatal (jerry_exit ERR_UNHANDLED_EXCEPTION).
Proof. repeat split. Qed.

Lemma run_int_outcome_witness :
  @interpretation_terminates_with example_host example_interpreter_host 3 program_exit_success
    (ecma_make_exit_completion_value true)
  ∧ @run_int example_host example_interpreter_host 3 (Some program_exit_success) = Ok true.
Proof.
  assert (Hrun : @interpretation_terminates_with example_host example_interpreter_host 3
                   program_exit_success (ecma_make_exit_completion_value true)).
  { unfold interpretation_terminates_with. do 6 eexists. split; reflexivity. }
  split; [exact Hrun|].
  exact (proj2 (proj1 (@run_int_outcome example_host example_interpreter_host 3
                         program_exit_success)) Hrun).
Defined.

(** ** typeof *)

Section Typeof.
Context `{InterpreterHost}.

(** C10: when the operand of typeof is not a register and its identifier is
    bound in no environment of the chain, [opfunc_typeof] completes normally
    (with the normal empty completion, not with a throw) and the destination
    register holds the string "undefined". *)
Theorem typeof_unresolvable_identifier
    (fuel : nat) (h : ecma_heap) (int_data : int_data_t) (dst_var_idx obj_var_idx : idx_t)
    (lit_id : literal_index_t) :
  is_reg_variable int_data obj_var_idx = false →
  deserialize_lit_id_by_uid obj_var_idx (pos int_data) = Some lit_id →
  ecma_op_resolve_reference_base fuel h (Some (lex_env_p int_data))
    (ecma_new_ecma_string_from_lit_index lit_id) = Ok None →
  is_reg_variable int_data dst_var_idx = true →
  (reg_slot int_data dst_var_idx < length (regs int_data))%nat →
  ∃ c int_data',
    opfunc_typeof fuel dst_var_idx obj_var_idx int_data h = Ok (c, int_data', h)
    ∧ c = ecma_make_empty_completion_value
    ∧ ecma_is_completion_value_normal c = true
    ∧ ecma_is_completion_value_throw c = false
    ∧ regs int_data' !! reg_slot int_data dst_var_idx = Some (ecma_value_string "undefined")
    ∧ int_data' = pos_incr (with_regs int_data
                              (<[reg_slot int_data dst_var_idx := ecma_value_string "undefined"]>
                                 (regs int_data))).
Proof.
  intros Hnotreg Hlit Hresolve Hdst Hslot.
  eexists _, _. split.
  - unfold opfunc_typeof, evaluate_arg_for_typeof.
    rewrite Hnotreg, Hlit, Hresolve. cbn.
    unfold set_variable_value. rewrite Hdst.
    destruct (decide _) as [_|Hge]; [|contradiction]. reflexivity.
  - repeat split. cbn. apply list_lookup_insert_eq. exact Hslot.
Qed.

End Typeof.

Lemma typeof_unresolvable_identifier_witness :
  ∃ c int_data',
    @opfunc_typeof example_host example_interpreter_host 2 130 5 example_frame
      example_frame_heap = Ok (c, int_data', example_frame_heap)
    ∧ c = ecma_make_empty_completion_value
    ∧ ecma_is_completion_value_normal c = true
    ∧ ecma_is_completion_value_throw c = false
    ∧ regs int_data' !! 2%nat = Some (ecma_value_string "undefined")
    ∧ int_data' = pos_incr (with_regs example_frame
                              (<[2%nat := ecma_value_string "undefined"]>
                                 (regs example_frame))).
Proof.
  apply (@typeof_unresolvable_identifier example_host example_interpreter_host 2
           example_frame_heap example_frame 130%Z 5%Z 5%Z);
    [reflexivity|reflexivity|reflexivity|reflexivity|vm_compute; lia].
Defined.

(** ** Lexical environment operations *)

(** Updating a node in place, keeping its name, does not change what a search
    by name finds. *)
Lemma find_named_property_in_update (h : ecma_heap) l name p node node' :
  heap_properties h !! p = Some node →
  property_name node' = property_name node →
  find_named_property_in (heap_set_property h p node') l name = find_named_property_in h l name.
Proof.
  intros Hp Hname. induction l as [|q l IH]; [reflexivity|].
  cbn. unfold heap_get_property. cbn.
  destruct (decide (q = p)) as [->|Hne].
  - rewrite lookup_insert_eq, Hp. cbn. rewrite IH.
    destruct node, node'; cbn in Hname; try discriminate; try injection Hname as ->; reflexivity.
  - rewrite lookup_insert_ne by congruence.
    destruct (heap_properties h !! q) as [n|]; [|reflexivity]. cbn.
    destruct n; rewrite ?IH; reflexivity.
Qed.

Section LexicalEnvironmentFacts.
Context `{EcmaHost}.

Lemma declarative_environment_checks (h : ecma_heap) env outer l :
  heap_objects h !! env = Some (ecma_object (header_decl_lex_env outer) l) →
  assert_lexical_environment h env = Ok ()
  ∧ ecma_get_lex_env_type h env = Ok ECMA_LEXICAL_ENVIRONMENT_DECLARATIVE
  ∧ ∀ name, ecma_find_named_property h env name = find_named_property_in h l name.
Proof.
  intros Ho.
  unfold assert_lexical_environment, ecma_is_lexical_environment, ecma_get_lex_env_type,
    ecma_find_named_property, ecma_get_property_list, heap_get_object.
  rewrite Ho. auto.
Qed.

Lemma has_binding_declarative (fuel : nat) (h : ecma_heap) env outer l name :
  heap_objects h !! env = Some (ecma_object (header_decl_lex_env outer) l) →
  ecma_op_has_binding fuel h env name
  = find_named_property_in h l name ≫= λ property_p, Ok (bool_decide (property_p ≠ None)).
Proof.
  intros Ho. destruct (declarative_environment_checks _ _ _ _ Ho) as (Ha & Ht & Hf).
  unfold ecma_op_has_binding. unfold assert_lexical_environment in Ha.
  destruct (ecma_is_lexical_environment h env) as [[]|]; try discriminate.
  cbn. rewrite Ht. cbn. rewrite Hf. reflexivity.
Qed.

End LexicalEnvironmentFacts.

(** Linking a new node at the head of a property list: what a search by name
    finds afterwards. *)
Lemma find_named_property_in_linked (h h' : ecma_heap) l p node name' :
  heap_properties h !! p = None →
  live h l →
  heap_properties h' = <[p := node]> (heap_properties h) →
  find_named_property_in h' (p :: l) name'
  = match property_name node with
    | Some n => if String.eqb n name' then Ok (Some p) else find_named_property_in h l name'
    | None => find_named_property_in h l name'
    end.
Proof.
  intros Hp Hl Hh'. cbn. unfold heap_get_property. rewrite Hh', lookup_insert_eq. cbn.
  assert (Hframe : find_named_property_in h' l name' = find_named_property_in h l name').
  { apply find_named_property_in_frame; [exact Hl|].
    intros q n Hq. rewrite Hh', lookup_insert_ne; [done|]. intros ->. congruence. }
  destruct node; cbn; rewrite Hframe; reflexivity.
Qed.

Lemma create_named_data_property_links (h : ecma_heap) obj_p hdr l name w e c :
  heap_objects h !! obj_p = Some (ecma_object hdr l) →
  find_named_property_in h l name = Ok None →
  ecma_create_named_data_property h obj_p name w e c
  = Ok (fresh (dom (heap_properties h)),
        heap_set_object
          (heap_set_property h (fresh (dom (heap_properties h)))
             (ECMA_PROPERTY_NAMEDDATA name (ecma_value_simple ECMA_SIMPLE_VALUE_UNDEFINED) w e c))
          obj_p (ecma_object hdr (fresh (dom (heap_properties h)) :: l))).
Proof.
  intros Ho Hf.
  unfold ecma_create_named_data_property, ecma_find_named_property, ecma_get_property_list,
    link_new_property, heap_get_object.
  rewrite Ho. cbn. rewrite Hf. reflexivity.
Qed.

Section LexicalEnvironmentBindings.
Context `{EcmaHost}.

Lemma has_binding_false_inv (fuel : nat) (h : ecma_heap) env outer l name :
  heap_objects h !! env = Some (ecma_object (header_decl_lex_env outer) l) →
  ecma_op_has_binding fuel h env name = Ok false →
  find_named_property_in h l name = Ok None.
Proof.
  intros Ho Hhas. rewrite (has_binding_declarative _ _ _ _ _ _ Ho) in Hhas.
  destruct (find_named_property_in h l name) as [[q|]|]; cbn in Hhas;
    [discriminate|reflexivity|discriminate].
Qed.

(** What the operations on a declarative environment see of a binding. *)
Lemma declarative_binding_lookup (h : ecma_heap) env name v w c :
  declarative_binding h env name v w c →
  ∃ p e, assert_lexical_environment h env = Ok ()
         ∧ ecma_get_lex_env_type h env = Ok ECMA_LEXICAL_ENVIRONMENT_DECLARATIVE
         ∧ ecma_find_named_property h env name = Ok (Some p)
         ∧ heap_properties h !! p = Some (ECMA_PROPERTY_NAMEDDATA name v w e c)
         ∧ ecma_get_named_data_property h env name = Ok p.
Proof.
  intros (outer & l & p & e & Ho & Hf & Hp).
  destruct (declarative_environment_checks _ _ _ _ Ho) as (Ha & Ht & Hfind).
  exists p, e. rewrite Hfind. repeat split; try assumption.
  unfold ecma_get_named_data_property. rewrite Hfind, Hf. cbn.
  unfold property_type, heap_get_property. rewrite Hp. reflexivity.
Qed.

Lemma get_binding_value_declarative (fuel : nat) (h : ecma_heap) env name v w c is_strict :
  declarative_binding h env name v w c →
  ecma_op_get_binding_value fuel h env name is_strict
  = if negb w && ecma_is_value_empty v then
      if is_strict then
        let '(exception_obj_p, h) := ecma_new_standard_error h ECMA_ERROR_REFERENCE in
        Ok (ecma_make_throw_obj_completion_value exception_obj_p, h)
      else Ok (ecma_make_simple_completion_value ECMA_SIMPLE_VALUE_UNDEFINED, h)
    else Ok (ecma_make_normal_completion_value v, h).
Proof.
  intros Hb. destruct (declarative_binding_lookup _ _ _ _ _ _ Hb) as (p & e & Ha & Ht & _ & Hp & Hg).
  unfold ecma_op_get_binding_value. rewrite Ha. cbn. rewrite Ht. cbn. rewrite Hg. cbn.
  unfold ecma_get_named_data_property_value, ecma_is_property_writable, heap_get_property.
  rewrite Hp. reflexivity.
Qed.

(** The heap after CreateMutableBinding on a declarative environment that
    does not have the binding. *)
Lemma create_mutable_binding_links
    (fuel : nat) (h : ecma_heap) env outer l (name : string) (is_deletable : bool) :
  heap_objects h !! env = Some (ecma_object (header_decl_lex_env outer) l) →
  ecma_op_has_binding fuel h env name = Ok false →
  let p := fresh (dom (heap_properties h)) in
  let h1 := mk_heap (<[env := ecma_object (header_decl_lex_env outer) (p :: l)]> (heap_objects h))
                    (<[p := ECMA_PROPERTY_NAMEDDATA name
                              (ecma_value_simple ECMA_SIMPLE_VALUE_UNDEFINED)
                              true false is_deletable]> (heap_properties h)) in
  ecma_op_create_mutable_binding h env name is_deletable
  = Ok (ecma_make_empty_completion_value, h1)
  ∧ declarative_binding h1 env name (ecma_value_simple ECMA_SIMPLE_VALUE_UNDEFINED)
      true is_deletable
  ∧ ∀ name', find_named_property_in h1 (p :: l) name'
             = if String.eqb name name' then Ok (Some p) else find_named_property_in h l name'.
Proof.
  intros Ho Hhas p h1.
  pose proof (has_binding_false_inv _ _ _ _ _ _ Ho Hhas) as Hf.
  pose proof (find_named_property_in_none_live _ _ _ Hf) as Hl.
  destruct (declarative_environment_checks _ _ _ _ Ho) as (Ha & Ht & _).
  assert (Hfind1 : ∀ name', find_named_property_in h1 (p :: l) name'
                            = if String.eqb name name' then Ok (Some p)
                              else find_named_property_in h l name').
  { intros name'.
    apply (find_named_property_in_linked h h1 l p
             (ECMA_PROPERTY_NAMEDDATA name (ecma_value_simple ECMA_SIMPLE_VALUE_UNDEFINED)
                true false is_deletable) name');
      [apply fresh_property_unused|exact Hl|reflexivity]. }
  split; [|split; [|exact Hfind1]].
  - unfold ecma_op_create_mutable_binding. rewrite Ha. cbn. rewrite Ht. cbn.
    rewrite (create_named_data_property_links _ _ _ _ _ _ _ _ Ho Hf). reflexivity.
  - exists outer, (p :: l), p, false. split; [apply lookup_insert_eq|]. split.
    + rewrite Hfind1, String.eqb_refl. reflexivity.
    + apply lookup_insert_eq.
Qed.

(** CreateMutableBinding on a declarative environment that does not have the
    binding: the operation completes with the empty completion, the
    environment has the binding afterwards, as a writable binding that is
    deletable as requested, GetBindingValue gives undefined (in strict code
    too), and the other bindings of the environment are as before. *)
Theorem create_mutable_binding_declarative
    (fuel : nat) (h : ecma_heap) (env : ecma_object_ptr_t) (name : string)
    (is_deletable is_strict : bool) :
  is_declarative_environment h env →
  ecma_op_has_binding fuel h env name = Ok false →
  ∃ h1,
    ecma_op_create_mutable_binding h env name is_deletable
    = Ok (ecma_make_empty_completion_value, h1)
    ∧ declarative_binding h1 env name (ecma_value_simple ECMA_SIMPLE_VALUE_UNDEFINED)
        true is_deletable
    ∧ ecma_op_has_binding fuel h1 env name = Ok true
    ∧ ecma_op_get_binding_value fuel h1 env name is_strict
      = Ok (ecma_make_simple_completion_value ECMA_SIMPLE_VALUE_UNDEFINED, h1)
    ∧ ∀ name', name' ≠ name →
        ecma_op_has_binding fuel h1 env name' = ecma_op_has_binding fuel h env name'.
Proof.
  intros (outer & l & Ho) Hhas.
  destruct (create_mutable_binding_links fuel h env outer l name is_deletable Ho Hhas)
    as (Hcreate & Hb1 & Hfind1).
  set (p := fresh (dom (heap_properties h))) in *.
  set (h1 := mk_heap _ _) in *.
  assert (Ho1 : heap_objects h1 !! env = Some (ecma_object (header_decl_lex_env outer) (p :: l)))
    by apply lookup_insert_eq.
  exists h1. split; [exact Hcreate|split; [exact Hb1|split; [|split]]].
  - rewrite (has_binding_declarative _ _ _ _ _ _ Ho1), Hfind1, String.eqb_refl. reflexivity.
  - rewrite (get_binding_value_declarative _ _ _ _ _ _ _ _ Hb1). reflexivity.
  - intros name' Hne.
    rewrite (has_binding_declarative _ _ _ _ _ _ Ho1), (has_binding_declarative _ _ _ _ _ _ Ho),
      Hfind1.
    destruct (String.eqb_spec name name'); [congruence|reflexivity].
Qed.

End LexicalEnvironmentBindings.

Lemma create_mutable_binding_declarative_witness :
  ∃ h1,
    @ecma_op_create_mutable_binding example_host heap_with_environments 1%positive "y" true
    = Ok (ecma_make_empty_completion_value, h1)
    ∧ declarative_binding h1 1%positive "y" (ecma_value_simple ECMA_SIMPLE_VALUE_UNDEFINED)
        true true
    ∧ ecma_op_has_binding 1 h1 1%positive "y" = Ok true
    ∧ @ecma_op_get_binding_value example_host 1 h1 1%positive "y" true
      = Ok (ecma_make_simple_completion_value ECMA_SIMPLE_VALUE_UNDEFINED, h1)
    ∧ ∀ name', name' ≠ "y" →
        ecma_op_has_binding 1 h1 1%positive name'
        = ecma_op_has_binding 1 heap_with_environments 1%positive name'.
Proof.
  apply (@create_mutable_binding_declarative example_host 1 heap_with_environments 1%positive
           "y" true true).
  - eexists _, _. reflexivity.
  - reflexivity.
Defined.

Section LexicalEnvironmentValues.
Context `{EcmaHost}.

(** Assigning a value to the node of a binding keeps every binding of the
    environment, with the new value for the assigned one. *)
Lemma declarative_binding_assign (h : ecma_heap) env outer l p name v0 v w e c :
  heap_objects h !! env = Some (ecma_object (header_decl_lex_env outer) l) →
  find_named_property_in h l name = Ok (Some p) →
  heap_properties h !! p = Some (ECMA_PROPERTY_NAMEDDATA name v0 w e c) →
  let h1 := heap_set_property h p (ECMA_PROPERTY_NAMEDDATA name v w e c) in
  declarative_binding h1 env name v w c
  ∧ ∀ name' v' w' c', name' ≠ name →
      declarative_binding h env name' v' w' c' → declarative_binding h1 env name' v' w' c'.
Proof.
  intros Ho Hf Hp h1.
  assert (Hfind : ∀ l' name', find_named_property_in h1 l' name'
                              = find_named_property_in h l' name').
  { intros l' name'. apply (find_named_property_in_update h l' name' p _ _ Hp). reflexivity. }
  split.
  - exists outer, l, p, e. split; [exact Ho|]. split; [rewrite Hfind; exact Hf|].
    apply lookup_insert_eq.
  - intros name' v' w' c' Hne (outer' & l' & p' & e' & Ho' & Hf' & Hp').
    exists outer', l', p', e'. split; [exact Ho'|]. split; [rewrite Hfind; exact Hf'|].
    cbn. rewrite lookup_insert_ne; [exact Hp'|]. intros ->. congruence.
Qed.

(** SetMutableBinding on a mutable binding of a declarative environment
    assigns the value: the operation completes with the empty completion,
    GetBindingValue gives the value that was set, and the other bindings of
    the environment are as before. *)
Theorem set_mutable_binding_then_get_binding_value
    (fuel : nat) (h : ecma_heap) (env : ecma_object_ptr_t) (name : string)
    (v0 v : ecma_value_t) (c is_strict is_strict' : bool) :
  declarative_binding h env name v0 true c →
  ∃ h1,
    ecma_op_set_mutable_binding fuel h env name v is_strict
    = Ok (ecma_make_empty_completion_value, h1)
    ∧ declarative_binding h1 env name v true c
    ∧ ecma_op_get_binding_value fuel h1 env name is_strict'
      = Ok (ecma_make_normal_completion_value v, h1)
    ∧ ∀ name' v' w' c', name' ≠ name →
        declarative_binding h env name' v' w' c' → declarative_binding h1 env name' v' w' c'.
Proof.
  intros Hb.
  destruct (declarative_binding_lookup _ _ _ _ _ _ Hb) as (p & e & Ha & Ht & Hfind & Hp & Hg).
  destruct Hb as (outer & l & p' & e' & Ho & Hf & Hp').
  assert (p' = p) as ->.
  { destruct (declarative_environment_checks _ _ _ _ Ho) as (_ & _ & Hfl).
    rewrite Hfl, Hf in Hfind. congruence. }
  assert (e' = e) as -> by congruence. clear Hp'.
  destruct (declarative_binding_assign h env outer l p name v0 v true e c Ho Hf Hp) as [Hb1 Hrest].
  eexists. split; [|split; [exact Hb1|split; [|exact Hrest]]].
  - unfold ecma_op_set_mutable_binding. rewrite Ha. cbn. rewrite Ht. cbn. rewrite Hg. cbn.
    unfold ecma_is_property_writable, ecma_named_data_property_assign_value, heap_get_property.
    rewrite Hp. reflexivity.
  - rewrite (get_binding_value_declarative _ _ _ _ _ _ _ _ Hb1). reflexivity.
Qed.

End LexicalEnvironmentValues.

Lemma set_mutable_binding_then_get_binding_value_witness :
  ∃ h1,
    @ecma_op_set_mutable_binding example_host 1 heap_with_environments 1%positive "x"
      (ecma_value_string "new") true
    = Ok (ecma_make_empty_completion_value, h1)
    ∧ declarative_binding h1 1%positive "x" (ecma_value_string "new") true false
    ∧ @ecma_op_get_binding_value example_host 1 h1 1%positive "x" true
      = Ok (ecma_make_normal_completion_value (ecma_value_string "new"), h1)
    ∧ ∀ name' v' w' c', name' ≠ "x" →
        declarative_binding heap_with_environments 1%positive name' v' w' c' →
        declarative_binding h1 1%positive name' v' w' c'.
Proof.
  apply (@set_mutable_binding_then_get_binding_value example_host 1 heap_with_environments
           1%positive "x" (ecma_value_number 1%float) (ecma_value_string "new") false true true).
  exists None, [1%positive; 2%positive], 1%positive, false. repeat split.
Defined.

Section ImmutableBindings.
Context `{EcmaHost}.

Lemma set_mutable_binding_declarative (fuel : nat) (h : ecma_heap) env name v0 v w c is_strict :
  declarative_binding h env name v0 w c →
  ecma_op_set_mutable_binding fuel h env name v is_strict
  = if w then
      p ← ecma_get_named_data_property h env name;
      h ← ecma_named_data_property_assign_value h env p v;
      Ok (ecma_make_empty_completion_value, h)
    else if is_strict then
      let '(exception_obj_p, h) := ecma_new_standard_error h ECMA_ERROR_TYPE in
      Ok (ecma_make_throw_obj_completion_value exception_obj_p, h)
    else Ok (ecma_make_empty_completion_value, h).
Proof.
  intros Hb. destruct (declarative_binding_lookup _ _ _ _ _ _ Hb) as (p & e & Ha & Ht & _ & Hp & Hg).
  unfold ecma_op_set_mutable_binding. rewrite Ha. cbn. rewrite Ht. cbn. rewrite Hg. cbn.
  unfold ecma_is_property_writable, heap_get_property. rewrite Hp. cbn.
  destruct w; reflexivity.
Qed.

(** CreateImmutableBinding on a declarative environment that does not have
    the binding creates a binding that is not initialised: GetBindingValue
    gives undefined in non-strict code and throws a ReferenceError in strict
    code, and SetMutableBinding leaves the heap as it is in non-strict code
    and throws a TypeError in strict code. *)
Theorem create_immutable_binding_uninitialized
    (fuel : nat) (h : ecma_heap) (env : ecma_object_ptr_t) (name : string) (v : ecma_value_t) :
  is_declarative_environment h env →
  ecma_op_has_binding fuel h env name = Ok false →
  ∃ h1,
    ecma_op_create_immutable_binding h env name = Ok h1
    ∧ declarative_binding h1 env name (ecma_value_simple ECMA_SIMPLE_VALUE_EMPTY) false false
    ∧ ecma_op_get_binding_value fuel h1 env name false
      = Ok (ecma_make_simple_completion_value ECMA_SIMPLE_VALUE_UNDEFINED, h1)
    ∧ ecma_op_get_binding_value fuel h1 env name true
      = Ok (ecma_make_throw_obj_completion_value
              (ecma_new_standard_error h1 ECMA_ERROR_REFERENCE).1,
            (ecma_new_standard_error h1 ECMA_ERROR_REFERENCE).2)
    ∧ ecma_op_set_mutable_binding fuel h1 env name v false
      = Ok (ecma_make_empty_completion_value, h1)
    ∧ ecma_op_set_mutable_binding fuel h1 env name v true
      = Ok (ecma_make_throw_obj_completion_value
              (ecma_new_standard_error h1 ECMA_ERROR_TYPE).1,
            (ecma_new_standard_error h1 ECMA_ERROR_TYPE).2).
Proof.
  intros (outer & l & Ho) Hhas.
  pose proof (has_binding_false_inv _ _ _ _ _ _ Ho Hhas) as Hf.
  pose proof (find_named_property_in_none_live _ _ _ Hf) as Hl.
  destruct (declarative_environment_checks _ _ _ _ Ho) as (Ha & Ht & _).
  set (p := fresh (dom (heap_properties h))).
  set (node := ECMA_PROPERTY_NAMEDDATA name (ecma_value_simple ECMA_SIMPLE_VALUE_EMPTY)
                 false false false).
  set (h1 := mk_heap (<[env := ecma_object (header_decl_lex_env outer) (p :: l)]> (heap_objects h))
                     (<[p := node]> (heap_properties h))).
  assert (Hb1 : declarative_binding h1 env name (ecma_value_simple ECMA_SIMPLE_VALUE_EMPTY)
                  false false).
  { exists outer, (p :: l), p, false. split; [apply lookup_insert_eq|]. split.
    - rewrite (find_named_property_in_linked h h1 l p node name);
        [|apply fresh_property_unused|exact Hl|reflexivity].
      cbn. rewrite String.eqb_refl. reflexivity.
    - apply lookup_insert_eq. }
  exists h1. split; [|split; [exact Hb1|repeat split]].
  - unfold ecma_op_create_immutable_binding. rewrite Ha. cbn. rewrite Ht. cbn.
    rewrite (create_named_data_property_links _ _ _ _ _ _ _ _ Ho Hf). cbn.
    unfold ecma_get_named_data_property_value, ecma_set_named_data_property_value,
      heap_get_property. cbn.
    rewrite !(lookup_insert_eq (heap_properties h)). cbn.
    f_equal. unfold heap_set_property, h1, node. cbn. rewrite insert_insert_eq. reflexivity.
  - rewrite (get_binding_value_declarative _ _ _ _ _ _ _ _ Hb1). reflexivity.
  - rewrite (get_binding_value_declarative _ _ _ _ _ _ _ _ Hb1). cbn.
    destruct (ecma_new_standard_error h1 ECMA_ERROR_REFERENCE). reflexivity.
  - rewrite (set_mutable_binding_declarative _ _ _ _ _ _ _ _ _ Hb1). reflexivity.
  - rewrite (set_mutable_binding_declarative _ _ _ _ _ _ _ _ _ Hb1).
    destruct (ecma_new_standard_error h1 ECMA_ERROR_TYPE). reflexivity.
Qed.

(** InitializeImmutableBinding on an immutable binding that is not
    initialised gives it its value: GetBindingValue returns the value
    afterwards, in strict code too; a second initialisation fails the
    assertion of the operation, and SetMutableBinding in non-strict code
    leaves the value as it is. *)
Theorem initialize_immutable_binding_once
    (fuel : nat) (h : ecma_heap) (env : ecma_object_ptr_t) (name : string)
    (v v' : ecma_value_t) (c is_strict : bool) :
  declarative_binding h env name (ecma_value_simple ECMA_SIMPLE_VALUE_EMPTY) false c →
  ecma_is_value_empty v = false →
  ∃ h1,
    ecma_op_initialize_immutable_binding h env name v = Ok h1
    ∧ declarative_binding h1 env name v false c
    ∧ ecma_op_get_binding_value fuel h1 env name is_strict
      = Ok (ecma_make_normal_completion_value v, h1)
    ∧ ecma_op_initialize_immutable_binding h1 env name v'
      = Fatal (assertion_failed
                 "!ecma_is_property_writable (prop_p) && ecma_is_value_empty (prop_value)")
    ∧ ecma_op_set_mutable_binding fuel h1 env name v' false
      = Ok (ecma_make_empty_completion_value, h1).
Proof.
  intros Hb Hv.
  assert (Hinit : ∀ h0 v0, declarative_binding h0 env name v0 false c →
            ecma_op_initialize_immutable_binding h0 env name v
            = _ ← JERRY_ASSERT
                    "!ecma_is_property_writable (prop_p) && ecma_is_value_empty (prop_value)"
                    (ecma_is_value_empty v0);
              p ← ecma_get_named_data_property h0 env name;
              ecma_named_data_property_assign_value h0 env p v).
  { intros h0 v0 Hb0.
    destruct (declarative_binding_lookup _ _ _ _ _ _ Hb0) as (p & e & Ha & Ht & _ & Hp & Hg).
    unfold ecma_op_initialize_immutable_binding. rewrite Ha. cbn. rewrite Ht. cbn.
    rewrite Hg. cbn.
    unfold ecma_get_named_data_property_value, ecma_is_property_writable, heap_get_property.
    rewrite Hp. reflexivity. }
  assert (Hinit' : ∀ h0 v0, declarative_binding h0 env name v0 false c →
            ecma_is_value_empty v0 = false →
            ecma_op_initialize_immutable_binding h0 env name v'
            = Fatal (assertion_failed
                       "!ecma_is_property_writable (prop_p) && ecma_is_value_empty (prop_value)")).
  { intros h0 v0 Hb0 Hv0.
    destruct (declarative_binding_lookup _ _ _ _ _ _ Hb0) as (p & e & Ha & Ht & _ & Hp & Hg).
    unfold ecma_op_initialize_immutable_binding. rewrite Ha. cbn. rewrite Ht. cbn.
    rewrite Hg. cbn.
    unfold ecma_get_named_data_property_value, ecma_is_property_writable, heap_get_property.
    rewrite Hp. cbn. rewrite Hv0. reflexivity. }
  rewrite (Hinit _ _ Hb). cbn.
  destruct (declarative_binding_lookup _ _ _ _ _ _ Hb) as (p & e & _ & _ & Hfind & Hp & Hg).
  destruct Hb as (outer & l & p' & e' & Ho & Hf & Hp').
  assert (p' = p) as ->.
  { destruct (declarative_environment_checks _ _ _ _ Ho) as (_ & _ & Hfl).
    rewrite Hfl, Hf in Hfind. congruence. }
  assert (e' = e) as -> by congruence. clear Hp'.
  destruct (declarative_binding_assign h env outer l p name _ v false e c Ho Hf Hp) as [Hb1 _].
  rewrite Hg. cbn. unfold ecma_named_data_property_assign_value, heap_get_property.
  rewrite Hp. cbn.
  eexists. split; [reflexivity|]. split; [exact Hb1|]. repeat split.
  - rewrite (get_binding_value_declarative _ _ _ _ _ _ _ _ Hb1). cbn. rewrite Hv. reflexivity.
  - exact (Hinit' _ _ Hb1 Hv).
  - rewrite (set_mutable_binding_declarative _ _ _ _ _ _ _ _ _ Hb1). reflexivity.
Qed.

End ImmutableBindings.

Lemma create_immutable_binding_uninitialized_witness :
  ∃ h1,
    ecma_op_create_immutable_binding heap_with_environments 1%positive "g" = Ok h1
    ∧ declarative_binding h1 1%positive "g" (ecma_value_simple ECMA_SIMPLE_VALUE_EMPTY)
        false false
    ∧ @ecma_op_get_binding_value example_host 1 h1 1%positive "g" false
      = Ok (ecma_make_simple_completion_value ECMA_SIMPLE_VALUE_UNDEFINED, h1)
    ∧ @ecma_op_get_binding_value example_host 1 h1 1%positive "g" true
      = Ok (ecma_make_throw_obj_completion_value
              (@ecma_new_standard_error example_host h1 ECMA_ERROR_REFERENCE).1,
            (@ecma_new_standard_error example_host h1 ECMA_ERROR_REFERENCE).2)
    ∧ @ecma_op_set_mutable_binding example_host 1 h1 1%positive "g"
        (ecma_value_number 1%float) false
      = Ok (ecma_make_empty_completion_value, h1)
    ∧ @ecma_op_set_mutable_binding example_host 1 h1 1%positive "g"
        (ecma_value_number 1%float) true
      = Ok (ecma_make_throw_obj_completion_value
              (@ecma_new_standard_error example_host h1 ECMA_ERROR_TYPE).1,
            (@ecma_new_standard_error example_host h1 ECMA_ERROR_TYPE).2).
Proof.
  apply (@create_immutable_binding_uninitialized example_host 1 heap_with_environments
           1%positive "g" (ecma_value_number 1%float)).
  - eexists _, _. reflexivity.
  - reflexivity.
Defined.

Lemma initialize_immutable_binding_once_witness :
  ∃ h1,
    ecma_op_initialize_immutable_binding heap_with_environments 1%positive "f"
      (ecma_value_number 1%float) = Ok h1
    ∧ declarative_binding h1 1%positive "f" (ecma_value_number 1%float) false false
    ∧ @ecma_op_get_binding_value example_host 1 h1 1%positive "f" true
      = Ok (ecma_make_normal_completion_value (ecma_value_number 1%float), h1)
    ∧ ecma_op_initialize_immutable_binding h1 1%positive "f" (ecma_value_string "again")
      = Fatal (assertion_failed
                 "!ecma_is_property_writable (prop_p) && ecma_is_value_empty (prop_value)")
    ∧ @ecma_op_set_mutable_binding example_host 1 h1 1%positive "f"
        (ecma_value_string "again") false
      = Ok (ecma_make_empty_completion_value, h1).
Proof.
  apply (@initialize_immutable_binding_once example_host 1 heap_with_environments
           1%positive "f" (ecma_value_number 1%float) (ecma_value_string "again") false true).
  - exists None, [1%positive; 2%positive], 2%positive, false. repeat split.
  - reflexivity.
Defined.

Section DeleteBinding.
Context `{EcmaHost}.

Lemma delete_binding_declarative (h : ecma_heap) env name v w c :
  declarative_binding h env name v w c →
  ecma_op_delete_binding h env name
  = if negb c then Ok (ecma_make_simple_completion_value ECMA_SIMPLE_VALUE_FALSE, h)
    else
      p ← ecma_get_named_data_property h env name;
      h ← ecma_delete_property h env p;
      Ok (ecma_make_simple_completion_value ECMA_SIMPLE_VALUE_TRUE, h).
Proof.
  intros Hb.
  destruct (declarative_binding_lookup _ _ _ _ _ _ Hb) as (p & e & Ha & Ht & Hfind & Hp & Hg).
  unfold ecma_op_delete_binding. rewrite Ha. cbn. rewrite Ht. cbn. rewrite Hfind, Hg. cbn.
  unfold property_type, ecma_is_property_configurable, heap_get_property. rewrite Hp. cbn.
  destruct c; reflexivity.
Qed.

(** DeleteBinding on a declarative environment: for a name that is not bound
    the result is true and the heap is unchanged; a binding created as
    deletable is removed, the result is true and the heap is as it was before
    the binding was created; a binding created as not deletable stays, the
    result is false and the heap is unchanged. *)
Theorem delete_binding_after_create_mutable_binding
    (fuel : nat) (h : ecma_heap) (env : ecma_object_ptr_t) (name : string) :
  is_declarative_environment h env →
  ecma_op_has_binding fuel h env name = Ok false →
  ecma_op_delete_binding h env name
  = Ok (ecma_make_simple_completion_value ECMA_SIMPLE_VALUE_TRUE, h)
  ∧ (∃ h1, ecma_op_create_mutable_binding h env name true
           = Ok (ecma_make_empty_completion_value, h1)
           ∧ ecma_op_delete_binding h1 env name
             = Ok (ecma_make_simple_completion_value ECMA_SIMPLE_VALUE_TRUE, h))
  ∧ (∃ h2, ecma_op_create_mutable_binding h env name false
           = Ok (ecma_make_empty_completion_value, h2)
           ∧ ecma_op_delete_binding h2 env name
             = Ok (ecma_make_simple_completion_value ECMA_SIMPLE_VALUE_FALSE, h2)
           ∧ ecma_op_has_binding fuel h2 env name = Ok true).
Proof.
  intros Henv Hhas. pose proof Henv as (outer & l & Ho).
  pose proof (has_binding_false_inv _ _ _ _ _ _ Ho Hhas) as Hf.
  destruct (declarative_environment_checks _ _ _ _ Ho) as (Ha & Ht & Hfind).
  split; [|split].
  - unfold ecma_op_delete_binding. rewrite Ha. cbn. rewrite Ht. cbn. rewrite Hfind, Hf.
    reflexivity.
  - destruct (create_mutable_binding_links fuel h env outer l name true Ho Hhas)
      as (Hcreate & Hb1 & Hfind1).
    eexists. split; [exact Hcreate|].
    rewrite (delete_binding_declarative _ _ _ _ _ _ Hb1). cbn.
    destruct (declarative_binding_lookup _ _ _ _ _ _ Hb1) as (p & e & _ & _ & Hf1 & Hp1 & Hg1).
    rewrite Hg1. cbn.
    assert (p = fresh (dom (heap_properties h))) as ->.
    { unfold ecma_find_named_property, ecma_get_property_list, heap_get_object in Hf1.
      cbn in Hf1. rewrite (lookup_insert_eq (heap_objects h)) in Hf1. cbn -[find_named_property_in] in Hf1.
      rewrite Hfind1, String.eqb_refl in Hf1. congruence. }
    unfold ecma_delete_property, heap_get_object, heap_get_property. cbn.
    rewrite (lookup_insert_eq (heap_objects h)). cbn. rewrite Pos.eqb_refl.
    rewrite (lookup_insert_eq (heap_properties h)). cbn.
    do 2 f_equal. apply heap_eq; cbn.
    + rewrite insert_insert_eq. apply insert_id. exact Ho.
    + apply delete_insert_id, fresh_property_unused.
  - destruct (create_mutable_binding_links fuel h env outer l name false Ho Hhas)
      as (Hcreate & Hb2 & Hfind2).
    eexists. split; [exact Hcreate|]. split.
    + rewrite (delete_binding_declarative _ _ _ _ _ _ Hb2). reflexivity.
    + erewrite has_binding_declarative by apply lookup_insert_eq.
      rewrite Hfind2, String.eqb_refl. reflexivity.
Qed.

End DeleteBinding.

Lemma delete_binding_after_create_mutable_binding_witness :
  @ecma_op_delete_binding example_host heap_with_environments 1%positive "y"
  = Ok (ecma_make_simple_completion_value ECMA_SIMPLE_VALUE_TRUE, heap_with_environments)
  ∧ (∃ h1, @ecma_op_create_mutable_binding example_host heap_with_environments 1%positive "y" true
           = Ok (ecma_make_empty_completion_value, h1)
           ∧ @ecma_op_delete_binding example_host h1 1%positive "y"
             = Ok (ecma_make_simple_completion_value ECMA_SIMPLE_VALUE_TRUE,
                   heap_with_environments))
  ∧ (∃ h2, @ecma_op_create_mutable_binding example_host heap_with_environments 1%positive "y" false
           = Ok (ecma_make_empty_completion_value, h2)
           ∧ @ecma_op_delete_binding example_host h2 1%positive "y"
             = Ok (ecma_make_simple_completion_value ECMA_SIMPLE_VALUE_FALSE, h2)
           ∧ ecma_op_has_binding 1 h2 1%positive "y" = Ok true).
Proof.
  apply (@delete_binding_after_create_mutable_binding example_host 1 heap_with_environments
           1%positive "y").
  - eexists _, _. reflexivity.
  - reflexivity.
Defined.

Section ObjectBoundEnvironment.
Context `{EcmaHost}.

Lemma object_bound_environment_checks (h : ecma_heap) env outer binding_obj_p provide_this le :
  heap_objects h !! env
  = Some (ecma_object (header_object_lex_env outer binding_obj_p provide_this) le) →
  assert_lexical_environment h env = Ok ()
  ∧ ecma_get_lex_env_type h env = Ok ECMA_LEXICAL_ENVIRONMENT_OBJECTBOUND
  ∧ ecma_get_lex_env_binding_object h env = Ok binding_obj_p.
Proof.
  intros Ho.
  unfold assert_lexical_environment, ecma_is_lexical_environment, ecma_get_lex_env_type,
    ecma_get_lex_env_binding_object, heap_get_object.
  rewrite Ho. auto.
Qed.

Lemma has_binding_object_bound (fuel : nat) (h : ecma_heap) env outer binding_obj_p
    provide_this le name :
  heap_objects h !! env
  = Some (ecma_object (header_object_lex_env outer binding_obj_p provide_this) le) →
  ecma_op_has_binding fuel h env name
  = ecma_op_object_get_property fuel h binding_obj_p name
    ≫= λ property_p, Ok (bool_decide (property_p ≠ None)).
Proof.
  intros Ho. destruct (object_bound_environment_checks _ _ _ _ _ _ Ho) as (Ha & Ht & Hb).
  unfold ecma_op_has_binding. unfold assert_lexical_environment in Ha.
  destruct (ecma_is_lexical_environment h env) as [[]|]; try discriminate.
  cbn. rewrite Ht. cbn. rewrite Hb. reflexivity.
Qed.

(** [[GetProperty]] and [[Get]] of an own named data property. *)
Lemma get_own_data_property (fuel : nat) (h : ecma_heap) obj_p pr ext ty b l name p v w e c :
  heap_objects h !! obj_p = Some (ecma_object (header_object pr ext ty b) l) →
  find_named_property_in h l name = Ok (Some p) →
  heap_properties h !! p = Some (ECMA_PROPERTY_NAMEDDATA name v w e c) →
  ecma_op_general_object_get_property (S fuel) h obj_p name = Ok (Some p)
  ∧ ecma_op_general_object_get (S fuel) h obj_p name
    = Ok (ecma_make_normal_completion_value v, h).
Proof.
  intros Ho Hf Hp.
  assert (Hg : ecma_op_general_object_get_property (S fuel) h obj_p name = Ok (Some p)).
  { cbn. rewrite (assert_general_object_ok _ _ _ _ _ _ _ Ho). cbn.
    unfold ecma_op_object_get_own_property, ecma_op_general_object_get_own_property.
    rewrite (assert_general_object_ok _ _ _ _ _ _ _ Ho). cbn.
    unfold ecma_find_named_property, ecma_get_property_list, heap_get_object.
    rewrite Ho. cbn. rewrite Hf. reflexivity. }
  split; [exact Hg|].
  unfold ecma_op_general_object_get, ecma_op_object_get_property.
  rewrite (assert_general_object_ok _ _ _ _ _ _ _ Ho), Hg. cbn.
  unfold property_type, ecma_get_named_data_property_value, heap_get_property.
  rewrite Hp. reflexivity.
Qed.

(** The heap after CreateMutableBinding on an object-bound environment whose
    binding object is extensible and has no property of that name. *)
Lemma create_mutable_binding_object_bound_links
    (fuel : nat) (h : ecma_heap) env outer binding_obj_p provide_this le pr ty b l
    (name : string) (is_deletable : bool) :
  heap_objects h !! env
  = Some (ecma_object (header_object_lex_env outer binding_obj_p provide_this) le) →
  heap_objects h !! binding_obj_p = Some (ecma_object (header_object pr true ty b) l) →
  ecma_op_has_binding fuel h env name = Ok false →
  ∃ h1 p fuel',
    fuel = S fuel'
    ∧ ecma_op_create_mutable_binding h env name is_deletable
      = Ok (ecma_make_empty_completion_value, h1)
    ∧ heap_objects h1 !! env
      = Some (ecma_object (header_object_lex_env outer binding_obj_p provide_this) le)
    ∧ heap_objects h1 !! binding_obj_p
      = Some (ecma_object (header_object pr true ty b) (p :: l))
    ∧ find_named_property_in h1 (p :: l) name = Ok (Some p)
    ∧ heap_properties h1 !! p
      = Some (ECMA_PROPERTY_NAMEDDATA name (ecma_value_simple ECMA_SIMPLE_VALUE_UNDEFINED)
                true true is_deletable).
Proof.
  intros Henv Ho Hhas.
  destruct (object_bound_environment_checks _ _ _ _ _ _ Henv) as (Ha & Ht & Hbo).
  rewrite (has_binding_object_bound _ _ _ _ _ _ _ _ Henv) in Hhas.
  assert (Hg : ecma_op_general_object_get_property fuel h binding_obj_p name = Ok None).
  { unfold ecma_op_object_get_property in Hhas.
    destruct (ecma_op_general_object_get_property fuel h binding_obj_p name) as [[q|]|];
      cbn in Hhas; [discriminate|reflexivity|discriminate]. }
  clear Hhas.
  destruct (get_property_none_inv _ _ _ _ _ _ _ _ _ Ho Hg) as [Hf _].
  pose proof (find_named_property_in_none_live _ _ _ Hf) as Hl.
  destruct fuel as [|fuel]; [discriminate|].
  set (d := set_configurable
              (set_enumerable
                 (set_writable
                    (with_value (with_is_value_defined ecma_make_empty_property_descriptor true)
                       (ecma_value_simple ECMA_SIMPLE_VALUE_UNDEFINED)) true) true)
              is_deletable).
  pose proof (define_own_property_creates_data h binding_obj_p pr ty b l name d true Ho Hf eq_refl)
    as Hdef.
  cbn zeta in Hdef.
  set (p := fresh (dom (heap_properties h))) in *.
  set (node := ECMA_PROPERTY_NAMEDDATA name (ecma_value_simple ECMA_SIMPLE_VALUE_UNDEFINED)
                 true true is_deletable).
  change (ECMA_PROPERTY_NAMEDDATA name (value d) (is_writable d) (is_enumerable d)
            (is_configurable d)) with node in Hdef.
  set (h1 := mk_heap _ _) in Hdef.
  assert (Hne : env ≠ binding_obj_p) by (intros ->; congruence).
  exists h1, p, fuel. split; [reflexivity|]. split; [|split; [|split; [|split]]].
  - unfold ecma_op_create_mutable_binding. rewrite Ha. cbn. rewrite Ht. cbn. rewrite Hbo. cbn.
    unfold ecma_op_object_define_own_property. fold d. rewrite Hdef. reflexivity.
  - cbn. rewrite lookup_insert_ne by congruence. exact Henv.
  - apply lookup_insert_eq.
  - rewrite (find_named_property_in_linked h h1 l p node name);
      [|apply fresh_property_unused|exact Hl|reflexivity].
    cbn. rewrite String.eqb_refl. reflexivity.
  - apply lookup_insert_eq.
Qed.

(** HasBinding and GetBindingValue on an object-bound environment whose
    binding object owns the name as a data property. *)
Lemma object_bound_own_data_binding
    (fuel : nat) (h : ecma_heap) env outer binding_obj_p provide_this le pr ext ty b l
    (name : string) p v w e c (is_strict : bool) :
  heap_objects h !! env
  = Some (ecma_object (header_object_lex_env outer binding_obj_p provide_this) le) →
  heap_objects h !! binding_obj_p = Some (ecma_object (header_object pr ext ty b) l) →
  find_named_property_in h l name = Ok (Some p) →
  heap_properties h !! p = Some (ECMA_PROPERTY_NAMEDDATA name v w e c) →
  ecma_op_has_binding (S fuel) h env name = Ok true
  ∧ ecma_op_get_binding_value (S fuel) h env name is_strict
    = Ok (ecma_make_normal_completion_value v, h).
Proof.
  intros Henv Ho Hf Hp.
  destruct (get_own_data_property fuel h binding_obj_p pr ext ty b l name p
              _ _ _ _ Ho Hf Hp) as [Hgp Hget].
  destruct (object_bound_environment_checks _ _ _ _ _ _ Henv) as (Ha & Ht & Hbo).
  split.
  - rewrite (has_binding_object_bound _ _ _ _ _ _ _ _ Henv).
    unfold ecma_op_object_get_property. rewrite Hgp. reflexivity.
  - unfold ecma_op_get_binding_value, ecma_op_object_get_property, ecma_op_object_get.
    rewrite Ha. cbn [mbind result_bind]. rewrite Ht. cbn [mbind result_bind].
    rewrite Hbo. cbn [mbind result_bind]. rewrite Hgp. cbn [mbind result_bind].
    rewrite Hget. reflexivity.
Qed.

(** CreateMutableBinding on an object-bound environment whose binding object
    is extensible and has no property of that name, own or inherited: the
    binding object gets the own data property with the value undefined,
    writable and enumerable, and configurable as requested; the environment
    has the binding afterwards and GetBindingValue gives undefined. *)
Theorem create_mutable_binding_object_bound
    (fuel : nat) (h : ecma_heap) (env : ecma_object_ptr_t) outer
    (binding_obj_p : ecma_object_ptr_t) provide_this le pr ty b l
    (name : string) (is_deletable is_strict : bool) :
  heap_objects h !! env
  = Some (ecma_object (header_object_lex_env outer binding_obj_p provide_this) le) →
  heap_objects h !! binding_obj_p = Some (ecma_object (header_object pr true ty b) l) →
  ecma_op_has_binding fuel h env name = Ok false →
  ∃ h1,
    ecma_op_create_mutable_binding h env name is_deletable
    = Ok (ecma_make_empty_completion_value, h1)
    ∧ own_data_property h1 binding_obj_p name (ecma_value_simple ECMA_SIMPLE_VALUE_UNDEFINED)
        true true is_deletable
    ∧ ecma_op_has_binding fuel h1 env name = Ok true
    ∧ ecma_op_get_binding_value fuel h1 env name is_strict
      = Ok (ecma_make_simple_completion_value ECMA_SIMPLE_VALUE_UNDEFINED, h1).
Proof.
  intros Henv Ho Hhas.
  destruct (create_mutable_binding_object_bound_links fuel h env outer binding_obj_p
              provide_this le pr ty b l name is_deletable Henv Ho Hhas)
    as (h1 & p & fuel' & -> & Hcreate & Henv1 & Ho1 & Hf1 & Hp1).
  destruct (object_bound_own_data_binding fuel' h1 env outer binding_obj_p provide_this le
              pr true ty b (p :: l) name p _ _ _ _ is_strict Henv1 Ho1 Hf1 Hp1)
    as [Hhas1 Hget1].
  exists h1. split; [exact Hcreate|]. split; [|split; [exact Hhas1|exact Hget1]].
  exists p. split; [|exact Hp1].
  unfold ecma_find_named_property, ecma_get_property_list, heap_get_object.
  rewrite Ho1. exact Hf1.
Qed.

End ObjectBoundEnvironment.

Lemma create_mutable_binding_object_bound_witness :
  ∃ h1,
    @ecma_op_create_mutable_binding example_host heap_with_environments 3%positive "v" false
    = Ok (ecma_make_empty_completion_value, h1)
    ∧ own_data_property h1 4%positive "v" (ecma_value_simple ECMA_SIMPLE_VALUE_UNDEFINED)
        true true false
    ∧ ecma_op_has_binding 1 h1 3%positive "v" = Ok true
    ∧ @ecma_op_get_binding_value example_host 1 h1 3%positive "v" true
      = Ok (ecma_make_simple_completion_value ECMA_SIMPLE_VALUE_UNDEFINED, h1).
Proof.
  apply (@create_mutable_binding_object_bound example_host 1 heap_with_environments 3%positive
           None 4%positive true [] None ECMA_OBJECT_TYPE_GENERAL false [] "v" false true);
    reflexivity.
Defined.

(** ** 'Variable declaration' opcode *)

Section VariableDeclarationFacts.
Context `{InterpreterHost}.

(** The 'variable declaration' handler on a declarative environment: both
    assertions of the handler hold, the handler completes with the empty
    completion and moves to the next instruction, and the variable is bound
    afterwards.  A variable that was bound already is left as it is (the heap
    is unchanged); a new variable has the value undefined and is deletable
    exactly in eval code. *)
Theorem var_decl_declares_variable
    (fuel : nat) (variable_name : idx_t) (int_data : int_data_t) (h : ecma_heap)
    (lit_id : literal_index_t) (was_bound : bool) :
  deserialize_lit_id_by_uid variable_name (pos int_data) = Some lit_id →
  is_declarative_environment h (lex_env_p int_data) →
  ecma_op_has_binding fuel h (lex_env_p int_data) (ecma_new_ecma_string_from_lit_index lit_id)
  = Ok was_bound →
  ∃ h1,
    opfunc_var_decl fuel variable_name int_data h
    = Ok (ecma_make_empty_completion_value, pos_incr int_data, h1)
    ∧ ecma_op_has_binding fuel h1 (lex_env_p int_data)
        (ecma_new_ecma_string_from_lit_index lit_id) = Ok true
    ∧ if was_bound then h1 = h
      else declarative_binding h1 (lex_env_p int_data)
             (ecma_new_ecma_string_from_lit_index lit_id)
             (ecma_value_simple ECMA_SIMPLE_VALUE_UNDEFINED) true (is_eval_code int_data).
Proof.
  intros Hlit (outer & l & Ho) Hhas.
  unfold opfunc_var_decl. rewrite Hlit. cbn zeta. rewrite Hhas. cbn [mbind result_bind].
  destruct was_bound; cbn [negb].
  - exists h. split; [reflexivity|]. split; [exact Hhas|reflexivity].
  - destruct (create_mutable_binding_links fuel h _ outer l _ (is_eval_code int_data) Ho Hhas)
      as (Hcreate & Hb1 & Hfind1).
    eexists. rewrite Hcreate. cbn [mbind result_bind].
    rewrite (get_binding_value_declarative _ _ _ _ _ _ _ _ Hb1). cbn.
    split; [reflexivity|]. split; [|exact Hb1].
    erewrite has_binding_declarative by apply lookup_insert_eq.
    rewrite Hfind1, String.eqb_refl. reflexivity.
Qed.

End VariableDeclarationFacts.

Lemma var_decl_declares_variable_witness :
  ∃ h1,
    @opfunc_var_decl example_host example_interpreter_host 1 0%Z
      example_declarative_frame heap_with_environments
    = Ok (ecma_make_empty_completion_value,
          pos_incr example_declarative_frame, h1)
    ∧ ecma_op_has_binding 1 h1 5%positive
        (@ecma_new_ecma_string_from_lit_index example_host example_interpreter_host 0%Z)
      = Ok true
    ∧ declarative_binding h1 5%positive
        (@ecma_new_ecma_string_from_lit_index example_host example_interpreter_host 0%Z)
        (ecma_value_simple ECMA_SIMPLE_VALUE_UNDEFINED) true true.
Proof.
  apply (@var_decl_declares_variable example_host example_interpreter_host 1 0%Z
           example_declarative_frame heap_with_environments 0%Z false).
  - reflexivity.
  - eexists _, _. reflexivity.
  - reflexivity.
Defined.

(** ** Opcode counters in 'meta' opcodes *)

(** The opcode counter built from the two data bytes of a 'meta' opcode is
    the 16-bit number with the first byte as its high byte and the second as
    its low byte: nothing is lost in the shift or in the truncations, and
    both bytes can be read back from the counter. *)
Theorem calc_opcode_counter_from_idx_idx_bytes (oc_idx_1 oc_idx_2 : idx_t) :
  (0 ≤ oc_idx_1 < 256)%Z →
  (0 ≤ oc_idx_2 < 256)%Z →
  (calc_opcode_counter_from_idx_idx oc_idx_1 oc_idx_2 = 256 * oc_idx_1 + oc_idx_2
   ∧ 0 ≤ calc_opcode_counter_from_idx_idx oc_idx_1 oc_idx_2 < 65536
   ∧ calc_opcode_counter_from_idx_idx oc_idx_1 oc_idx_2 / 256 = oc_idx_1
   ∧ calc_opcode_counter_from_idx_idx oc_idx_1 oc_idx_2 mod 256 = oc_idx_2)%Z.
Proof.
  intros H1 H2.
  assert (Hcalc : (calc_opcode_counter_from_idx_idx oc_idx_1 oc_idx_2
                   = 256 * oc_idx_1 + oc_idx_2)%Z).
  { unfold calc_opcode_counter_from_idx_idx.
    rewrite Z.shiftl_mul_pow2 by lia. change (2 ^ 8)%Z with 256%Z.
    rewrite (Z.mod_small (oc_idx_1 * 256)) by lia.
    assert (Hland : Z.land (oc_idx_1 * 256) oc_idx_2 = 0%Z).
    { apply Z.bits_inj'. intros n Hn. rewrite Z.land_spec, Z.bits_0.
      destruct (Z.lt_ge_cases n 8) as [Hlt|Hge].
      - change 256%Z with (2 ^ 8)%Z. rewrite Z.mul_pow2_bits_low by lia. reflexivity.
      - rewrite (Z.bits_above_log2 oc_idx_2 n); [apply andb_false_r|lia|].
        destruct (Z.eq_dec oc_idx_2 0%Z) as [->|Hnz]; [cbn; lia|].
        apply Z.log2_lt_pow2; [lia|].
        apply Z.lt_le_trans with (2 ^ 8)%Z; [cbn; lia|].
        apply Z.pow_le_mono_r; lia. }
    rewrite <- Z.lxor_lor by exact Hland.
    rewrite <- Z.add_nocarry_lxor by exact Hland.
    rewrite Z.mod_small by lia. lia. }
  rewrite Hcalc. split; [reflexivity|]. split; [lia|]. split.
  - rewrite Z.mul_comm, Z.div_add_l by lia. rewrite Z.div_small by lia. lia.
  - rewrite Z.add_comm, Z.mul_comm, Z.mod_add by lia. apply Z.mod_small. lia.
Qed.

Lemma calc_opcode_counter_from_idx_idx_bytes_witness :
  (calc_opcode_counter_from_idx_idx 1 44 = 256 * 1 + 44
   ∧ 0 ≤ calc_opcode_counter_from_idx_idx 1 44 < 65536
   ∧ calc_opcode_counter_from_idx_idx 1 44 / 256 = 1
   ∧ calc_opcode_counter_from_idx_idx 1 44 mod 256 = 44)%Z.
Proof.
  apply (calc_opcode_counter_from_idx_idx_bytes 1 44); lia.
Defined.

(** ** More on the general object operations *)

(** SameValue always returns. *)
Lemma same_value_total (x y : ecma_value_t) : ∃ b, ecma_op_same_value x y = Ok b.
Proof.
  destruct x as [[]| | |], y as [[]| | |]; cbn; eauto;
    repeat match goal with |- context [if ?c then _ else _] => destruct c end; eauto.
Qed.

(** A conditional between two results that return. *)
Lemma if_Ok {A} (c : bool) (x y : A) : (if c then Ok x else Ok y) = Ok (if c then x else y).
Proof. destruct c; reflexivity. Qed.

(** A search that returns gives the same result in every heap that has the
    nodes of this one. *)
Lemma find_named_property_in_mono (h h' : ecma_heap) l name r :
  (∀ q n, heap_properties h !! q = Some n → heap_properties h' !! q = Some n) →
  find_named_property_in h l name = Ok r →
  find_named_property_in h' l name = Ok r.
Proof.
  intros Hsub. induction l as [|p l IH]; [intros Hf; exact Hf|].
  cbn. unfold heap_get_property.
  destruct (heap_properties h !! p) as [n|] eqn:Hp; [|discriminate].
  rewrite (Hsub _ _ Hp). cbn.
  destruct n; try destruct (String.eqb _ _); auto.
Qed.

Section GeneralObjectMore.
Context `{EcmaHost}.

Lemma get_own_property_owned (h : ecma_heap) obj_p pr ext ty b l name :
  heap_objects h !! obj_p = Some (ecma_object (header_object pr ext ty b) l) →
  ecma_op_general_object_get_own_property h obj_p name = find_named_property_in h l name.
Proof.
  intros Ho. unfold ecma_op_general_object_get_own_property.
  rewrite (assert_general_object_ok _ _ _ _ _ _ _ Ho). cbn.
  unfold ecma_find_named_property, ecma_get_property_list, heap_get_object.
  rewrite Ho. reflexivity.
Qed.

(** [[CanPut]] for an own named data property is its writable flag. *)
Lemma can_put_own_data_property (fuel : nat) (h : ecma_heap) obj_p pr ext ty b l name p v w e c :
  heap_objects h !! obj_p = Some (ecma_object (header_object pr ext ty b) l) →
  find_named_property_in h l name = Ok (Some p) →
  heap_properties h !! p = Some (ECMA_PROPERTY_NAMEDDATA name v w e c) →
  ecma_op_general_object_can_put fuel h obj_p name = Ok w.
Proof.
  intros Ho Hf Hp. unfold ecma_op_general_object_can_put, ecma_op_object_get_own_property.
  rewrite (assert_general_object_ok _ _ _ _ _ _ _ Ho). cbn.
  rewrite (get_own_property_owned _ _ _ _ _ _ _ _ Ho), Hf. cbn.
  unfold property_type, ecma_is_property_writable, heap_get_property. rewrite Hp. reflexivity.
Qed.

(** [[Put]] on an own named data property that is writable: the value is
    compared with the current one by SameValue; when they are the same the
    heap is left as it is, otherwise the value of the node is replaced and the
    attributes are kept.  [[Get]] returns the current value in the first case
    and the new value in the second. *)
Theorem put_own_writable_data_property
    (fuel : nat) (h : ecma_heap) (obj_p : ecma_object_ptr_t) pr ext ty b l
    (name : string) (p : ecma_property_ptr_t) (v0 v : ecma_value_t) (e c is_throw : bool) :
  heap_objects h !! obj_p = Some (ecma_object (header_object pr ext ty b) l) →
  find_named_property_in h l name = Ok (Some p) →
  heap_properties h !! p = Some (ECMA_PROPERTY_NAMEDDATA name v0 true e c) →
  ∃ same : bool,
    ecma_op_same_value v v0 = Ok same
    ∧ let h1 := if same then h
                else heap_set_property h p (ECMA_PROPERTY_NAMEDDATA name v true e c) in
      ecma_op_general_object_put (S fuel) h obj_p name v is_throw
      = Ok (ecma_make_simple_completion_value ECMA_SIMPLE_VALUE_TRUE, h1)
      ∧ ecma_op_general_object_get (S fuel) h1 obj_p name
        = Ok (ecma_make_normal_completion_value (if same then v0 else v), h1).
Proof.
  intros Ho Hf Hp.
  destruct (same_value_total v v0) as [same Hsame]. exists same. split; [exact Hsame|].
  cbn zeta. split.
  - unfold ecma_op_general_object_put, ecma_op_object_can_put, ecma_op_object_get_own_property.
    rewrite (assert_general_object_ok _ _ _ _ _ _ _ Ho). cbn [mbind result_bind].
    rewrite (can_put_own_data_property _ _ _ _ _ _ _ _ _ _ _ _ _ _ Ho Hf Hp).
    cbn [mbind result_bind negb].
    rewrite (get_own_property_owned _ _ _ _ _ _ _ _ Ho), Hf. cbn [mbind result_bind].
    assert (Hty : property_type h p = Ok ECMA_PROPERTY_TYPE_NAMEDDATA)
      by (unfold property_type, heap_get_property; rewrite Hp; reflexivity).
    rewrite Hty. cbn [mbind result_bind is_named_data].
    unfold ecma_op_object_define_own_property, ecma_op_general_object_define_own_property,
      ecma_op_object_get_own_property.
    rewrite (assert_general_object_ok _ _ _ _ _ _ _ Ho). cbn [mbind result_bind].
    rewrite (get_own_property_owned _ _ _ _ _ _ _ _ Ho), Hf. cbn [mbind result_bind].
    unfold ecma_get_object_extensible, heap_get_object. rewrite Ho. cbn [mbind result_bind object_header].
    unfold define_own_property_on_current. cbn.
    unfold property_type, ecma_get_named_data_property_value, ecma_is_property_configurable,
      ecma_is_property_writable, heap_get_property.
    rewrite Hp. cbn. rewrite Hsame. cbn.
    destruct same; cbn; [reflexivity|].
    destruct c; cbn;
      unfold ecma_named_data_property_assign_value, heap_get_property; rewrite Hp; reflexivity.
  - destruct same.
    + exact (proj2 (get_own_data_property fuel h obj_p pr ext ty b l name p _ _ _ _ Ho Hf Hp)).
    + apply (get_own_data_property fuel _ obj_p pr ext ty b l name p v true e c).
      * exact Ho.
      * rewrite (find_named_property_in_update h l name p _ _ Hp); [exact Hf|reflexivity].
      * apply lookup_insert_eq.
Qed.

End GeneralObjectMore.

Lemma put_own_writable_data_property_witness :
  ∃ same : bool,
    ecma_op_same_value (ecma_value_string "s") (ecma_value_simple ECMA_SIMPLE_VALUE_TRUE)
    = Ok same
    ∧ let h1 := if same then heap_with_data_property
                else heap_set_property heap_with_data_property 1%positive
                       (ECMA_PROPERTY_NAMEDDATA "p" (ecma_value_string "s") true true true) in
      @ecma_op_general_object_put example_host 1 heap_with_data_property 1%positive "p"
        (ecma_value_string "s") false
      = Ok (ecma_make_simple_completion_value ECMA_SIMPLE_VALUE_TRUE, h1)
      ∧ @ecma_op_general_object_get example_host 1 h1 1%positive "p"
        = Ok (ecma_make_normal_completion_value
                (if same then ecma_value_simple ECMA_SIMPLE_VALUE_TRUE
                 else ecma_value_string "s"), h1).
Proof.
  apply (@put_own_writable_data_property example_host 0 heap_with_data_property 1%positive
           None true ECMA_OBJECT_TYPE_GENERAL false [1%positive] "p" 1%positive
           (ecma_value_simple ECMA_SIMPLE_VALUE_TRUE) (ecma_value_string "s") true true false);
    reflexivity.
Defined.

Section GeneralObjectRejections.
Context `{EcmaHost}.

(** [[DefineOwnProperty]] applied to a property that the object owns. *)
Lemma define_own_property_owned (h : ecma_heap) obj_p pr ext ty b l name p d is_throw :
  heap_objects h !! obj_p = Some (ecma_object (header_object pr ext ty b) l) →
  find_named_property_in h l name = Ok (Some p) →
  ecma_op_general_object_define_own_property h obj_p name d is_throw
  = define_own_property_on_current h obj_p name d is_throw p.
Proof.
  intros Ho Hf.
  unfold ecma_op_general_object_define_own_property, ecma_op_object_get_own_property.
  rewrite (assert_general_object_ok _ _ _ _ _ _ _ Ho). cbn [mbind result_bind].
  rewrite (get_own_property_owned _ _ _ _ _ _ _ _ Ho), Hf. cbn [mbind result_bind].
  unfold ecma_get_object_extensible, heap_get_object. rewrite Ho. reflexivity.
Qed.

(** [[Put]] on an own named data property that is not writable is rejected:
    with the throw flag off the result is false and the heap is unchanged,
    with the throw flag on a TypeError is thrown; the property keeps its
    value. *)
Theorem put_read_only_property_rejected
    (fuel : nat) (h : ecma_heap) (obj_p : ecma_object_ptr_t) pr ext ty b l
    (name : string) (p : ecma_property_ptr_t) (v0 v : ecma_value_t) (e c : bool) :
  heap_objects h !! obj_p = Some (ecma_object (header_object pr ext ty b) l) →
  find_named_property_in h l name = Ok (Some p) →
  heap_properties h !! p = Some (ECMA_PROPERTY_NAMEDDATA name v0 false e c) →
  ecma_op_general_object_put fuel h obj_p name v false
  = Ok (ecma_make_simple_completion_value ECMA_SIMPLE_VALUE_FALSE, h)
  ∧ ecma_op_general_object_put fuel h obj_p name v true
    = Ok (ecma_make_throw_obj_completion_value (ecma_new_standard_error h ECMA_ERROR_TYPE).1,
          (ecma_new_standard_error h ECMA_ERROR_TYPE).2)
  ∧ ecma_op_general_object_get (S fuel) h obj_p name
    = Ok (ecma_make_normal_completion_value v0, h).
Proof.
  intros Ho Hf Hp.
  assert (Hput : ∀ is_throw,
            ecma_op_general_object_put fuel h obj_p name v is_throw
            = if is_throw then
                let '(exception_obj_p, h) := ecma_new_standard_error h ECMA_ERROR_TYPE in
                Ok (ecma_make_throw_obj_completion_value exception_obj_p, h)
              else Ok (ecma_make_simple_completion_value ECMA_SIMPLE_VALUE_FALSE, h)).
  { intros is_throw. unfold ecma_op_general_object_put, ecma_op_object_can_put.
    rewrite (assert_general_object_ok _ _ _ _ _ _ _ Ho). cbn [mbind result_bind].
    rewrite (can_put_own_data_property _ _ _ _ _ _ _ _ _ _ _ _ _ _ Ho Hf Hp). reflexivity. }
  split; [apply (Hput false)|]. split.
  - rewrite (Hput true). destruct (ecma_new_standard_error h ECMA_ERROR_TYPE). reflexivity.
  - exact (proj2 (get_own_data_property fuel h obj_p pr ext ty b l name p _ _ _ _ Ho Hf Hp)).
Qed.

(** [[Delete]] of an own property that is not configurable is rejected: with
    the throw flag off the result is false and the heap is unchanged, with the
    throw flag on a TypeError is thrown; the property is still found. *)
Theorem delete_non_configurable_property_rejected
    (h : ecma_heap) (obj_p : ecma_object_ptr_t) pr ext ty b l
    (name : string) (p : ecma_property_ptr_t) :
  heap_objects h !! obj_p = Some (ecma_object (header_object pr ext ty b) l) →
  find_named_property_in h l name = Ok (Some p) →
  ecma_is_property_configurable h p = Ok false →
  ecma_op_general_object_delete h obj_p name false
  = Ok (ecma_make_simple_completion_value ECMA_SIMPLE_VALUE_FALSE, h)
  ∧ ecma_op_general_object_delete h obj_p name true
    = Ok (ecma_make_throw_obj_completion_value (ecma_new_standard_error h ECMA_ERROR_TYPE).1,
          (ecma_new_standard_error h ECMA_ERROR_TYPE).2)
  ∧ ecma_op_general_object_get_own_property h obj_p name = Ok (Some p).
Proof.
  intros Ho Hf Hc.
  assert (Hdel : ∀ is_throw,
            ecma_op_general_object_delete h obj_p name is_throw
            = if is_throw then
                let '(exception_obj_p, h) := ecma_new_standard_error h ECMA_ERROR_TYPE in
                Ok (ecma_make_throw_obj_completion_value exception_obj_p, h)
              else Ok (ecma_make_simple_completion_value ECMA_SIMPLE_VALUE_FALSE, h)).
  { intros is_throw. unfold ecma_op_general_object_delete, ecma_op_object_get_own_property.
    rewrite (assert_general_object_ok _ _ _ _ _ _ _ Ho). cbn [mbind result_bind].
    rewrite (get_own_property_owned _ _ _ _ _ _ _ _ Ho), Hf. cbn [mbind result_bind].
    rewrite Hc. reflexivity. }
  split; [apply (Hdel false)|]. split.
  - rewrite (Hdel true). destruct (ecma_new_standard_error h ECMA_ERROR_TYPE). reflexivity.
  - rewrite (get_own_property_owned _ _ _ _ _ _ _ _ Ho). exact Hf.
Qed.

(** An object that is not extensible does not get a new property:
    [[DefineOwnProperty]] for a name that the object does not own is rejected
    whatever the descriptor is, and so is [[Put]] for a name that is found
    neither in the object nor in its prototype chain; with the throw flag
    off the heap is unchanged. *)
Theorem not_extensible_object_gets_no_property
    (fuel : nat) (h : ecma_heap) (obj_p : ecma_object_ptr_t) pr ty b l
    (name : string) (d : ecma_property_descriptor_t) (v : ecma_value_t) (is_throw : bool) :
  heap_objects h !! obj_p = Some (ecma_object (header_object pr false ty b) l) →
  ecma_op_general_object_get_property fuel h obj_p name = Ok None →
  ecma_op_general_object_define_own_property h obj_p name d is_throw
  = Ok (ecma_reject h is_throw)
  ∧ ecma_op_general_object_put fuel h obj_p name v is_throw = Ok (ecma_reject h is_throw)
  ∧ ecma_reject h false = (ecma_make_simple_completion_value ECMA_SIMPLE_VALUE_FALSE, h).
Proof.
  intros Ho Hg.
  destruct (get_property_none_inv _ _ _ _ _ _ _ _ _ Ho Hg) as [Hf _].
  split; [|split; [|reflexivity]].
  - unfold ecma_op_general_object_define_own_property, ecma_op_object_get_own_property.
    rewrite (assert_general_object_ok _ _ _ _ _ _ _ Ho). cbn [mbind result_bind].
    rewrite (get_own_property_owned _ _ _ _ _ _ _ _ Ho), Hf. cbn [mbind result_bind].
    unfold ecma_get_object_extensible, heap_get_object. rewrite Ho. reflexivity.
  - unfold ecma_op_general_object_put, ecma_op_object_can_put.
    rewrite (assert_general_object_ok _ _ _ _ _ _ _ Ho). cbn [mbind result_bind].
    rewrite (can_put_without_property _ _ _ _ _ _ _ _ _ Ho Hg). cbn.
    unfold ecma_reject. destruct is_throw; [|reflexivity].
    destruct (ecma_new_standard_error h ECMA_ERROR_TYPE). reflexivity.
Qed.

End GeneralObjectRejections.

Lemma put_read_only_property_rejected_witness :
  @ecma_op_general_object_put example_host 1 heap_with_frozen_property 1%positive "k"
    (ecma_value_string "s") false
  = Ok (ecma_make_simple_completion_value ECMA_SIMPLE_VALUE_FALSE, heap_with_frozen_property)
  ∧ @ecma_op_general_object_put example_host 1 heap_with_frozen_property 1%positive "k"
      (ecma_value_string "s") true
    = Ok (ecma_make_throw_obj_completion_value
            (@ecma_new_standard_error example_host heap_with_frozen_property ECMA_ERROR_TYPE).1,
          (@ecma_new_standard_error example_host heap_with_frozen_property ECMA_ERROR_TYPE).2)
  ∧ @ecma_op_general_object_get example_host 2 heap_with_frozen_property 1%positive "k"
    = Ok (ecma_make_normal_completion_value (ecma_value_simple ECMA_SIMPLE_VALUE_TRUE),
          heap_with_frozen_property).
Proof.
  apply (@put_read_only_property_rejected example_host 1 heap_with_frozen_property 1%positive
           None false ECMA_OBJECT_TYPE_GENERAL false [1%positive] "k" 1%positive
           (ecma_value_simple ECMA_SIMPLE_VALUE_TRUE) (ecma_value_string "s") true false);
    reflexivity.
Defined.

Lemma delete_non_configurable_property_rejected_witness :
  @ecma_op_general_object_delete example_host heap_with_frozen_property 1%positive "k" false
  = Ok (ecma_make_simple_completion_value ECMA_SIMPLE_VALUE_FALSE, heap_with_frozen_property)
  ∧ @ecma_op_general_object_delete example_host heap_with_frozen_property 1%positive "k" true
    = Ok (ecma_make_throw_obj_completion_value
            (@ecma_new_standard_error example_host heap_with_frozen_property ECMA_ERROR_TYPE).1,
          (@ecma_new_standard_error example_host heap_with_frozen_property ECMA_ERROR_TYPE).2)
  ∧ ecma_op_general_object_get_own_property heap_with_frozen_property 1%positive "k"
    = Ok (Some 1%positive).
Proof.
  apply (@delete_non_configurable_property_rejected example_host heap_with_frozen_property
           1%positive None false ECMA_OBJECT_TYPE_GENERAL false [1%positive] "k" 1%positive);
    reflexivity.
Defined.

Lemma not_extensible_object_gets_no_property_witness :
  @ecma_op_general_object_define_own_property example_host heap_with_frozen_property 1%positive
    "q" accessor_descriptor false
  = Ok (@ecma_reject example_host heap_with_frozen_property false)
  ∧ @ecma_op_general_object_put example_host 1 heap_with_frozen_property 1%positive "q"
      (ecma_value_string "s") false
    = Ok (@ecma_reject example_host heap_with_frozen_property false)
  ∧ @ecma_reject example_host heap_with_frozen_property false
    = (ecma_make_simple_completion_value ECMA_SIMPLE_VALUE_FALSE, heap_with_frozen_property).
Proof.
  apply (@not_extensible_object_gets_no_property example_host 1 heap_with_frozen_property
           1%positive None ECMA_OBJECT_TYPE_GENERAL false [1%positive] "q" accessor_descriptor
           (ecma_value_string "s") false);
    reflexivity.
Defined.

Section DefineOwnPropertyOnData.
Context `{EcmaHost}.

(** [[DefineOwnProperty]] with a descriptor all of whose fields are those of
    the named data property that the object owns (the value is compared by
    SameValue): the result is true and the heap is unchanged. *)
Theorem define_own_property_same_attributes
    (h : ecma_heap) (obj_p : ecma_object_ptr_t) pr ext ty b l (name : string)
    (p : ecma_property_ptr_t) (v : ecma_value_t) (w e c : bool)
    (d : ecma_property_descriptor_t) (is_throw : bool) :
  heap_objects h !! obj_p = Some (ecma_object (header_object pr ext ty b) l) →
  find_named_property_in h l name = Ok (Some p) →
  heap_properties h !! p = Some (ECMA_PROPERTY_NAMEDDATA name v w e c) →
  is_get_defined d = false →
  is_set_defined d = false →
  (is_value_defined d = true → ecma_op_same_value (value d) v = Ok true) →
  (is_writable_defined d = true → is_writable d = w) →
  (is_enumerable_defined d = true → is_enumerable d = e) →
  (is_configurable_defined d = true → is_configurable d = c) →
  ecma_op_general_object_define_own_property h obj_p name d is_throw
  = Ok (ecma_make_simple_completion_value ECMA_SIMPLE_VALUE_TRUE, h).
Proof.
  intros Ho Hf Hp Hg Hs Hv Hw He Hc.
  rewrite (define_own_property_owned _ _ _ _ _ _ _ _ _ _ _ Ho Hf).
  unfold define_own_property_on_current. rewrite Hg, Hs.
  unfold property_type, ecma_get_named_data_property_value, ecma_is_property_writable,
    ecma_is_property_enumerable, ecma_is_property_configurable, heap_get_property.
  rewrite Hp. cbn [mbind result_bind].
  destruct (is_value_defined d); [rewrite (Hv eq_refl)|];
    (destruct (is_writable_defined d); [rewrite (Hw eq_refl)|]);
    (destruct (is_enumerable_defined d); [rewrite (He eq_refl)|]);
    (destruct (is_configurable_defined d); [rewrite (Hc eq_refl)|]);
    cbn; rewrite ?Bool.eqb_reflx; reflexivity.
Qed.

(** A named data property that is neither writable nor configurable does not
    change: whatever the descriptor is (as long as it does not mix the fields
    of a data descriptor with those of an accessor descriptor),
    [[DefineOwnProperty]] either returns true and leaves the heap unchanged
    or is rejected. *)
Theorem define_own_property_frozen_property
    (h : ecma_heap) (obj_p : ecma_object_ptr_t) pr ext ty b l (name : string)
    (p : ecma_property_ptr_t) (v : ecma_value_t) (e : bool)
    (d : ecma_property_descriptor_t) (is_throw : bool) :
  heap_objects h !! obj_p = Some (ecma_object (header_object pr ext ty b) l) →
  find_named_property_in h l name = Ok (Some p) →
  heap_properties h !! p = Some (ECMA_PROPERTY_NAMEDDATA name v false e false) →
  (is_value_defined d || is_writable_defined d) && (is_get_defined d || is_set_defined d)
  = false →
  ecma_op_general_object_define_own_property h obj_p name d is_throw
  = Ok (ecma_make_simple_completion_value ECMA_SIMPLE_VALUE_TRUE, h)
  ∨ ecma_op_general_object_define_own_property h obj_p name d is_throw
    = Ok (ecma_reject h is_throw).
Proof.
  intros Ho Hf Hp Hd.
  rewrite (define_own_property_owned _ _ _ _ _ _ _ _ _ _ _ Ho Hf).
  unfold define_own_property_on_current.
  unfold property_type, ecma_get_named_data_property_value, ecma_is_property_writable,
    ecma_is_property_enumerable, ecma_is_property_configurable, heap_get_property.
  rewrite Hp. cbn [mbind result_bind is_named_data is_named_accessor negb orb andb JERRY_ASSERT].
  destruct (same_value_total (value d) v) as [same Hsame]. rewrite ?Hsame.
  cbn [mbind result_bind].
  repeat (rewrite !if_Ok; cbn [mbind result_bind]).
  match goal with
  | |- context [if ?c then Ok (ecma_make_simple_completion_value ECMA_SIMPLE_VALUE_TRUE, h)
                else _] => destruct c
  end; [left; reflexivity|].
  match goal with
  | |- context [if ?c then Ok (ecma_make_simple_completion_value ECMA_SIMPLE_VALUE_TRUE, h)
                else _] => destruct c eqn:Hsame6
  end; [left; reflexivity|].
  destruct (is_configurable d); [right; reflexivity|].
  destruct (is_enumerable_defined d), (is_enumerable d), e;
    cbn -[define_own_property_step_12] in Hsame6 |- *; try (right; reflexivity);
    (destruct (is_get_defined d), (is_set_defined d);
       destruct (is_value_defined d), (is_writable_defined d);
       try discriminate Hd; cbn -[define_own_property_step_12] in Hsame6 |- *;
       try (right; reflexivity);
       destruct (is_writable d), same; cbn -[define_own_property_step_12] in Hsame6 |- *;
       try (right; reflexivity);
       destruct (is_configurable_defined d); discriminate Hsame6).
Qed.

End DefineOwnPropertyOnData.

Lemma define_own_property_same_attributes_witness :
  @ecma_op_general_object_define_own_property example_host heap_with_data_property 1%positive
    "p" data_descriptor_all_true true
  = Ok (ecma_make_simple_completion_value ECMA_SIMPLE_VALUE_TRUE, heap_with_data_property).
Proof.
  apply (@define_own_property_same_attributes example_host heap_with_data_property 1%positive
           None true ECMA_OBJECT_TYPE_GENERAL false [1%positive] "p" 1%positive
           (ecma_value_simple ECMA_SIMPLE_VALUE_TRUE) true true true
           data_descriptor_all_true true);
    try reflexivity; intros _; reflexivity.
Defined.

Lemma define_own_property_frozen_property_witness :
  @ecma_op_general_object_define_own_property example_host heap_with_frozen_property 1%positive
    "k" data_descriptor_all_true false
  = Ok (ecma_make_simple_completion_value ECMA_SIMPLE_VALUE_TRUE, heap_with_frozen_property)
  ∨ @ecma_op_general_object_define_own_property example_host heap_with_frozen_property
      1%positive "k" data_descriptor_all_true false
    = Ok (@ecma_reject example_host heap_with_frozen_property false).
Proof.
  apply (@define_own_property_frozen_property example_host heap_with_frozen_property 1%positive
           None false ECMA_OBJECT_TYPE_GENERAL false [1%positive] "k" 1%positive
           (ecma_value_simple ECMA_SIMPLE_VALUE_TRUE) true data_descriptor_all_true false);
    reflexivity.
Defined.

Section InheritedProperties.
Context `{EcmaHost}.

(** [[GetProperty]] and [[Get]] of a named data property owned by the
    prototype of an object that does not own the name. *)
Lemma get_inherited_data_property (fuel : nat) (h : ecma_heap) obj_p proto_p ext ty b l
    pr2 ext2 ty2 b2 l2 name q v w e c :
  heap_objects h !! obj_p = Some (ecma_object (header_object (Some proto_p) ext ty b) l) →
  find_named_property_in h l name = Ok None →
  heap_objects h !! proto_p = Some (ecma_object (header_object pr2 ext2 ty2 b2) l2) →
  find_named_property_in h l2 name = Ok (Some q) →
  heap_properties h !! q = Some (ECMA_PROPERTY_NAMEDDATA name v w e c) →
  ecma_op_general_object_get_property (S (S fuel)) h obj_p name = Ok (Some q)
  ∧ ecma_op_general_object_get (S (S fuel)) h obj_p name
    = Ok (ecma_make_normal_completion_value v, h)
  ∧ ecma_op_general_object_can_put (S fuel) h obj_p name = Ok (if negb ext then false else w).
Proof.
  intros Ho Hf Ho2 Hf2 Hq.
  destruct (get_own_data_property fuel h proto_p pr2 ext2 ty2 b2 l2 name q v w e c Ho2 Hf2 Hq)
    as [Hgp2 _].
  assert (Hgp : ecma_op_general_object_get_property (S (S fuel)) h obj_p name = Ok (Some q)).
  { cbn [ecma_op_general_object_get_property].
    rewrite (assert_general_object_ok _ _ _ _ _ _ _ Ho). cbn [mbind result_bind].
    unfold ecma_op_object_get_own_property.
    rewrite (get_own_property_owned _ _ _ _ _ _ _ _ Ho), Hf. cbn [mbind result_bind].
    unfold ecma_get_object_prototype, heap_get_object. rewrite Ho. cbn [mbind result_bind object_header].
    exact Hgp2. }
  split; [exact Hgp|]. split.
  - unfold ecma_op_general_object_get, ecma_op_object_get_property.
    rewrite (assert_general_object_ok _ _ _ _ _ _ _ Ho), Hgp. cbn [mbind result_bind].
    unfold property_type, ecma_get_named_data_property_value, heap_get_property.
    rewrite Hq. reflexivity.
  - unfold ecma_op_general_object_can_put, ecma_op_object_get_own_property,
      ecma_op_object_get_property.
    rewrite (assert_general_object_ok _ _ _ _ _ _ _ Ho). cbn [mbind result_bind].
    rewrite (get_own_property_owned _ _ _ _ _ _ _ _ Ho), Hf. cbn [mbind result_bind].
    unfold ecma_get_object_prototype, heap_get_object. rewrite Ho. cbn [mbind result_bind object_header].
    rewrite Hgp2. cbn [mbind result_bind].
    unfold property_type, ecma_get_object_extensible, ecma_is_property_writable,
      heap_get_object, heap_get_property.
    rewrite Hq, Ho. cbn. destruct ext; reflexivity.
Qed.

(** [[Put]] for a name that the object does not own and that its prototype
    owns as a named data property.  Before the [[Put]], [[Get]] on the object
    gives the inherited value.  When the object is extensible and the
    inherited property is writable, [[Put]] creates an own data property of
    the object with all attributes true: [[Get]] on the object gives the new
    value and [[Get]] on the prototype still gives the old one.  When the
    object is not extensible, or the inherited property is not writable,
    [[Put]] is rejected: with the throw flag off the result is false and the
    heap is unchanged, with the throw flag on a TypeError is thrown. *)
Theorem put_over_inherited_data_property
    (fuel : nat) (h : ecma_heap) (obj_p proto_p : ecma_object_ptr_t) (ext : bool) ty b l
    pr2 ext2 ty2 b2 l2 (name : string) (q : ecma_property_ptr_t)
    (v0 v : ecma_value_t) (w e c is_throw : bool) :
  heap_objects h !! obj_p = Some (ecma_object (header_object (Some proto_p) ext ty b) l) →
  find_named_property_in h l name = Ok None →
  heap_objects h !! proto_p = Some (ecma_object (header_object pr2 ext2 ty2 b2) l2) →
  find_named_property_in h l2 name = Ok (Some q) →
  heap_properties h !! q = Some (ECMA_PROPERTY_NAMEDDATA name v0 w e c) →
  ecma_op_general_object_get (S (S fuel)) h obj_p name
  = Ok (ecma_make_normal_completion_value v0, h)
  ∧ if ext && w then
      ∃ h1,
        ecma_op_general_object_put (S (S fuel)) h obj_p name v is_throw
        = Ok (ecma_make_simple_completion_value ECMA_SIMPLE_VALUE_TRUE, h1)
        ∧ own_data_property h1 obj_p name v true true true
        ∧ ecma_op_general_object_get (S (S fuel)) h1 obj_p name
          = Ok (ecma_make_normal_completion_value v, h1)
        ∧ ecma_op_general_object_get (S fuel) h1 proto_p name
          = Ok (ecma_make_normal_completion_value v0, h1)
    else
      ecma_op_general_object_put (S (S fuel)) h obj_p name v is_throw
      = Ok (ecma_reject h is_throw).
Proof.
  intros Ho Hf Ho2 Hf2 Hq.
  destruct (get_inherited_data_property fuel h obj_p proto_p ext ty b l pr2 ext2 ty2 b2 l2
              name q v0 w e c Ho Hf Ho2 Hf2 Hq) as (Hgp & Hget & _).
  destruct (get_inherited_data_property (S fuel) h obj_p proto_p ext ty b l pr2 ext2 ty2 b2 l2
              name q v0 w e c Ho Hf Ho2 Hf2 Hq) as (_ & _ & Hcan).
  split; [exact Hget|].
  pose proof (assert_general_object_ok _ _ _ _ _ _ _ Ho) as Hgen.
  assert (Hcan' : ecma_op_general_object_can_put (S (S fuel)) h obj_p name = Ok (ext && w))
    by (rewrite Hcan; destruct ext; reflexivity).
  clear Hcan. rename Hcan' into Hcan.
  destruct (ext && w) eqn:Hew.
  - apply andb_prop in Hew as [-> ->].
    set (d := set_configurable
                (set_enumerable
                   (set_writable
                      (with_value (with_is_value_defined ecma_make_empty_property_descriptor true)
                         v) true) true) true).
    pose proof (find_named_property_in_none_live _ _ _ Hf) as Hl.
    pose proof (define_own_property_creates_data h obj_p (Some proto_p) ty b l name d is_throw
                  Ho Hf eq_refl) as Hdef.
    cbn zeta in Hdef.
    set (p := fresh (dom (heap_properties h))) in *.
    set (node := ECMA_PROPERTY_NAMEDDATA name v true true true).
    change (ECMA_PROPERTY_NAMEDDATA name (value d) (is_writable d) (is_enumerable d)
              (is_configurable d)) with node in Hdef.
    set (h1 := mk_heap _ _) in Hdef.
    assert (Hne : proto_p ≠ obj_p).
    { intros ->. rewrite Ho in Ho2. injection Ho2 as _ _ _ _ ->. congruence. }
    assert (Ho1 : heap_objects h1 !! obj_p
                  = Some (ecma_object (header_object (Some proto_p) true ty b) (p :: l)))
      by apply lookup_insert_eq.
    assert (Hp1 : heap_properties h1 !! p = Some node) by apply lookup_insert_eq.
    assert (Hf1 : find_named_property_in h1 (p :: l) name = Ok (Some p)).
    { rewrite (find_named_property_in_linked h h1 l p node name);
        [|apply fresh_property_unused|exact Hl|reflexivity].
      cbn. rewrite String.eqb_refl. reflexivity. }
    assert (Hsub : ∀ q' n, heap_properties h !! q' = Some n → heap_properties h1 !! q' = Some n).
    { intros q' n Hq'. cbn. rewrite lookup_insert_ne; [exact Hq'|].
      intros Heq. subst q'. unfold p in Hq'. rewrite fresh_property_unused in Hq'.
      discriminate. }
    exists h1. split; [|split; [|split]].
    + unfold ecma_op_general_object_put, ecma_op_object_can_put, ecma_op_object_get_own_property,
        ecma_op_object_get_property.
      rewrite Hgen. cbn [mbind result_bind]. rewrite Hcan. cbn [mbind result_bind negb].
      rewrite (get_own_property_owned _ _ _ _ _ _ _ _ Ho), Hf. cbn [mbind result_bind].
      rewrite Hgp. cbn [mbind result_bind].
      unfold property_type, heap_get_property. rewrite Hq. cbn [mbind result_bind is_named_accessor].
      unfold ecma_op_object_define_own_property. fold d. exact Hdef.
    + exists p. split; [|exact Hp1].
      unfold ecma_find_named_property, ecma_get_property_list, heap_get_object.
      rewrite Ho1. exact Hf1.
    + exact (proj2 (get_own_data_property (S fuel) h1 obj_p _ _ _ _ _ name p _ _ _ _
                      Ho1 Hf1 Hp1)).
    + apply (get_own_data_property fuel h1 proto_p pr2 ext2 ty2 b2 l2 name q v0 true e c).
      * cbn. rewrite lookup_insert_ne by congruence. exact Ho2.
      * exact (find_named_property_in_mono h h1 l2 name _ Hsub Hf2).
      * exact (Hsub _ _ Hq).
  - unfold ecma_op_general_object_put, ecma_op_object_can_put.
    rewrite Hgen. cbn [mbind result_bind]. rewrite Hcan. cbn.
    unfold ecma_reject. destruct is_throw; [|reflexivity].
    destruct (ecma_new_standard_error h ECMA_ERROR_TYPE). reflexivity.
Qed.

End InheritedProperties.

Lemma put_over_inherited_data_property_witness :
  @ecma_op_general_object_get example_host 2 heap_with_prototype 1%positive "y"
  = Ok (ecma_make_normal_completion_value (ecma_value_string "inherited"), heap_with_prototype)
  ∧ ∃ h1,
      @ecma_op_general_object_put example_host 2 heap_with_prototype 1%positive "y"
        (ecma_value_string "own") false
      = Ok (ecma_make_simple_completion_value ECMA_SIMPLE_VALUE_TRUE, h1)
      ∧ own_data_property h1 1%positive "y" (ecma_value_string "own") true true true
      ∧ @ecma_op_general_object_get example_host 2 h1 1%positive "y"
        = Ok (ecma_make_normal_completion_value (ecma_value_string "own"), h1)
      ∧ @ecma_op_general_object_get example_host 1 h1 2%positive "y"
        = Ok (ecma_make_normal_completion_value (ecma_value_string "inherited"), h1).
Proof.
  apply (@put_over_inherited_data_property example_host 0 heap_with_prototype 1%positive
           2%positive true ECMA_OBJECT_TYPE_GENERAL false [] None true ECMA_OBJECT_TYPE_GENERAL false
           [1%positive; 2%positive] "y" 1%positive (ecma_value_string "inherited")
           (ecma_value_string "own") true true true false);
    reflexivity.
Defined.

(** ** Conversions *)

(** SameValue is reflexive on the values of the language: undefined, null,
    booleans, numbers (NaN included, and each of the two zeros), strings and
    objects. *)
Theorem same_value_reflexive (v : ecma_value_t) :
  ecma_value_type_is_spec_defined v = true →
  ecma_op_same_value v v = Ok true.
Proof.
  intros Hv. destruct v as [[]|num|str|obj_p]; try discriminate Hv; try reflexivity.
  - unfold ecma_op_same_value. cbn. unfold PrimFloat.is_nan.
    destruct (PrimFloat.eqb num num) eqn:Heq; cbn; [|reflexivity].
    rewrite Bool.eqb_reflx. cbn. rewrite andb_false_r. reflexivity.
  - unfold ecma_op_same_value. cbn. rewrite String.eqb_refl. reflexivity.
  - unfold ecma_op_same_value. cbn. rewrite Pos.eqb_refl. reflexivity.
Qed.

Lemma same_value_reflexive_witness :
  ecma_op_same_value (ecma_value_number nan) (ecma_value_number nan) = Ok true.
Proof. apply (same_value_reflexive (ecma_value_number nan)). reflexivity. Defined.

(** ToBoolean of a value of one of the types of the language (undefined,
    null, boolean, number, string, object) completes normally with a boolean,
    and ToBoolean of that boolean gives the same completion; for the empty
    marker and for an array hole the check of the type of the argument
    fails. *)
Theorem to_boolean_idempotent (v : ecma_value_t) :
  if ecma_value_type_is_spec_defined v then
    ∃ c,
      ecma_op_to_boolean v = Ok c
      ∧ ecma_is_completion_value_normal c = true
      ∧ ecma_is_value_boolean (completion_value c) = true
      ∧ ecma_op_to_boolean (completion_value c) = Ok c
  else
    ecma_op_to_boolean v
    = Fatal (assertion_failed
               "ecma_is_value_undefined (value) || ecma_is_value_null (value) || ecma_is_value_boolean (value) || ecma_is_value_number (value) || ecma_is_value_string (value) || ecma_is_value_object (value)").
Proof.
  destruct (ecma_value_type_is_spec_defined v) eqn:Hv.
  - assert (Hb : ∃ b : bool,
              ecma_op_to_boolean v
              = Ok (ecma_make_simple_completion_value
                      (if b then ECMA_SIMPLE_VALUE_TRUE else ECMA_SIMPLE_VALUE_FALSE))).
    { unfold ecma_op_to_boolean, ecma_check_value_type_is_spec_defined. rewrite Hv.
      cbn [JERRY_ASSERT mbind result_bind].
      destruct v as [[]|num|str|obj_p]; try discriminate Hv; cbn;
        try (exists true; reflexivity); try (exists false; reflexivity).
      - destruct (_ || _); [exists false|exists true]; reflexivity.
      - destruct (_ =? _)%nat; [exists false|exists true]; reflexivity. }
    destruct Hb as [b Hb]. eexists. split; [exact Hb|].
    destruct b; repeat split; reflexivity.
  - unfold ecma_op_to_boolean, ecma_check_value_type_is_spec_defined. rewrite Hv. reflexivity.
Qed.

Section ToPrimitive.
Context `{EcmaHost}.

(** A normal completion of the loop of [[DefaultValue]] carries a value that
    is not an object (and not the empty marker). *)
Lemma default_value_loop_primitive (fuel : nat) obj_p hint (count i : nat) (h : ecma_heap) c h' :
  default_value_loop fuel h obj_p hint i count = Ok (c, h') →
  ecma_is_completion_value_normal c = true →
  ecma_is_value_object (completion_value c) = false
  ∧ ecma_is_value_empty (completion_value c) = false.
Proof.
  revert i h. induction count as [|count IH]; intros i h Hloop Hnormal.
  - cbn in Hloop. destruct (ecma_new_standard_error h ECMA_ERROR_TYPE) as [exc h0].
    injection Hloop as <- <-. discriminate Hnormal.
  - cbn [default_value_loop] in Hloop.
    destruct (default_value_iteration fuel h obj_p hint i) as [[[ret|[]] h1]|] eqn:Hit;
      cbn in Hloop; [|eauto|discriminate].
    injection Hloop as -> ->.
    unfold default_value_iteration in Hit.
    destruct (ecma_op_object_get _ _ _ _) as [[g h2]|]; [|discriminate]. cbn in Hit.
    destruct (ecma_is_completion_value_normal g) eqn:Hg; cbn in Hit;
      [|injection Hit as <- <-; congruence].
    destruct (if ecma_op_is_callable h2 (completion_value g)
              then ecma_get_object_from_value (completion_value g)
                   ≫= λ func_obj_p, ecma_op_function_call h2 func_obj_p (ecma_value_object obj_p) []
              else Ok (ecma_make_empty_completion_value, h2)) as [[r h3]|]; [|discriminate].
    cbn in Hit.
    destruct (ecma_is_completion_value_normal r) eqn:Hr; cbn in Hit;
      [|injection Hit as <- <-; congruence].
    destruct (negb (ecma_is_completion_value_empty r)
              && negb (ecma_is_value_object (completion_value r))) eqn:Hres;
      [|discriminate].
    injection Hit as <- <-.
    apply andb_prop in Hres as [Hne Hno]. apply negb_true_iff in Hne, Hno.
    split; [exact Hno|].
    unfold ecma_is_completion_value_empty, ecma_is_completion_value_normal_simple_value in Hne.
    rewrite Hr in Hne. exact Hne.
Qed.


End ToPrimitive.


(** ** Array.isArray *)

Section IsArray.
Context `{EcmaHost}.

(** Array.isArray of an object is true exactly when the class of the object
    is "Array"; it is false for every value that is not an object, and for
    the object that the 'Object' constructor creates (whose class is
    "Object"). *)
Theorem is_array_by_class
    (h : ecma_heap) (this_arg : ecma_value_t) (obj_p : ecma_object_ptr_t)
    (class_prop_p : ecma_property_ptr_t) (class : ecma_magic_string_id_t) :
  ecma_get_internal_property h obj_p ECMA_INTERNAL_PROPERTY_CLASS = Ok class_prop_p →
  internal_property_value h class_prop_p = Ok (internal_magic_string class) →
  (∃ is_array,
     ecma_builtin_array_object_is_array h this_arg (ecma_value_object obj_p)
     = Ok (ecma_make_simple_completion_value is_array)
     ∧ (is_array = ECMA_SIMPLE_VALUE_FALSE ∨ is_array = ECMA_SIMPLE_VALUE_TRUE)
     ∧ (is_array = ECMA_SIMPLE_VALUE_TRUE ↔ class = ECMA_MAGIC_STRING_ARRAY_UL))
  ∧ (∀ s, ecma_builtin_array_object_is_array h this_arg (ecma_value_simple s)
          = Ok (ecma_make_simple_completion_value ECMA_SIMPLE_VALUE_FALSE))
  ∧ (∀ num, ecma_builtin_array_object_is_array h this_arg (ecma_value_number num)
            = Ok (ecma_make_simple_completion_value ECMA_SIMPLE_VALUE_FALSE))
  ∧ (∀ str, ecma_builtin_array_object_is_array h this_arg (ecma_value_string str)
            = Ok (ecma_make_simple_completion_value ECMA_SIMPLE_VALUE_FALSE))
  ∧ ∃ new_obj_p h',
      ecma_op_create_object_object_noarg h = Ok (new_obj_p, h')
      ∧ ecma_builtin_array_object_is_array h' this_arg (ecma_value_object new_obj_p)
        = Ok (ecma_make_simple_completion_value ECMA_SIMPLE_VALUE_FALSE).
Proof.
  intros Hc Hv. split; [|split; [|split; [|split]]]; try reflexivity.
  - unfold ecma_builtin_array_object_is_array. cbn. rewrite Hc. cbn. rewrite Hv. cbn.
    destruct class; eexists; (split; [reflexivity|]); (split; [auto|]);
      split; intros; congruence.
  - destruct (create_object_object_noarg_owns h)
      as (new_obj_p & h' & pr & pc & Hnew & [Ho _] & Hpc).
    exists new_obj_p, h'. split; [exact Hnew|].
    unfold ecma_builtin_array_object_is_array, ecma_get_internal_property,
      ecma_find_internal_property, ecma_get_property_list, internal_property_value,
      heap_get_object, heap_get_property.
    cbn. rewrite Ho. cbn. unfold heap_get_property. rewrite Hpc. cbn. rewrite Hpc. reflexivity.
Qed.

End IsArray.

Lemma is_array_by_class_witness :
  (∃ is_array,
     ecma_builtin_array_object_is_array heap_with_array
       (ecma_value_simple ECMA_SIMPLE_VALUE_UNDEFINED) (ecma_value_object 1%positive)
     = Ok (ecma_make_simple_completion_value is_array)
     ∧ (is_array = ECMA_SIMPLE_VALUE_FALSE ∨ is_array = ECMA_SIMPLE_VALUE_TRUE)
     ∧ (is_array = ECMA_SIMPLE_VALUE_TRUE ↔ ECMA_MAGIC_STRING_ARRAY_UL = ECMA_MAGIC_STRING_ARRAY_UL))
  ∧ (∀ s, ecma_builtin_array_object_is_array heap_with_array
            (ecma_value_simple ECMA_SIMPLE_VALUE_UNDEFINED) (ecma_value_simple s)
          = Ok (ecma_make_simple_completion_value ECMA_SIMPLE_VALUE_FALSE))
  ∧ (∀ num, ecma_builtin_array_object_is_array heap_with_array
              (ecma_value_simple ECMA_SIMPLE_VALUE_UNDEFINED) (ecma_value_number num)
            = Ok (ecma_make_simple_completion_value ECMA_SIMPLE_VALUE_FALSE))
  ∧ (∀ str, ecma_builtin_array_object_is_array heap_with_array
              (ecma_value_simple ECMA_SIMPLE_VALUE_UNDEFINED) (ecma_value_string str)
            = Ok (ecma_make_simple_completion_value ECMA_SIMPLE_VALUE_FALSE))
  ∧ ∃ new_obj_p h',
      @ecma_op_create_object_object_noarg example_host heap_with_array = Ok (new_obj_p, h')
      ∧ ecma_builtin_array_object_is_array h'
          (ecma_value_simple ECMA_SIMPLE_VALUE_UNDEFINED) (ecma_value_object new_obj_p)
        = Ok (ecma_make_simple_completion_value ECMA_SIMPLE_VALUE_FALSE).
Proof.
  apply (@is_array_by_class example_host heap_with_array
           (ecma_value_simple ECMA_SIMPLE_VALUE_UNDEFINED) 1%positive 1%positive
           ECMA_MAGIC_STRING_ARRAY_UL);
    reflexivity.
Defined.

(** ** FromPropertyDescriptor followed by ToPropertyDescriptor *)

Section DescriptorRoundTrip.
Context `{EcmaHost}.

(** A search along the prototype chain that finds nothing finds nothing in
    every heap that has the objects and the nodes of this one. *)
Lemma get_property_none_frame (fuel : nat) (h h' : ecma_heap) obj_p name :
  (∀ o ob, heap_objects h !! o = Some ob → heap_objects h' !! o = Some ob) →
  (∀ q n, heap_properties h !! q = Some n → heap_properties h' !! q = Some n) →
  ecma_op_general_object_get_property fuel h obj_p name = Ok None →
  ecma_op_general_object_get_property fuel h' obj_p name = Ok None.
Proof.
  intros Hobj Hprop. revert obj_p. induction fuel as [|fuel IH]; intros obj_p Hg; [discriminate|].
  cbn [ecma_op_general_object_get_property] in Hg |- *.
  unfold ecma_op_object_get_own_property, ecma_op_general_object_get_own_property,
    assert_general_object, ecma_is_lexical_environment, ecma_find_named_property,
    ecma_get_property_list, ecma_get_object_prototype, heap_get_object in Hg |- *.
  destruct (heap_objects h !! obj_p) as [[hdr l]|] eqn:Ho; [|discriminate].
  rewrite (Hobj _ _ Ho). cbn in Hg |- *.
  destruct hdr as [pr ext ty b| |]; cbn in Hg |- *; try discriminate.
  destruct (find_named_property_in h l name) as [[q|]|] eqn:Hf; try discriminate.
  rewrite (find_named_property_in_mono h h' l name None Hprop Hf). cbn in Hg |- *.
  destruct pr as [proto_p|]; [apply IH; exact Hg|reflexivity].
Qed.

Lemma define_own_property_normal_true_frame (h : ecma_heap) obj_p pr ty b l id d :
  owns h obj_p (header_object pr true ty b) l →
  find_named_property_in h l (ecma_get_magic_string id) = Ok None →
  is_value_defined d || is_writable_defined d = true →
  ∃ p h',
    define_own_property_normal_true h obj_p id d = Ok h'
    ∧ owns h' obj_p (header_object pr true ty b) (p :: l)
    ∧ heap_properties h' !! p
      = Some (ECMA_PROPERTY_NAMEDDATA (ecma_get_magic_string id) (value d) (is_writable d)
                (is_enumerable d) (is_configurable d))
    ∧ (∀ q n, heap_properties h !! q = Some n → heap_properties h' !! q = Some n)
    ∧ (∀ name', find_named_property_in h' (p :: l) name'
                = if String.eqb (ecma_get_magic_string id) name' then Ok (Some p)
                  else find_named_property_in h l name')
    ∧ (∀ o ob, o ≠ obj_p → heap_objects h !! o = Some ob → heap_objects h' !! o = Some ob).
Proof.
  intros [Ho Hl] Hf Hd.
  pose proof (define_own_property_creates_data h obj_p pr ty b l _ d false Ho Hf) as Hdef.
  cbn zeta in Hdef. rewrite Hd, orb_true_r in Hdef. specialize (Hdef eq_refl).
  set (p := fresh (dom (heap_properties h))) in *.
  set (node := ECMA_PROPERTY_NAMEDDATA (ecma_get_magic_string id) (value d) (is_writable d)
                 (is_enumerable d) (is_configurable d)) in *.
  set (h' := mk_heap _ _) in Hdef.
  assert (Hsub : ∀ q n, heap_properties h !! q = Some n → heap_properties h' !! q = Some n).
  { intros q n Hq. cbn. rewrite lookup_insert_ne; [exact Hq|].
    intros Heq. subst q. unfold p in Hq. rewrite fresh_property_unused in Hq. discriminate. }
  exists p, h'. split; [|split; [|split; [|split; [|split]]]].
  - unfold define_own_property_normal_true, ecma_op_object_define_own_property.
    rewrite Hdef. reflexivity.
  - split; [apply lookup_insert_eq|].
    constructor; [cbn; rewrite lookup_insert_eq; eauto|].
    eapply live_frame; [exact Hl|exact Hsub].
  - apply lookup_insert_eq.
  - exact Hsub.
  - intros name'.
    rewrite (find_named_property_in_linked h h' l p node name');
      [reflexivity|apply fresh_property_unused|exact Hl|reflexivity].
  - intros o ob Hne Hob. cbn. rewrite lookup_insert_ne by congruence. exact Hob.
Qed.

(** One boolean attribute of ToPropertyDescriptor, for an attribute that the
    object owns as a data property with a boolean value. *)
Lemma to_property_descriptor_boolean_own (fuel : nat) (h : ecma_heap) obj_p pr ext ty b l id p
    (bv w e c : bool) set_attr prop_desc :
  heap_objects h !! obj_p = Some (ecma_object (header_object pr ext ty b) l) →
  find_named_property_in h l (ecma_get_magic_string id) = Ok (Some p) →
  heap_properties h !! p
  = Some (ECMA_PROPERTY_NAMEDDATA (ecma_get_magic_string id) (ecma_value_of_bool bv) w e c) →
  to_property_descriptor_boolean (S fuel) obj_p id set_attr
    (ecma_make_empty_completion_value, prop_desc, h)
  = Ok (ecma_make_empty_completion_value, set_attr prop_desc bv, h).
Proof.
  intros Ho Hf Hp.
  destruct (get_own_data_property fuel h obj_p pr ext ty b l _ p _ _ _ _ Ho Hf Hp) as [Hgp Hget].
  unfold to_property_descriptor_boolean, ecma_op_object_get_property, ecma_op_object_get.
  cbn [ecma_is_completion_value_throw ecma_make_empty_completion_value
         ecma_make_simple_completion_value ecma_make_normal_completion_value completion_type].
  cbn [mbind result_bind JERRY_ASSERT]. rewrite Hgp. cbn [mbind result_bind].
  rewrite Hget. destruct bv; reflexivity.
Qed.

Lemma to_property_descriptor_value_own (fuel : nat) (h : ecma_heap) obj_p pr ext ty b l p
    v w e c prop_desc :
  heap_objects h !! obj_p = Some (ecma_object (header_object pr ext ty b) l) →
  find_named_property_in h l "value" = Ok (Some p) →
  heap_properties h !! p = Some (ECMA_PROPERTY_NAMEDDATA "value" v w e c) →
  to_property_descriptor_value (S fuel) obj_p (ecma_make_empty_completion_value, prop_desc, h)
  = Ok (ecma_make_empty_completion_value,
        with_value (with_is_value_defined prop_desc true) v, h).
Proof.
  intros Ho Hf Hp.
  destruct (get_own_data_property fuel h obj_p pr ext ty b l _ p _ _ _ _ Ho Hf Hp) as [Hgp Hget].
  unfold to_property_descriptor_value, ecma_op_object_get_property, ecma_op_object_get.
  cbn [ecma_is_completion_value_throw ecma_make_empty_completion_value
         ecma_make_simple_completion_value ecma_make_normal_completion_value completion_type].
  cbn [mbind result_bind JERRY_ASSERT ecma_get_magic_string].
  rewrite Hgp. cbn [mbind result_bind]. rewrite Hget. reflexivity.
Qed.

End DescriptorRoundTrip.

Section DescriptorRoundTripTheorem.
Context `{EcmaHost}.

Lemma create_object_object_noarg_frame (h : ecma_heap) :
  ∃ obj_p h0 pc,
    ecma_op_create_object_object_noarg h = Ok (obj_p, h0)
    ∧ owns h0 obj_p
        (header_object (Some (ecma_builtin_get h ECMA_BUILTIN_ID_OBJECT_PROTOTYPE).1) true
           ECMA_OBJECT_TYPE_GENERAL false) [pc]
    ∧ heap_properties h0 !! pc
      = Some (ECMA_PROPERTY_INTERNAL ECMA_INTERNAL_PROPERTY_CLASS
                (internal_magic_string ECMA_MAGIC_STRING_OBJECT_UL))
    ∧ heap_objects (ecma_builtin_get h ECMA_BUILTIN_ID_OBJECT_PROTOTYPE).2 !! obj_p = None
    ∧ (∀ o ob, heap_objects (ecma_builtin_get h ECMA_BUILTIN_ID_OBJECT_PROTOTYPE).2 !! o = Some ob →
               heap_objects h0 !! o = Some ob)
    ∧ (∀ q n, heap_properties (ecma_builtin_get h ECMA_BUILTIN_ID_OBJECT_PROTOTYPE).2 !! q = Some n →
              heap_properties h0 !! q = Some n).
Proof.
  unfold ecma_op_create_object_object_noarg.
  destruct (ecma_builtin_get h ECMA_BUILTIN_ID_OBJECT_PROTOTYPE) as [pr hb]. cbn [fst snd].
  unfold ecma_create_object, ecma_create_internal_property, ecma_find_internal_property,
    ecma_get_property_list, link_new_property, heap_get_object, heap_set_object. cbn.
  rewrite (lookup_insert_eq (heap_objects hb)). cbn.
  unfold ecma_set_internal_property_value, heap_get_property, heap_set_property. cbn.
  rewrite (lookup_insert_eq (heap_properties hb)). cbn.
  eexists _, _, (fresh (dom (heap_properties hb))). split; [reflexivity|].
  split; [|split; [|split; [|split]]]; cbn.
  - split; cbn; [apply lookup_insert_eq|].
    constructor; [|constructor]. cbn. rewrite lookup_insert_eq. eauto.
  - apply lookup_insert_eq.
  - apply fresh_object_unused.
  - intros o ob Hob. rewrite insert_insert_eq, lookup_insert_ne; [exact Hob|].
    intros Heq. subst o. rewrite fresh_object_unused in Hob. discriminate.
  - intros q n Hq. rewrite insert_insert_eq, lookup_insert_ne; [exact Hq|].
    intros Heq. subst q. rewrite fresh_property_unused in Hq. discriminate.
Qed.

(** FromPropertyDescriptor followed by ToPropertyDescriptor, when the Object
    prototype has neither a "get" nor a "set" property: the object that
    FromPropertyDescriptor makes of a descriptor is converted back, with the
    empty completion and without a change of the heap, to the data descriptor
    that has the value and the writable, enumerable and configurable
    attributes of the source, all four defined, and neither getter nor
    setter.  For a source that is such a data descriptor, the result is the
    source. *)
Theorem to_property_descriptor_of_from_property_descriptor
    (fuel : nat) (h : ecma_heap) (src_prop_desc_p : ecma_property_descriptor_t) :
  ecma_op_general_object_get_property fuel
    (ecma_builtin_get h ECMA_BUILTIN_ID_OBJECT_PROTOTYPE).2
    (ecma_builtin_get h ECMA_BUILTIN_ID_OBJECT_PROTOTYPE).1 "get" = Ok None →
  ecma_op_general_object_get_property fuel
    (ecma_builtin_get h ECMA_BUILTIN_ID_OBJECT_PROTOTYPE).2
    (ecma_builtin_get h ECMA_BUILTIN_ID_OBJECT_PROTOTYPE).1 "set" = Ok None →
  (∃ obj_p h',
     ecma_op_from_property_descriptor h src_prop_desc_p = Ok (obj_p, h')
     ∧ ecma_op_to_property_descriptor (S fuel) h' (ecma_value_object obj_p)
       = Ok (ecma_make_empty_completion_value, Some (data_descriptor_of src_prop_desc_p), h'))
  ∧ (defined_flags src_prop_desc_p = [true; true; true; true; false; false] →
     get_p src_prop_desc_p = None → set_p src_prop_desc_p = None →
     data_descriptor_of src_prop_desc_p = src_prop_desc_p).
Proof.
  intros Hget Hset. split.
  2: { destruct src_prop_desc_p. unfold data_descriptor_of, defined_flags. cbn.
       intros Hflags -> ->. injection Hflags as -> -> -> -> -> ->. reflexivity. }
  destruct (create_object_object_noarg_frame h)
    as (obj_p & h0 & pc & Hnew & Ho0 & Hpc & Hfresh & Hobj0 & Hprop0).
  set (pr := (ecma_builtin_get h ECMA_BUILTIN_ID_OBJECT_PROTOTYPE).1) in *.
  set (hb := (ecma_builtin_get h ECMA_BUILTIN_ID_OBJECT_PROTOTYPE).2) in *.
  assert (Hf0 : ∀ name, find_named_property_in h0 [pc] name = Ok None).
  { intros name. cbn. unfold heap_get_property. rewrite Hpc. reflexivity. }
  set (d := from_property_descriptor_prop_desc).
  destruct (define_own_property_normal_true_frame h0 obj_p _ _ _ _ ECMA_MAGIC_STRING_VALUE
              (with_value d (value src_prop_desc_p)) Ho0 (Hf0 _) eq_refl)
    as (p1 & h1 & Hd1 & Ho1 & Hp1 & Hs1 & Hf1 & Hobj1).
  destruct (define_own_property_normal_true_frame h1 obj_p _ _ _ _ ECMA_MAGIC_STRING_WRITABLE
              (with_value (with_value d (value src_prop_desc_p))
                 (ecma_value_of_bool (is_writable src_prop_desc_p))) Ho1)
    as (p2 & h2 & Hd2 & Ho2 & Hp2 & Hs2 & Hf2 & Hobj2);
    [rewrite Hf1; cbn; apply Hf0|reflexivity|].
  destruct (define_own_property_normal_true_frame h2 obj_p _ _ _ _ ECMA_MAGIC_STRING_ENUMERABLE
              (with_value (with_value (with_value d (value src_prop_desc_p))
                 (ecma_value_of_bool (is_writable src_prop_desc_p)))
                 (ecma_value_of_bool (is_enumerable src_prop_desc_p))) Ho2)
    as (p3 & h3 & Hd3 & Ho3 & Hp3 & Hs3 & Hf3 & Hobj3);
    [rewrite Hf2, Hf1; cbn; apply Hf0|reflexivity|].
  destruct (define_own_property_normal_true_frame h3 obj_p _ _ _ _ ECMA_MAGIC_STRING_CONFIGURABLE
              (with_value (with_value (with_value (with_value d (value src_prop_desc_p))
                 (ecma_value_of_bool (is_writable src_prop_desc_p)))
                 (ecma_value_of_bool (is_enumerable src_prop_desc_p)))
                 (ecma_value_of_bool (is_configurable src_prop_desc_p))) Ho3)
    as (p4 & h4 & Hd4 & Ho4 & Hp4 & Hs4 & Hf4 & Hobj4);
    [rewrite Hf3, Hf2, Hf1; cbn; apply Hf0|reflexivity|].
  exists obj_p, h4. split.
  { unfold ecma_op_from_property_descriptor. rewrite Hnew. cbn.
    fold d. rewrite Hd1. cbn. rewrite Hd2. cbn. rewrite Hd3. cbn. rewrite Hd4. reflexivity. }
  destruct Ho4 as [Ho4 _].
  assert (Hfind : ∀ name, find_named_property_in h4 [p4; p3; p2; p1; pc] name
                          = if String.eqb "configurable" name then Ok (Some p4)
                            else if String.eqb "enumerable" name then Ok (Some p3)
                            else if String.eqb "writable" name then Ok (Some p2)
                            else if String.eqb "value" name then Ok (Some p1)
                            else Ok None).
  { intros name. rewrite Hf4, Hf3, Hf2, Hf1, Hf0. reflexivity. }
  assert (Hobj : ∀ o ob, heap_objects hb !! o = Some ob → heap_objects h4 !! o = Some ob).
  { intros o ob Hob.
    assert (o ≠ obj_p) by (intros ->; congruence).
    apply Hobj4, Hobj3, Hobj2, Hobj1, Hobj0; assumption. }
  assert (Hprop : ∀ q n, heap_properties hb !! q = Some n → heap_properties h4 !! q = Some n).
  { intros q n Hq. apply Hs4, Hs3, Hs2, Hs1, Hprop0. exact Hq. }
  assert (Habsent : ∀ id, (id = ECMA_MAGIC_STRING_GET ∨ id = ECMA_MAGIC_STRING_SET) →
            ecma_op_object_get_property (S fuel) h4 obj_p (ecma_get_magic_string id) = Ok None).
  { intros id Hid. unfold ecma_op_object_get_property.
    cbn [ecma_op_general_object_get_property].
    rewrite (assert_general_object_ok _ _ _ _ _ _ _ Ho4). cbn [mbind result_bind].
    unfold ecma_op_object_get_own_property.
    rewrite (get_own_property_owned _ _ _ _ _ _ _ _ Ho4), Hfind.
    unfold ecma_get_object_prototype, heap_get_object. rewrite Ho4.
    destruct Hid as [-> | ->]; cbn;
      apply (get_property_none_frame fuel hb h4 pr _ Hobj Hprop); assumption. }
  unfold ecma_op_to_property_descriptor.
  rewrite (to_property_descriptor_boolean_own fuel h4 obj_p _ _ _ _ _
             ECMA_MAGIC_STRING_ENUMERABLE p3 (is_enumerable src_prop_desc_p) true true true
             set_enumerable _ Ho4);
    [|rewrite Hfind; reflexivity|apply Hs4; exact Hp3].
  cbn [mbind result_bind].
  rewrite (to_property_descriptor_boolean_own fuel h4 obj_p _ _ _ _ _
             ECMA_MAGIC_STRING_CONFIGURABLE p4 (is_configurable src_prop_desc_p) true true true
             set_configurable _ Ho4);
    [|rewrite Hfind; reflexivity|exact Hp4].
  cbn [mbind result_bind].
  rewrite (to_property_descriptor_value_own fuel h4 obj_p _ _ _ _ _ p1
             (value src_prop_desc_p) true true true _ Ho4);
    [|rewrite Hfind; reflexivity|apply Hs4, Hs3, Hs2; exact Hp1].
  cbn [mbind result_bind].
  rewrite (to_property_descriptor_boolean_own fuel h4 obj_p _ _ _ _ _
             ECMA_MAGIC_STRING_WRITABLE p2 (is_writable src_prop_desc_p) true true true
             set_writable _ Ho4);
    [|rewrite Hfind; reflexivity|apply Hs4, Hs3; exact Hp2].
  cbn [mbind result_bind].
  rewrite (to_property_descriptor_accessor_absent (S fuel) obj_p ECMA_MAGIC_STRING_GET)
    by (apply Habsent; auto).
  cbn [mbind result_bind].
  rewrite (to_property_descriptor_accessor_absent (S fuel) obj_p ECMA_MAGIC_STRING_SET)
    by (apply Habsent; auto).
  reflexivity.
Qed.

End DescriptorRoundTripTheorem.

Lemma to_property_descriptor_of_from_property_descriptor_witness :
  (∃ obj_p h',
     @ecma_op_from_property_descriptor example_host example_initial_heap accessor_descriptor
     = Ok (obj_p, h')
     ∧ @ecma_op_to_property_descriptor example_host 2 h' (ecma_value_object obj_p)
       = Ok (ecma_make_empty_completion_value, Some (data_descriptor_of accessor_descriptor), h'))
  ∧ (defined_flags accessor_descriptor = [true; true; true; true; false; false] →
     get_p accessor_descriptor = None → set_p accessor_descriptor = None →
     data_descriptor_of accessor_descriptor = accessor_descriptor).
Proof.
  apply (@to_property_descriptor_of_from_property_descriptor example_host 1
           example_initial_heap accessor_descriptor);
    reflexivity.
Defined.

Section NonConfigurableProperty.
Context `{EcmaHost}.

(** Step 12 of [[DefineOwnProperty]] on a named data property, for a
    descriptor without getter and setter. *)
Lemma define_own_property_step_12_data (h : ecma_heap) obj_p p name v w e c d :
  heap_properties h !! p = Some (ECMA_PROPERTY_NAMEDDATA name v w e c) →
  is_get_defined d = false →
  is_set_defined d = false →
  define_own_property_step_12 h obj_p d true false p
  = Ok (ecma_make_simple_completion_value ECMA_SIMPLE_VALUE_TRUE,
        mk_heap (heap_objects h)
          (<[p := ECMA_PROPERTY_NAMEDDATA name
                    (if is_value_defined d then value d else v)
                    (if is_writable_defined d then is_writable d else w)
                    (if is_enumerable_defined d then is_enumerable d else e)
                    (if is_configurable_defined d then is_configurable d else c)]>
             (heap_properties h))).
Proof.
  intros Hp Hg Hs.
  unfold define_own_property_step_12.
  unfold ecma_named_data_property_assign_value, ecma_set_property_writable_attr,
    ecma_set_property_enumerable_attr, ecma_set_property_configurable_attr,
    heap_get_property, heap_set_property.
  rewrite Hg, Hs.
  destruct (is_value_defined d), (is_writable_defined d), (is_enumerable_defined d),
    (is_configurable_defined d); cbn; rewrite ?Hp; cbn;
    repeat (rewrite ?lookup_insert_eq; cbn); rewrite ?insert_insert_eq;
    try reflexivity; do 2 f_equal; destruct h; cbn in *; f_equal;
    symmetry; apply insert_id; exact Hp.
Qed.

(** A named data property that is not configurable keeps its kind and its
    enumerable and configurable attributes: whatever the descriptor is (as
    long as it does not mix the fields of a data descriptor with those of an
    accessor descriptor), [[DefineOwnProperty]] is either rejected or returns
    true, and then the objects of the heap are as before and the node is
    still a named data property of that name with the same enumerable
    attribute, not configurable. *)
Theorem define_own_property_non_configurable_property
    (h : ecma_heap) (obj_p : ecma_object_ptr_t) pr ext ty b l (name : string)
    (p : ecma_property_ptr_t) (v : ecma_value_t) (w e : bool)
    (d : ecma_property_descriptor_t) (is_throw : bool) :
  heap_objects h !! obj_p = Some (ecma_object (header_object pr ext ty b) l) →
  find_named_property_in h l name = Ok (Some p) →
  heap_properties h !! p = Some (ECMA_PROPERTY_NAMEDDATA name v w e false) →
  (is_value_defined d || is_writable_defined d) && (is_get_defined d || is_set_defined d)
  = false →
  ecma_op_general_object_define_own_property h obj_p name d is_throw
  = Ok (ecma_reject h is_throw)
  ∨ ∃ h' v' w',
      ecma_op_general_object_define_own_property h obj_p name d is_throw
      = Ok (ecma_make_simple_completion_value ECMA_SIMPLE_VALUE_TRUE, h')
      ∧ heap_objects h' = heap_objects h
      ∧ heap_properties h'
        = <[p := ECMA_PROPERTY_NAMEDDATA name v' w' e false]> (heap_properties h).
Proof.
  intros Ho Hf Hp Hd.
  assert (Hsame_heap : ∃ h' v' w',
            Ok (ecma_make_simple_completion_value ECMA_SIMPLE_VALUE_TRUE, h)
            = Ok (ecma_make_simple_completion_value ECMA_SIMPLE_VALUE_TRUE, h')
            ∧ heap_objects h' = heap_objects h
            ∧ heap_properties h'
              = <[p := ECMA_PROPERTY_NAMEDDATA name v' w' e false]> (heap_properties h)).
  { exists h, v, w. split; [reflexivity|]. split; [reflexivity|].
    symmetry. apply insert_id. exact Hp. }
  rewrite (define_own_property_owned _ _ _ _ _ _ _ _ _ _ _ Ho Hf).
  unfold define_own_property_on_current.
  unfold property_type, ecma_get_named_data_property_value, ecma_is_property_writable,
    ecma_is_property_enumerable, ecma_is_property_configurable, heap_get_property.
  rewrite Hp. cbn [mbind result_bind is_named_data is_named_accessor negb orb andb JERRY_ASSERT].
  destruct (same_value_total (value d) v) as [same Hsame]. rewrite ?Hsame.
  cbn [mbind result_bind].
  repeat (rewrite !if_Ok; cbn [mbind result_bind]).
  match goal with
  | |- context [if ?c then Ok (ecma_make_simple_completion_value ECMA_SIMPLE_VALUE_TRUE, h)
                else _] => destruct c
  end; [right; exact Hsame_heap|].
  match goal with
  | |- context [if ?c then Ok (ecma_make_simple_completion_value ECMA_SIMPLE_VALUE_TRUE, h)
                else _] => destruct c
  end; [right; exact Hsame_heap|].
  destruct (is_configurable d) eqn:Hcv; [left; reflexivity|].
  assert (He : is_enumerable_defined d = true → is_enumerable d = e
               ∨ (if is_enumerable_defined d
                  then negb (Bool.eqb (is_enumerable d) e) else false) = true).
  { intros ->. destruct (is_enumerable d), e; cbn; auto. }
  destruct (if is_enumerable_defined d then negb (Bool.eqb (is_enumerable d) e) else false)
    eqn:Hrej7; [left; reflexivity|].
  assert (He' : (if is_enumerable_defined d then is_enumerable d else e) = e).
  { destruct (is_enumerable_defined d); [|reflexivity].
    destruct (He eq_refl) as [->|]; [reflexivity|discriminate]. }
  assert (Hc' : (if is_configurable_defined d then is_configurable d else false) = false).
  { rewrite Hcv. destruct (is_configurable_defined d); reflexivity. }
  clear He Hrej7.
  destruct (is_get_defined d) eqn:Hgd, (is_set_defined d) eqn:Hsd;
    destruct (is_value_defined d) eqn:Hvd, (is_writable_defined d) eqn:Hwd;
    try discriminate Hd; cbn -[define_own_property_step_12];
    try (left; reflexivity);
    destruct w, (is_writable d), same; cbn -[define_own_property_step_12];
    try (left; reflexivity);
    right; rewrite (define_own_property_step_12_data h obj_p p name _ _ _ _ d Hp Hgd Hsd);
    rewrite He', Hc'; do 3 eexists; (split; [reflexivity|]); split; reflexivity.
Qed.

End NonConfigurableProperty.

Lemma define_own_property_non_configurable_property_witness :
  @ecma_op_general_object_define_own_property example_host heap_with_frozen_property 1%positive
    "k" data_descriptor_all_true false
  = Ok (@ecma_reject example_host heap_with_frozen_property false)
  ∨ ∃ h' v' w',
      @ecma_op_general_object_define_own_property example_host heap_with_frozen_property
        1%positive "k" data_descriptor_all_true false
      = Ok (ecma_make_simple_completion_value ECMA_SIMPLE_VALUE_TRUE, h')
      ∧ heap_objects h' = heap_objects heap_with_frozen_property
      ∧ heap_properties h'
        = <[1%positive := ECMA_PROPERTY_NAMEDDATA "k" v' w' true false]>
            (heap_properties heap_with_frozen_property).
Proof.
  apply (@define_own_property_non_configurable_property example_host heap_with_frozen_property
           1%positive None false ECMA_OBJECT_TYPE_GENERAL false [1%positive] "k" 1%positive
           (ecma_value_simple ECMA_SIMPLE_VALUE_TRUE) false true data_descriptor_all_true false);
    reflexivity.
Defined.

Section AccessorProperties.
Context `{EcmaHost}.

(** [[Put]] on an own named accessor property without a setter is rejected:
    with the throw flag off the result is false and the heap is unchanged,
    with the throw flag on a TypeError is thrown.  [[Get]] on the property
    calls the getter with the object as the this value, and gives undefined
    when there is no getter. *)
Theorem put_accessor_without_setter_rejected
    (fuel : nat) (h : ecma_heap) (obj_p : ecma_object_ptr_t) pr ext ty b l
    (name : string) (p : ecma_property_ptr_t) (getter_p : option ecma_object_ptr_t)
    (v : ecma_value_t) (e c : bool) :
  heap_objects h !! obj_p = Some (ecma_object (header_object pr ext ty b) l) →
  find_named_property_in h l name = Ok (Some p) →
  heap_properties h !! p = Some (ECMA_PROPERTY_NAMEDACCESSOR name getter_p None e c) →
  ecma_op_general_object_put fuel h obj_p name v false
  = Ok (ecma_make_simple_completion_value ECMA_SIMPLE_VALUE_FALSE, h)
  ∧ ecma_op_general_object_put fuel h obj_p name v true
    = Ok (ecma_make_throw_obj_completion_value (ecma_new_standard_error h ECMA_ERROR_TYPE).1,
          (ecma_new_standard_error h ECMA_ERROR_TYPE).2)
  ∧ ecma_op_general_object_get (S fuel) h obj_p name
    = match getter_p with
      | Some getter_p => ecma_op_function_call h getter_p (ecma_value_object obj_p) []
      | None => Ok (ecma_make_simple_completion_value ECMA_SIMPLE_VALUE_UNDEFINED, h)
      end.
Proof.
  intros Ho Hf Hp.
  pose proof (assert_general_object_ok _ _ _ _ _ _ _ Ho) as Hgen.
  assert (Hcan : ecma_op_general_object_can_put fuel h obj_p name = Ok false).
  { unfold ecma_op_general_object_can_put, ecma_op_object_get_own_property.
    rewrite Hgen. cbn [mbind result_bind].
    rewrite (get_own_property_owned _ _ _ _ _ _ _ _ Ho), Hf. cbn [mbind result_bind].
    unfold property_type, named_accessor_property_set_p, heap_get_property.
    rewrite Hp. reflexivity. }
  assert (Hput : ∀ is_throw,
            ecma_op_general_object_put fuel h obj_p name v is_throw
            = if is_throw then
                let '(exception_obj_p, h) := ecma_new_standard_error h ECMA_ERROR_TYPE in
                Ok (ecma_make_throw_obj_completion_value exception_obj_p, h)
              else Ok (ecma_make_simple_completion_value ECMA_SIMPLE_VALUE_FALSE, h)).
  { intros is_throw. unfold ecma_op_general_object_put, ecma_op_object_can_put.
    rewrite Hgen. cbn [mbind result_bind]. rewrite Hcan. reflexivity. }
  split; [apply (Hput false)|]. split.
  - rewrite (Hput true). destruct (ecma_new_standard_error h ECMA_ERROR_TYPE). reflexivity.
  - unfold ecma_op_general_object_get, ecma_op_object_get_property.
    rewrite Hgen. cbn [mbind result_bind ecma_op_general_object_get_property].
    rewrite Hgen. cbn [mbind result_bind].
    unfold ecma_op_object_get_own_property.
    rewrite (get_own_property_owned _ _ _ _ _ _ _ _ Ho), Hf. cbn [mbind result_bind].
    unfold property_type, named_accessor_property_get_p, heap_get_property.
    rewrite Hp. reflexivity.
Qed.

(** [[DefineOwnProperty]] with an accessor descriptor, for a name that an
    extensible object does not own: the object gets the named accessor
    property with the getter, the setter and the attributes of the
    descriptor; afterwards [[Get]] is the call of the getter and [[Put]] is
    the call of the setter (the result of [[Put]] is true when the call
    completes normally), both with the object as the this value. *)
Theorem define_accessor_property_then_get_and_put
    (fuel : nat) (h : ecma_heap) (obj_p : ecma_object_ptr_t) pr ty b l (name : string)
    (d : ecma_property_descriptor_t) (getter_p setter_p : ecma_object_ptr_t)
    (v : ecma_value_t) (is_throw is_throw' : bool) :
  heap_objects h !! obj_p = Some (ecma_object (header_object pr true ty b) l) →
  find_named_property_in h l name = Ok None →
  is_value_defined d = false →
  is_writable_defined d = false →
  is_get_defined d || is_set_defined d = true →
  get_p d = Some getter_p →
  set_p d = Some setter_p →
  ∃ h1 p,
    ecma_op_general_object_define_own_property h obj_p name d is_throw
    = Ok (ecma_make_simple_completion_value ECMA_SIMPLE_VALUE_TRUE, h1)
    ∧ ecma_op_general_object_get_own_property h1 obj_p name = Ok (Some p)
    ∧ heap_properties h1 !! p
      = Some (ECMA_PROPERTY_NAMEDACCESSOR name (Some getter_p) (Some setter_p)
                (is_enumerable d) (is_configurable d))
    ∧ ecma_op_general_object_get (S fuel) h1 obj_p name
      = ecma_op_function_call h1 getter_p (ecma_value_object obj_p) []
    ∧ ecma_op_general_object_put (S fuel) h1 obj_p name v is_throw'
      = ecma_op_function_call h1 setter_p (ecma_value_object obj_p) [v]
        ≫= (λ '(call_ret_completion, h'),
              Ok (ECMA_TRY_CATCH call_ret_completion
                    (λ _, ecma_make_simple_completion_value ECMA_SIMPLE_VALUE_TRUE)
                    (λ c, c), h')).
Proof.
  intros Ho Hf Hvd Hwd Hgs Hg Hs.
  pose proof (find_named_property_in_none_live _ _ _ Hf) as Hl.
  set (p := fresh (dom (heap_properties h))).
  set (node := ECMA_PROPERTY_NAMEDACCESSOR name (Some getter_p) (Some setter_p)
                 (is_enumerable d) (is_configurable d)).
  set (h1 := mk_heap (<[obj_p := ecma_object (header_object pr true ty b) (p :: l)]>
                        (heap_objects h))
                     (<[p := node]> (heap_properties h))).
  assert (Ho1 : heap_objects h1 !! obj_p = Some (ecma_object (header_object pr true ty b) (p :: l)))
    by apply lookup_insert_eq.
  assert (Hp1 : heap_properties h1 !! p = Some node) by apply lookup_insert_eq.
  assert (Hf1 : find_named_property_in h1 (p :: l) name = Ok (Some p)).
  { rewrite (find_named_property_in_linked h h1 l p node name);
      [|apply fresh_property_unused|exact Hl|reflexivity].
    cbn. rewrite String.eqb_refl. reflexivity. }
  pose proof (assert_general_object_ok _ _ _ _ _ _ _ Ho1) as Hgen1.
  assert (Hown1 : ecma_op_general_object_get_own_property h1 obj_p name = Ok (Some p)).
  { rewrite (get_own_property_owned _ _ _ _ _ _ _ _ Ho1). exact Hf1. }
  assert (Hgp1 : ecma_op_general_object_get_property (S fuel) h1 obj_p name = Ok (Some p)).
  { cbn [ecma_op_general_object_get_property]. rewrite Hgen1. cbn [mbind result_bind].
    unfold ecma_op_object_get_own_property. rewrite Hown1. reflexivity. }
  assert (Hty1 : property_type h1 p = Ok ECMA_PROPERTY_TYPE_NAMEDACCESSOR).
  { unfold property_type, heap_get_property. rewrite Hp1. reflexivity. }
  exists h1, p. split; [|split; [exact Hown1|split; [exact Hp1|split]]].
  - unfold ecma_op_general_object_define_own_property, ecma_op_object_get_own_property.
    rewrite (assert_general_object_ok _ _ _ _ _ _ _ Ho). cbn [mbind result_bind].
    rewrite (get_own_property_owned _ _ _ _ _ _ _ _ Ho), Hf. cbn [mbind result_bind].
    unfold ecma_get_object_extensible, heap_get_object. rewrite Ho.
    cbn [mbind result_bind object_header negb].
    rewrite Hvd, Hwd, Hgs. cbn.
    destruct (is_get_defined d), (is_set_defined d); try discriminate Hgs; cbn;
      unfold ecma_create_named_accessor_property, ecma_find_named_property,
        ecma_get_property_list, link_new_property, heap_get_object;
      rewrite Ho; cbn; rewrite Hf; cbn; rewrite Hg, Hs; reflexivity.
  - unfold ecma_op_general_object_get, ecma_op_object_get_property.
    rewrite Hgen1, Hgp1. cbn [mbind result_bind]. rewrite Hty1. cbn [mbind result_bind].
    unfold named_accessor_property_get_p, heap_get_property. rewrite Hp1. reflexivity.
  - unfold ecma_op_general_object_put, ecma_op_object_can_put, ecma_op_object_get_own_property,
      ecma_op_object_get_property.
    rewrite Hgen1. cbn [mbind result_bind].
    assert (Hcan : ecma_op_general_object_can_put (S fuel) h1 obj_p name = Ok true).
    { unfold ecma_op_general_object_can_put, ecma_op_object_get_own_property.
      rewrite Hgen1. cbn [mbind result_bind]. rewrite Hown1. cbn [mbind result_bind].
      rewrite Hty1. cbn [mbind result_bind is_named_accessor].
      unfold named_accessor_property_set_p, heap_get_property. rewrite Hp1. reflexivity. }
    rewrite Hcan. cbn [mbind result_bind negb]. rewrite Hown1. cbn [mbind result_bind].
    rewrite Hty1. cbn [mbind result_bind is_named_data]. rewrite Hgp1. cbn [mbind result_bind].
    rewrite Hty1. cbn [mbind result_bind is_named_accessor].
    unfold named_accessor_property_set_p, heap_get_property. rewrite Hp1. reflexivity.
Qed.

End AccessorProperties.

Lemma put_accessor_without_setter_rejected_witness :
  @ecma_op_general_object_put example_host 1 heap_with_getter 1%positive "g"
    (ecma_value_string "s") false
  = Ok (ecma_make_simple_completion_value ECMA_SIMPLE_VALUE_FALSE, heap_with_getter)
  ∧ @ecma_op_general_object_put example_host 1 heap_with_getter 1%positive "g"
      (ecma_value_string "s") true
    = Ok (ecma_make_throw_obj_completion_value
            (@ecma_new_standard_error example_host heap_with_getter ECMA_ERROR_TYPE).1,
          (@ecma_new_standard_error example_host heap_with_getter ECMA_ERROR_TYPE).2)
  ∧ @ecma_op_general_object_get example_host 2 heap_with_getter 1%positive "g"
    = @ecma_op_function_call example_host heap_with_getter 3%positive
        (ecma_value_object 1%positive) [].
Proof.
  apply (@put_accessor_without_setter_rejected example_host 1 heap_with_getter 1%positive
           None true ECMA_OBJECT_TYPE_GENERAL false [1%positive] "g" 1%positive
           (Some 3%positive) (ecma_value_string "s") true true);
    reflexivity.
Defined.

Lemma define_accessor_property_then_get_and_put_witness :
  ∃ h1 p,
    @ecma_op_general_object_define_own_property example_host heap_with_bare_object 1%positive
      "a" accessor_descriptor_with_functions false
    = Ok (ecma_make_simple_completion_value ECMA_SIMPLE_VALUE_TRUE, h1)
    ∧ ecma_op_general_object_get_own_property h1 1%positive "a" = Ok (Some p)
    ∧ heap_properties h1 !! p
      = Some (ECMA_PROPERTY_NAMEDACCESSOR "a" (Some 3%positive) (Some 3%positive)
                (is_enumerable accessor_descriptor_with_functions)
                (is_configurable accessor_descriptor_with_functions))
    ∧ @ecma_op_general_object_get example_host 1 h1 1%positive "a"
      = @ecma_op_function_call example_host h1 3%positive (ecma_value_object 1%positive) []
    ∧ @ecma_op_general_object_put example_host 1 h1 1%positive "a" (ecma_value_string "s") true
      = @ecma_op_function_call example_host h1 3%positive (ecma_value_object 1%positive)
          [ecma_value_string "s"]
        ≫= (λ '(call_ret_completion, h'),
              Ok (ECMA_TRY_CATCH call_ret_completion
                    (λ _, ecma_make_simple_completion_value ECMA_SIMPLE_VALUE_TRUE)
                    (λ c, c), h')).
Proof.
  apply (@define_accessor_property_then_get_and_put example_host 0 heap_with_bare_object
           1%positive None ECMA_OBJECT_TYPE_GENERAL false [] "a"
           accessor_descriptor_with_functions 3%positive 3%positive (ecma_value_string "s")
           false true);
    reflexivity.
Defined.

Section VariableDeclarationObjectBound.
Context `{InterpreterHost}.

(** The 'variable declaration' handler on an object-bound environment (the
    global environment is one) whose binding object is extensible, for a
    variable that is not bound: the binding object gets the own data property
    of that name with the value undefined, writable and enumerable, and
    configurable exactly in eval code; both assertions of the handler hold
    and the handler completes with the empty completion and moves to the next
    instruction. *)
Theorem var_decl_on_object_bound_environment
    (fuel : nat) (variable_name : idx_t) (int_data : int_data_t) (h : ecma_heap)
    (lit_id : literal_index_t) outer (binding_obj_p : ecma_object_ptr_t) provide_this le
    pr ty b l :
  deserialize_lit_id_by_uid variable_name (pos int_data) = Some lit_id →
  heap_objects h !! lex_env_p int_data
  = Some (ecma_object (header_object_lex_env outer binding_obj_p provide_this) le) →
  heap_objects h !! binding_obj_p = Some (ecma_object (header_object pr true ty b) l) →
  ecma_op_has_binding fuel h (lex_env_p int_data) (ecma_new_ecma_string_from_lit_index lit_id)
  = Ok false →
  ∃ h1,
    opfunc_var_decl fuel variable_name int_data h
    = Ok (ecma_make_empty_completion_value, pos_incr int_data, h1)
    ∧ own_data_property h1 binding_obj_p (ecma_new_ecma_string_from_lit_index lit_id)
        (ecma_value_simple ECMA_SIMPLE_VALUE_UNDEFINED) true true (is_eval_code int_data)
    ∧ ecma_op_has_binding fuel h1 (lex_env_p int_data)
        (ecma_new_ecma_string_from_lit_index lit_id) = Ok true.
Proof.
  intros Hlit Henv Ho Hhas.
  destruct (create_mutable_binding_object_bound_links fuel h _ outer binding_obj_p
              provide_this le pr ty b l _ (is_eval_code int_data) Henv Ho Hhas)
    as (h1 & p & fuel' & Hfuel & Hcreate & Henv1 & Ho1 & Hf1 & Hp1).
  subst fuel.
  destruct (object_bound_own_data_binding fuel' h1 _ outer binding_obj_p provide_this le
              pr true ty b (p :: l) _ p _ _ _ _ true Henv1 Ho1 Hf1 Hp1)
    as [Hhas1 Hget1].
  exists h1. split; [|split; [|exact Hhas1]].
  - unfold opfunc_var_decl. rewrite Hlit. cbn zeta. rewrite Hhas. cbn [mbind result_bind negb].
    rewrite Hcreate. cbn [mbind result_bind]. rewrite Hget1. reflexivity.
  - exists p. split; [|exact Hp1].
    unfold ecma_find_named_property, ecma_get_property_list, heap_get_object.
    rewrite Ho1. exact Hf1.
Qed.

(** The 'variable declaration' handler on an object-bound environment whose
    binding object is not extensible, for a variable that is not bound:
    CreateMutableBinding completes with the TypeError that
    [[DefineOwnProperty]] throws, and the handler, which expects the empty
    completion, fails its assertion. *)
Theorem var_decl_on_not_extensible_binding_object
    (fuel : nat) (variable_name : idx_t) (int_data : int_data_t) (h : ecma_heap)
    (lit_id : literal_index_t) outer (binding_obj_p : ecma_object_ptr_t) provide_this le
    pr ty b l :
  deserialize_lit_id_by_uid variable_name (pos int_data) = Some lit_id →
  heap_objects h !! lex_env_p int_data
  = Some (ecma_object (header_object_lex_env outer binding_obj_p provide_this) le) →
  heap_objects h !! binding_obj_p = Some (ecma_object (header_object pr false ty b) l) →
  ecma_op_has_binding fuel h (lex_env_p int_data) (ecma_new_ecma_string_from_lit_index lit_id)
  = Ok false →
  ecma_op_create_mutable_binding h (lex_env_p int_data)
    (ecma_new_ecma_string_from_lit_index lit_id) (is_eval_code int_data)
  = Ok (ecma_make_throw_obj_completion_value (ecma_new_standard_error h ECMA_ERROR_TYPE).1,
        (ecma_new_standard_error h ECMA_ERROR_TYPE).2)
  ∧ opfunc_var_decl fuel variable_name int_data h
    = Fatal (assertion_failed "ecma_is_completion_value_empty (completion)").
Proof.
  intros Hlit Henv Ho Hhas.
  destruct (object_bound_environment_checks _ _ _ _ _ _ Henv) as (Ha & Ht & Hbo).
  pose proof Hhas as Hhas'.
  rewrite (has_binding_object_bound _ _ _ _ _ _ _ _ Henv) in Hhas'.
  assert (Hg : ecma_op_general_object_get_property fuel h binding_obj_p
                 (ecma_new_ecma_string_from_lit_index lit_id) = Ok None).
  { unfold ecma_op_object_get_property in Hhas'.
    destruct (ecma_op_general_object_get_property fuel h binding_obj_p _) as [[q|]|];
      cbn in Hhas'; [discriminate|reflexivity|discriminate]. }
  destruct (get_property_none_inv _ _ _ _ _ _ _ _ _ Ho Hg) as [Hf _].
  assert (Hcreate : ecma_op_create_mutable_binding h (lex_env_p int_data)
                      (ecma_new_ecma_string_from_lit_index lit_id) (is_eval_code int_data)
                    = Ok (ecma_make_throw_obj_completion_value
                            (ecma_new_standard_error h ECMA_ERROR_TYPE).1,
                          (ecma_new_standard_error h ECMA_ERROR_TYPE).2)).
  { unfold ecma_op_create_mutable_binding. rewrite Ha. cbn [mbind result_bind].
    rewrite Ht. cbn [mbind result_bind]. rewrite Hbo. cbn [mbind result_bind].
    unfold ecma_op_object_define_own_property, ecma_op_general_object_define_own_property,
      ecma_op_object_get_own_property.
    rewrite (assert_general_object_ok _ _ _ _ _ _ _ Ho). cbn [mbind result_bind].
    rewrite (get_own_property_owned _ _ _ _ _ _ _ _ Ho), Hf. cbn [mbind result_bind].
    unfold ecma_get_object_extensible, heap_get_object. rewrite Ho.
    cbn [mbind result_bind object_header negb]. unfold ecma_reject.
    destruct (ecma_new_standard_error h ECMA_ERROR_TYPE). reflexivity. }
  split; [exact Hcreate|].
  unfold opfunc_var_decl. rewrite Hlit. cbn zeta. rewrite Hhas. cbn [mbind result_bind negb].
  rewrite Hcreate. reflexivity.
Qed.

End VariableDeclarationObjectBound.

Lemma var_decl_on_object_bound_environment_witness :
  ∃ h1,
    @opfunc_var_decl example_host example_interpreter_host 1 0%Z
      example_object_bound_frame heap_with_environments
    = Ok (ecma_make_empty_completion_value, pos_incr example_object_bound_frame, h1)
    ∧ own_data_property h1 4%positive
        (@ecma_new_ecma_string_from_lit_index example_host example_interpreter_host 0%Z)
        (ecma_value_simple ECMA_SIMPLE_VALUE_UNDEFINED) true true false
    ∧ ecma_op_has_binding 1 h1 3%positive
        (@ecma_new_ecma_string_from_lit_index example_host example_interpreter_host 0%Z)
      = Ok true.
Proof.
  apply (@var_decl_on_object_bound_environment example_host example_interpreter_host 1 0%Z
           example_object_bound_frame heap_with_environments 0%Z None 4%positive true []
           None ECMA_OBJECT_TYPE_GENERAL false []).
  - reflexivity.
  - reflexivity.
  - reflexivity.
  - reflexivity.
Defined.

Lemma var_decl_on_not_extensible_binding_object_witness :
  @ecma_op_create_mutable_binding example_host heap_with_not_extensible_global 3%positive
    (@ecma_new_ecma_string_from_lit_index example_host example_interpreter_host 0%Z) false
  = Ok (ecma_make_throw_obj_completion_value
          (@ecma_new_standard_error example_host heap_with_not_extensible_global
             ECMA_ERROR_TYPE).1,
        (@ecma_new_standard_error example_host heap_with_not_extensible_global
           ECMA_ERROR_TYPE).2)
  ∧ @opfunc_var_decl example_host example_interpreter_host 1 0%Z
    example_object_bound_frame heap_with_not_extensible_global
  = Fatal (assertion_failed "ecma_is_completion_value_empty (completion)").
Proof.
  apply (@var_decl_on_not_extensible_binding_object example_host example_interpreter_host
           1 0%Z example_object_bound_frame heap_with_not_extensible_global 0%Z None
           4%positive true [] None ECMA_OBJECT_TYPE_GENERAL false []).
  - reflexivity.
  - reflexivity.
  - reflexivity.
  - reflexivity.
Defined.

Section InterpreterLoopRuns.
Context `{InterpreterHost}.

Lemma with_pos_pos (int_data : int_data_t) : with_pos int_data (pos int_data) = int_data.
Proof. destruct int_data. reflexivity. Qed.

(** The interpreter loop over a run of [k] 'nop' opcodes followed by an
    'exitval' opcode, when the opcode counter does not wrap around: the loop
    runs the [k + 1] handlers and ends at the 'exitval' with the exit
    completion (successful exactly for the status code 0), the frame is as at
    the start but for the position, which is that of the 'exitval', and the
    heap is unchanged; a status code other than 0 and 1 fails the assertion of
    the 'exitval' handler. *)
Theorem run_int_loop_nops_then_exitval
    (k fuel : nat) (__program : list opcode_t) (int_data : int_data_t) (h : ecma_heap)
    (status_code : idx_t) :
  (0 ≤ pos int_data)%Z →
  (pos int_data + Z.of_nat k < 65536)%Z →
  (∀ i : nat, i < k → read_opcode __program (pos int_data + Z.of_nat i) = Ok op_nop) →
  read_opcode __program (pos int_data + Z.of_nat k) = Ok (op_exitval status_code) →
  run_int_loop (S (k + fuel)) __program int_data h
  = if ((status_code =? 0) || (status_code =? 1))%Z then
      Ok (ecma_make_exit_completion_value (status_code =? 0)%Z,
          with_pos int_data (pos int_data + Z.of_nat k), h)
    else
      Fatal (assertion_failed
               "opdata.data.exitval.status_code == 0 || opdata.data.exitval.status_code == 1").
Proof.
  revert int_data. induction k as [|k IH]; intros int_data Hlo Hhi Hnops Hexit.
  - rewrite Z.add_0_r in Hexit |- *. rewrite with_pos_pos.
    cbn [run_int_loop]. rewrite Hexit. cbn [mbind result_bind __opfuncs].
    unfold opfunc_exitval.
    destruct ((status_code =? 0) || (status_code =? 1))%Z; reflexivity.
  - pose proof (Hnops 0 ltac:(lia)) as Hfirst. rewrite Z.add_0_r in Hfirst.
    change (S (S k + fuel)) with (S (S (k + fuel))).
    cbn [run_int_loop]. rewrite Hfirst. cbn [mbind result_bind __opfuncs].
    unfold opfunc_nop. cbn [mbind result_bind].
    change (run_int_loop (S (k + fuel)) __program (pos_incr int_data) h = 
            if ((status_code =? 0) || (status_code =? 1))%Z then
              Ok (ecma_make_exit_completion_value (status_code =? 0)%Z,
                  with_pos int_data (pos int_data + Z.of_nat (S k)), h)
            else
              Fatal (assertion_failed
                "opdata.data.exitval.status_code == 0 || opdata.data.exitval.status_code == 1")).
    assert (Hpos : pos (pos_incr int_data) = (pos int_data + 1)%Z).
    { destruct int_data. cbn. unfold opcode_counter_incr. cbn in Hlo, Hhi.
      apply Z.mod_small. lia. }
    rewrite (IH (pos_incr int_data)).
    + rewrite Hpos.
      replace (pos int_data + 1 + Z.of_nat k)%Z with (pos int_data + Z.of_nat (S k))%Z by lia.
      destruct int_data. reflexivity.
    + rewrite Hpos. lia.
    + rewrite Hpos. lia.
    + intros i Hi. rewrite Hpos.
      replace (pos int_data + 1 + Z.of_nat i)%Z with (pos int_data + Z.of_nat (S i))%Z by lia.
      apply Hnops. lia.
    + rewrite Hpos.
      replace (pos int_data + 1 + Z.of_nat k)%Z with (pos int_data + Z.of_nat (S k))%Z by lia.
      exact Hexit.
Qed.

End InterpreterLoopRuns.

Lemma run_int_loop_nops_then_exitval_witness :
  @run_int_loop example_host example_interpreter_host 4 example_nop_program example_frame
    example_frame_heap
  = Ok (ecma_make_exit_completion_value true, with_pos example_frame 4%Z, example_frame_heap).
Proof.
  apply (@run_int_loop_nops_then_exitval example_host example_interpreter_host 3 0
           example_nop_program example_frame example_frame_heap 0%Z).
  - cbn. lia.
  - cbn. lia.
  - intros [|[|[|i]]] Hi; [reflexivity|reflexivity|reflexivity|lia].
  - reflexivity.
Defined.
